(** * SCMXpert: the authentication, authorization and password-reset core

    A shallow embedding of [app/auth.py], [app/routes/auth_routes.py] and
    [app/routes/user_routes.py].

    - A MongoDB document is a finite map from field names to values; the
      [user] collection is the list of its documents in natural order, so
      [find_one], [update_one] and [delete_one] act on the first match.
    - A handler is a computation in a reader/state/exception monad: it reads
      the per-request environment (configuration, clock, randomness), threads
      the world (collection, session, trace of driver calls) and either
      returns or raises.
    - Third-party primitives are symbolic: a JWS is a term carrying its
      algorithm, signing key and claims; the bcrypt digest and check are
      fields of the environment.  [logger] calls are not modelled, except
      that a subscript evaluated for a log line can raise [KeyError].
    - Time is counted in seconds, and every clock read of one request
      returns the request's time [utcnow]; a driver call never fails for
      lack of connectivity. *)

From stdpp Require Import gmap strings list fin_maps.
From Stdlib Require Import ZArith Lia.

Local Open Scope Z_scope.

(** ** Values and documents *)

Inductive Value :=
| VStr (s : string)
| VDate (t : Z)
| VNull
| VOid (n : nat).

#[global] Instance Value_eq_dec : EqDecision Value.
Proof. solve_decision. Defined.

(** A BSON document, a Python dict with string keys. *)
Abbreviation Doc := (gmap string Value).

(** A dict literal. *)
Definition dict (fields : list (string * Value)) : Doc := list_to_map fields.

(** Python truthiness of the values the handlers test with [if] / [not]. *)
Definition truthy_doc (d : option Doc) : bool :=
  match d with
  | Some m => negb (bool_decide (m = ∅))
  | None => false
  end.

(** ** Query filters

    The handlers use equality on a field and [{"$gt": <datetime>}]. *)

Inductive Cond :=
| CEq (v : Value)
| CGtDate (t : Z).

#[global] Instance Cond_eq_dec : EqDecision Cond.
Proof. solve_decision. Defined.

Definition Filter := list (string * Cond).

(** Equality with [null] also matches a missing field; [$gt] against a date
    matches only a stored date that is strictly later. *)
Definition cond_holds (field : option Value) (c : Cond) : bool :=
  match c with
  | CEq VNull => bool_decide (field = None) || bool_decide (field = Some VNull)
  | CEq v => bool_decide (field = Some v)
  | CGtDate t =>
      match field with
      | Some (VDate a) => t <? a
      | _ => false
      end
  end.

Definition matches (f : Filter) (d : Doc) : bool :=
  forallb (fun kc => cond_holds (d !! kc.1) kc.2) f.

(** ** Collections *)

Fixpoint update_first (p : Doc -> bool) (g : Doc -> Doc) (c : list Doc) : list Doc :=
  match c with
  | [] => []
  | d :: c' => if p d then g d :: c' else d :: update_first p g c'
  end.

Fixpoint delete_first (p : Doc -> bool) (c : list Doc) : list Doc :=
  match c with
  | [] => []
  | d :: c' => if p d then c' else d :: delete_first p c'
  end.

(** [{"$set": s}]: the fields of [s] overwrite those of the document. *)
Definition apply_set (s : Doc) (d : Doc) : Doc := s ∪ d.

Definition oid_of (d : Doc) : option nat :=
  match d !! "_id" with
  | Some (VOid n) => Some n
  | _ => None
  end.

(** The driver generates an ObjectId no stored document carries. *)
Definition fresh_oid (c : list Doc) : nat :=
  S (foldr (fun d acc => Nat.max (default 0%nat (oid_of d)) acc) 0%nat c).

Record UpdateResult := { matched_count : nat; modified_count : nat }.
Record DeleteResult := { deleted_count : nat }.

Inductive DbCall :=
| Call_find_one (f : Filter)
| Call_insert_one (d : Doc)
| Call_update_one (f : Filter) (s : Doc)
| Call_delete_one (f : Filter).

(** ** Exceptions and outcomes *)

Inductive Exn :=
| HTTPException (status_code : nat) (detail : string) (headers : list (string * string))
| JWTError (reason : string)
| UnknownHashError
| MalformedHashError
| TypeError
| KeyError (key : string)
| DuplicateKeyError
| PasswordValueError
| PasswordSizeError.

#[global] Instance Exn_eq_dec : EqDecision Exn.
Proof. solve_decision. Defined.

Inductive outcome (A : Type) :=
| Returns (a : A)
| Raises (e : Exn).
Arguments Returns {A} a.
Arguments Raises {A} e.

(** ** Bearer tokens

    [Jws alg key claims] is the compact serialization [jwt.encode] produces
    for [claims] under [key] and [alg]; [Opaque s] is any other string. *)

Record Claims := { sub : option string; role : option string; exp : option Z }.

Inductive JWT :=
| Jws (alg key : string) (claims : Claims)
| Opaque (s : string).

Definition truthy_token (t : option JWT) : bool :=
  match t with
  | Some (Jws _ _ _) => true
  | Some (Opaque s) => negb (bool_decide (s = ""))
  | None => false
  end.

(** ** Environment and world *)

Record Config := {
  SECRET_KEY : string;
  ALGORITHM : string;
  ACCESS_TOKEN_EXPIRE_MINUTES : Z
}.

(** The hashing context refuses a secret before it hashes or checks it: one
    longer than [MAX_PASSWORD_SIZE] characters with [PasswordSizeError], and
    one containing a NUL character with [PasswordValueError] (the bcrypt
    handler's null-password error). *)
Definition MAX_PASSWORD_SIZE : nat := 4096.

Fixpoint has_nul (secret : string) : bool :=
  match secret with
  | EmptyString => false
  | String c rest => Ascii.eqb c Ascii.zero || has_nul rest
  end.

Definition validate_secret (secret : string) : option Exn :=
  if (MAX_PASSWORD_SIZE <? String.length secret)%nat then Some PasswordSizeError
  else if has_nul secret then Some PasswordValueError
  else None.

(** The bcrypt handler behind [pwd_context]: digest of an accepted secret
    under a salt, and check of a secret against a digest (which may reject
    a malformed digest).  The check validates the secret as the hasher
    does, so it accepts no secret the hasher refuses. *)
Record Bcrypt := {
  bcrypt_digest : string -> string -> string;
  bcrypt_check : string -> string -> outcome bool;
  bcrypt_check_validates :
    forall secret hash,
      bcrypt_check secret hash = Returns true -> validate_secret secret = None
}.

Record Env := {
  cfg : Config;
  bcrypt : Bcrypt;
  utcnow : Z;                 (* datetime.now(timezone.utc), in seconds *)
  token_urlsafe : string;     (* secrets.token_urlsafe(32) *)
  gensalt : string            (* the salt drawn by pwd_context.hash *)
}.

Record World := {
  users : list Doc;                 (* db["user"] *)
  session : gmap string string;     (* request.session *)
  db_trace : list DbCall            (* driver calls, oldest first *)
}.

(** ** The handler monad *)

Definition M (A : Type) : Type := Env -> World -> outcome A * World.

Definition ret {A} (a : A) : M A := fun _ w => (Returns a, w).
Definition raise {A} (e : Exn) : M A := fun _ w => (Raises e, w).
Definition bind {A B} (c : M A) (k : A -> M B) : M B :=
  fun env w =>
    match c env w with
    | (Returns a, w') => k a env w'
    | (Raises e, w') => (Raises e, w')
    end.

Declare Scope handler_scope.
Delimit Scope handler_scope with handler.
Notation "x <- c ;; k" := (bind c (fun x => k))
  (at level 20, c at level 99, k at level 200, right associativity) : handler_scope.
Notation "c ;; k" := (bind c (fun _ => k))
  (at level 100, k at level 200, right associativity) : handler_scope.
Local Open Scope handler_scope.

(** [try: body except <caught>: handler]. *)
Definition try_except {A} (body : M A) (caught : Exn -> bool) (handler : Exn -> M A) : M A :=
  fun env w =>
    match body env w with
    | (Raises e, w') => if caught e then handler e env w' else (Raises e, w')
    | r => r
    end.

Definition ask : M Env := fun env w => (Returns env, w).
Definition lift {A} (o : outcome A) : M A := fun _ w => (o, w).

Definition set_flash (msg : string) : M unit :=
  fun _ w =>
    (Returns tt,
     {| users := users w; session := <["flash" := msg]> (session w); db_trace := db_trace w |}).

Definition db (call : DbCall) (c : list Doc) (w : World) : World :=
  {| users := c; session := session w; db_trace := db_trace w ++ [call] |}.

Definition find_one (f : Filter) : M (option Doc) :=
  fun _ w => (Returns (find (matches f) (users w)), db (Call_find_one f) (users w) w).

Definition update_one (f : Filter) (s : Doc) : M UpdateResult :=
  fun _ w =>
    let r :=
      match find (matches f) (users w) with
      | Some d =>
          {| matched_count := 1;
             modified_count := if bool_decide (apply_set s d = d) then 0 else 1 |}
      | None => {| matched_count := 0; modified_count := 0 |}
      end in
    (Returns r,
     db (Call_update_one f s) (update_first (matches f) (apply_set s) (users w)) w).

Definition delete_one (f : Filter) : M DeleteResult :=
  fun _ w =>
    let n := match find (matches f) (users w) with Some _ => 1%nat | None => 0%nat end in
    (Returns {| deleted_count := n |},
     db (Call_delete_one f) (delete_first (matches f) (users w)) w).

(** [insert_one] adds a generated ["_id"] when the document has none, and
    refuses a document whose ["_id"] is already stored. *)
Definition insert_one (d : Doc) : M unit :=
  fun _ w =>
    match d !! "_id" with
    | None =>
        (Returns tt,
         db (Call_insert_one d) (users w ++ [<["_id" := VOid (fresh_oid (users w))]> d]) w)
    | Some v =>
        if existsb (fun d' => bool_decide (d' !! "_id" = Some v)) (users w)
        then (Raises DuplicateKeyError, db (Call_insert_one d) (users w) w)
        else (Returns tt, db (Call_insert_one d) (users w ++ [d]) w)
    end.

(** [d[key]]. *)
Definition getitem (d : Doc) (key : string) : M Value :=
  match d !! key with
  | Some v => ret v
  | None => raise (KeyError key)
  end.

(** * app/config.py *)

Definition LOGIN_ROUTE : string := "/login".
Definition SIGNUP_ROUTE : string := "/signup".
Definition USER_MANAGEMENT_ROUTE : string := "/user_management".
Definition FORGOT_PASSWORD_ROUTE : string := "/forgot-password".
Definition RESET_PASSWORD_ROUTE : string := "/reset-password".

Definition HTTP_302_FOUND : nat := 302.
Definition HTTP_303_SEE_OTHER : nat := 303.
Definition HTTP_401_UNAUTHORIZED : nat := 401.
Definition HTTP_403_FORBIDDEN : nat := 403.

(** * app/models.py *)

Module Token.
Record t := { access_token : JWT; token_type : string }.
End Token.

Module TokenData.
Record t := { username : option string; role : option string }.
End TokenData.

(** * app/auth.py *)

(** [pwd_context = CryptContext(schemes=["bcrypt"], deprecated="auto")]:
    a hash is handed to the bcrypt handler when it starts with one of the
    handler's idents; a hash no configured scheme identifies is refused. *)
Definition bcrypt_idents : list string := ["$2$"; "$2a$"; "$2x$"; "$2y$"; "$2b$"].

Definition bcrypt_identify (hash : string) : bool :=
  existsb (fun ident => String.prefix ident hash) bcrypt_idents.

Definition pwd_context_verify (secret hash : string) : M bool :=
  env <- ask ;;
  if bcrypt_identify hash
  then lift (bcrypt_check (bcrypt env) secret hash)
  else raise UnknownHashError.

Definition pwd_context_hash (secret : string) : M string :=
  env <- ask ;;
  match validate_secret secret with
  | Some refusal => raise refusal
  | None => ret (bcrypt_digest (bcrypt env) (gensalt env) secret)
  end.

Definition verify_password (plain_password hashed_password : string) : M bool :=
  pwd_context_verify plain_password hashed_password.

Definition get_password_hash (password : string) : M string :=
  pwd_context_hash password.

(** [jwt.encode(claims, key, algorithm=alg)]. *)
Definition jwt_encode (claims : Claims) (key alg : string) : JWT := Jws alg key claims.

(** [jwt.decode(token, key, algorithms=algs)]: the token must be a JWS whose
    algorithm is allowed and whose signature verifies under [key]; an [exp]
    claim earlier than the clock is refused.  Every failure is a [JWTError]. *)
Definition jwt_decode (token : JWT) (key : string) (algorithms : list string) : M Claims :=
  env <- ask ;;
  match token with
  | Opaque _ => raise (JWTError "Not enough segments")
  | Jws alg k claims =>
      if negb (bool_decide (alg ∈ algorithms))
      then raise (JWTError "The specified alg value is not allowed")
      else if negb (bool_decide (k = key))
      then raise (JWTError "Signature verification failed.")
      else match exp claims with
           | Some e =>
               if e <? utcnow env
               then raise (JWTError "Signature has expired.")
               else ret claims
           | None => ret claims
           end
  end.

Definition is_JWTError (e : Exn) : bool :=
  match e with
  | JWTError _ => true
  | _ => false
  end.

(** [data] carries ["sub"] and ["role"]; [expires_delta] is in seconds. *)
Definition create_access_token (data : Claims) (expires_delta : option Z) : M JWT :=
  env <- ask ;;
  let to_encode := data in
  let expires_delta :=
    match expires_delta with
    | None => 60 * ACCESS_TOKEN_EXPIRE_MINUTES (cfg env)
    | Some delta => delta
    end in
  let expire := utcnow env + expires_delta in
  let to_encode := {| sub := sub to_encode; role := role to_encode; exp := Some expire |} in
  let encoded_jwt := jwt_encode to_encode (SECRET_KEY (cfg env)) (ALGORITHM (cfg env)) in
  ret encoded_jwt.

Record Request := { cookies : gmap string JWT }.

Definition credentials_exception : Exn :=
  HTTPException HTTP_401_UNAUTHORIZED "Not authenticated" [("WWW-Authenticate", "Bearer")].

(** [token] is what [oauth2_scheme] extracted from the Authorization header,
    [None] when the header is absent ([auto_error=False]). *)
Definition get_current_user (request : Request) (token : option JWT) : M Doc :=
  env <- ask ;;
  let jwt_token := cookies request !! "access_token" in
  let jwt_token :=
    if negb (truthy_token jwt_token) && truthy_token token then token else jwt_token in
  match jwt_token with
  | None => raise credentials_exception
  | Some jwt_token =>
      if negb (truthy_token (Some jwt_token)) then raise credentials_exception
      else
        token_data <-
          try_except
            (payload <- jwt_decode jwt_token (SECRET_KEY (cfg env)) [ALGORITHM (cfg env)] ;;
             match sub payload with
             | None => raise credentials_exception
             | Some username =>
                 ret {| TokenData.username := Some username;
                        TokenData.role := role payload |}
             end)
            is_JWTError
            (fun e => raise credentials_exception) ;;
        user <- find_one [("email", CEq (from_option VStr VNull (TokenData.username token_data)))] ;;
        match user with
        | None => raise credentials_exception
        | Some user => ret user
        end
  end.

Definition get_current_active_user (current_user : Doc) : M Doc :=
  if negb (truthy_doc (Some current_user))
  then raise (HTTPException 400 "Inactive user" [])
  else ret current_user.

Definition verify_admin (current_user : Doc) : M Doc :=
  if bool_decide (current_user !! "role" ≠ Some (VStr "admin"))
  then raise (HTTPException HTTP_403_FORBIDDEN "Not enough permissions" [])
  else ret current_user.

(** FastAPI resolves [Depends(get_current_active_user)] and
    [Depends(verify_admin)] by running the chain of dependencies in order. *)
Definition Depends_get_current_active_user (request : Request) (token : option JWT) : M Doc :=
  current_user <- get_current_user request token ;;
  get_current_active_user current_user.

Definition Depends_verify_admin (request : Request) (token : option JWT) : M Doc :=
  current_user <- Depends_get_current_active_user request token ;;
  verify_admin current_user.

(** * app/routes/auth_routes.py *)

Inductive Response :=
| RedirectResponse (url : string) (status_code : nat).

Definition str_exn (e : Exn) : string :=
  match e with
  | HTTPException _ detail _ => detail
  | JWTError reason => reason
  | UnknownHashError => "hash could not be identified"
  | MalformedHashError => "malformed bcrypt hash"
  | TypeError => "TypeError"
  | KeyError key => key
  | DuplicateKeyError => "duplicate key error"
  | PasswordValueError => "bcrypt does not allow NULL bytes in password"
  | PasswordSizeError => "password exceeds maximum allowed size"
  end.

Definition post_signup (fullname email password confirm_password : string) : M Response :=
  if bool_decide (password ≠ confirm_password) then
    set_flash "Passwords do not match." ;;
    ret (RedirectResponse SIGNUP_ROUTE HTTP_302_FOUND)
  else
    existing <- find_one [("email", CEq (VStr email))] ;;
    if truthy_doc existing then
      set_flash "Email already registered." ;;
      ret (RedirectResponse SIGNUP_ROUTE HTTP_302_FOUND)
    else
      let assigned_role := "user" in
      password_hash <- get_password_hash password ;;
      env <- ask ;;
      try_except
        (insert_one (dict [("name", VStr fullname);
                           ("email", VStr email);
                           ("password_hash", VStr password_hash);
                           ("role", VStr assigned_role);
                           ("created_at", VDate (utcnow env))]) ;;
         set_flash "Account created successfully! Please log in.")
        (fun _ => true)
        (fun e => set_flash ("Error creating account: " +:+ str_exn e)) ;;
      ret (RedirectResponse LOGIN_ROUTE HTTP_302_FOUND).

(** [POST /token]: the issued token embeds the role stored at login time,
    ["user"] when the record has none. *)
Definition login_for_api_token (username password : string) : M Token.t :=
  let unauthorized :=
    HTTPException HTTP_401_UNAUTHORIZED "Incorrect username or password"
                  [("WWW-Authenticate", "Bearer")] in
  user <- find_one [("email", CEq (VStr username))] ;;
  match user with
  | Some user' =>
      if negb (truthy_doc user) then raise unauthorized
      else
        password_hash <- getitem user' "password_hash" ;;
        ok <- match password_hash with
              | VStr h => verify_password password h
              | VNull => ret false
              | _ => raise TypeError
              end ;;
        if negb ok then raise unauthorized
        else
          env <- ask ;;
          let access_token_expires := 60 * ACCESS_TOKEN_EXPIRE_MINUTES (cfg env) in
          stored_role <- match user' !! "role" with
                         | None => ret (Some "user")
                         | Some (VStr r) => ret (Some r)
                         | Some VNull => ret None
                         | Some _ => raise TypeError
                         end ;;
          access_token <-
            create_access_token
              {| sub := Some username; role := stored_role; exp := None |}
              (Some access_token_expires) ;;
          ret {| Token.access_token := access_token; Token.token_type := "bearer" |}
  | None => raise unauthorized
  end.

Definition process_forgot_password (email : string) : M Response :=
  user <- find_one [("email", CEq (VStr email))] ;;
  (if truthy_doc user then
     env <- ask ;;
     let reset_token := token_urlsafe env in
     let expires_at := utcnow env + 3600 in
     update_one [("email", CEq (VStr email))]
                (dict [("reset_token", VStr reset_token);
                       ("reset_token_expires_at", VDate expires_at);
                       ("updated_at", VDate (utcnow env))]) ;;
     ret tt
   else ret tt) ;;
  set_flash "If an account with that email exists, instructions to reset your password have been sent." ;;
  ret (RedirectResponse LOGIN_ROUTE HTTP_302_FOUND).

Definition reset_password_post (token new_password confirm_password : string) : M Response :=
  if bool_decide (new_password ≠ confirm_password) then
    set_flash "Passwords do not match." ;;
    ret (RedirectResponse (RESET_PASSWORD_ROUTE +:+ "?token=" +:+ token) HTTP_302_FOUND)
  else
    env <- ask ;;
    user <- find_one [("reset_token", CEq (VStr token));
                      ("reset_token_expires_at", CGtDate (utcnow env))] ;;
    match user with
    | Some user' =>
        if negb (truthy_doc user) then
          set_flash "Invalid or expired password reset token." ;;
          ret (RedirectResponse FORGOT_PASSWORD_ROUTE HTTP_302_FOUND)
        else
          new_password_hash <- get_password_hash new_password ;;
          user_id <- getitem user' "_id" ;;
          update_one [("_id", CEq user_id)]
                     (dict [("password_hash", VStr new_password_hash);
                            ("reset_token", VNull);
                            ("reset_token_expires_at", VNull);
                            ("updated_at", VDate (utcnow env))]) ;;
          getitem user' "email" ;;      (* formatted into the log line *)
          set_flash "Your password has been reset successfully. Please log in." ;;
          ret (RedirectResponse LOGIN_ROUTE HTTP_302_FOUND)
    | None =>
        set_flash "Invalid or expired password reset token." ;;
        ret (RedirectResponse FORGOT_PASSWORD_ROUTE HTTP_302_FOUND)
    end.

(** * app/routes/user_routes.py *)

Definition update_user (email : string) (current_user : Doc) (name new_email role : string) : M Response :=
  getitem current_user "email" ;;       (* formatted into the log line *)
  let role := if bool_decide (role ∉ ["user"; "admin"]) then "user" else role in
  conflict <- (if bool_decide (email ≠ new_email)
               then existing <- find_one [("email", CEq (VStr new_email))] ;;
                    ret (truthy_doc existing)
               else ret false) ;;
  if (conflict : bool) then
    set_flash "New email already exists for another user." ;;
    ret (RedirectResponse ("/edit-user/" +:+ email) HTTP_303_SEE_OTHER)
  else
    env <- ask ;;
    let update_data := dict [("name", VStr name);
                             ("email", VStr new_email);
                             ("role", VStr role);
                             ("updated_at", VDate (utcnow env))] in
    result <- update_one [("email", CEq (VStr email))] update_data ;;
    (if (0 <? modified_count result)%nat
     then set_flash "User updated successfully."
     else set_flash "No changes made or user not found.") ;;
    ret (RedirectResponse USER_MANAGEMENT_ROUTE HTTP_303_SEE_OTHER).

Definition assign_admin (email : string) (current_user : Doc) : M Response :=
  own_email <- getitem current_user "email" ;;
  if bool_decide (VStr email = own_email) then
    set_flash "You cannot change your own role." ;;
    ret (RedirectResponse USER_MANAGEMENT_ROUTE HTTP_303_SEE_OTHER)
  else
    env <- ask ;;
    result <- update_one [("email", CEq (VStr email))]
                         (dict [("role", VStr "admin"); ("updated_at", VDate (utcnow env))]) ;;
    (if (0 <? modified_count result)%nat
     then set_flash ("User " +:+ email +:+ " promoted to admin successfully.")
     else set_flash "Failed to update user role or user not found.") ;;
    ret (RedirectResponse USER_MANAGEMENT_ROUTE HTTP_303_SEE_OTHER).

Definition delete_user (email : string) (current_user : Doc) : M Response :=
  own_email <- getitem current_user "email" ;;
  if bool_decide (VStr email = own_email) then
    set_flash "You cannot delete your own account." ;;
    ret (RedirectResponse USER_MANAGEMENT_ROUTE HTTP_303_SEE_OTHER)
  else
    try_except
      (result <- delete_one [("email", CEq (VStr email))] ;;
       if (0 <? deleted_count result)%nat
       then set_flash ("User " +:+ email +:+ " deleted successfully.")
       else set_flash ("User " +:+ email +:+ " not found."))
      (fun _ => true)
      (fun e => set_flash ("Error deleting user: " +:+ str_exn e)) ;;
    ret (RedirectResponse USER_MANAGEMENT_ROUTE HTTP_303_SEE_OTHER).

(** The routes as FastAPI serves them: the dependency runs first, and the
    handler body runs only when it returned a principal. *)
Definition route_update_user (request : Request) (token : option JWT)
    (email name new_email role : string) : M Response :=
  current_user <- Depends_verify_admin request token ;;
  update_user email current_user name new_email role.

Definition route_assign_admin (request : Request) (token : option JWT) (email : string) : M Response :=
  current_user <- Depends_verify_admin request token ;;
  assign_admin email current_user.

Definition route_delete_user (request : Request) (token : option JWT) (email : string) : M Response :=
  current_user <- Depends_verify_admin request token ;;
  delete_user email current_user.

(** * Vocabulary of the properties *)

(** MongoDB keeps ["_id"] present and unique in a collection. *)
Definition store_wf (c : list Doc) : Prop :=
  Forall (fun d => is_Some (oid_of d)) c /\ NoDup (oid_of <$> c).

#[global] Instance store_wf_dec (c : list Doc) : Decision (store_wf c).
Proof. unfold store_wf. apply _. Defined.

(** The data-model invariant on roles. *)
Definition role_ok (d : Doc) : Prop :=
  d !! "role" = Some (VStr "user") \/ d !! "role" = Some (VStr "admin").

Definition roles_ok (c : list Doc) : Prop := Forall role_ok c.

(** The token the resolver decodes: the cookie when it is a non-empty
    string, else the header token. *)
Definition selected_token (request : Request) (token : option JWT) : option JWT :=
  if truthy_token (cookies request !! "access_token")
  then cookies request !! "access_token"
  else if truthy_token token then token else None.

Definition decode (env : Env) (t : JWT) : outcome Claims :=
  (jwt_decode t (SECRET_KEY (cfg env)) [ALGORITHM (cfg env)] env
     {| users := []; session := ∅; db_trace := [] |}).1.

(** A token is valid for a principal when it decodes under the configured
    key and algorithm, is not expired, and its subject is the e-mail of a
    stored user, the first such record being the principal. *)
Definition names_principal (env : Env) (w : World) (t : JWT) (u : Doc) : Prop :=
  exists payload username,
    decode env t = Returns payload /\
    sub payload = Some username /\
    find (matches [("email", CEq (VStr username))]) (users w) = Some u.

Definition forbidden : Exn :=
  HTTPException HTTP_403_FORBIDDEN "Not enough permissions" [].


Definition reset_filter (token : string) (now : Z) : Filter :=
  [("reset_token", CEq (VStr token)); ("reset_token_expires_at", CGtDate now)].

(** The [$set] document of the one update the handler issues. *)
Definition reset_update (new_password_hash : string) (now : Z) : Doc :=
  dict [("password_hash", VStr new_password_hash);
        ("reset_token", VNull);
        ("reset_token_expires_at", VNull);
        ("updated_at", VDate now)].

Definition holds_reset_token (token : string) (now : Z) (d : Doc) : Prop :=
  d !! "reset_token" = Some (VStr token) /\
  exists t, d !! "reset_token_expires_at" = Some (VDate t) /\ now < t.

Definition reset_rejected : string := "Invalid or expired password reset token.".
Definition reset_done : string :=
  "Your password has been reset successfully. Please log in.".

Inductive UserOp :=
| Op_post_signup (fullname email password confirm_password : string)
| Op_update_user (email : string) (current_user : Doc) (name new_email role : string)
| Op_assign_admin (email : string) (current_user : Doc)
| Op_delete_user (email : string) (current_user : Doc)
| Op_process_forgot_password (email : string)
| Op_reset_password_post (token new_password confirm_password : string).

Definition run_op (op : UserOp) : M Response :=
  match op with
  | Op_post_signup fullname email password confirm_password =>
      post_signup fullname email password confirm_password
  | Op_update_user email current_user name new_email role =>
      update_user email current_user name new_email role
  | Op_assign_admin email current_user => assign_admin email current_user
  | Op_delete_user email current_user => delete_user email current_user
  | Op_process_forgot_password email => process_forgot_password email
  | Op_reset_password_post token new_password confirm_password =>
      reset_password_post token new_password confirm_password
  end.

(** What a driver call writes into the ["role"] field, if anything. *)
Definition written_role (call : DbCall) : option Value :=
  match call with
  | Call_insert_one d => d !! "role"
  | Call_update_one _ s => s !! "role"
  | Call_find_one _ | Call_delete_one _ => None
  end.

Definition writes_role_ok (call : DbCall) : Prop :=
  written_role call = None \/
  written_role call = Some (VStr "user") \/
  written_role call = Some (VStr "admin").

Definition coerce_role (role : string) : string :=
  if bool_decide (role ∉ ["user"; "admin"]) then "user" else role.

(** The record [post_signup] inserts, before the driver adds ["_id"]. *)
Definition signup_doc (env : Env) (fullname email password : string) : Doc :=
  dict [("name", VStr fullname);
        ("email", VStr email);
        ("password_hash", VStr (bcrypt_digest (bcrypt env) (gensalt env) password));
        ("role", VStr "user");
        ("created_at", VDate (utcnow env))].

Definition preserves (I : World -> Prop) {A} (c : M A) : Prop :=
  forall env w r w', c env w = (r, w') -> I w -> I w'.

(** Stored roles are legal, and so is every role the driver was asked to
    write. *)
Definition Inv_roles (w : World) : Prop :=
  roles_ok (users w) /\ Forall writes_role_ok (db_trace w).

Definition Inv_ids (w : World) : Prop := store_wf (users w).

(** * A concrete deployment, used to run the handlers on examples *)

Module Example.

(** A stand-in for the bcrypt primitive (it is not a hash function). *)
Definition bcrypt0 : Bcrypt.
Proof.
  refine
    {| bcrypt_digest := fun salt secret => "$2b$12$" +:+ salt +:+ secret;
       bcrypt_check := fun secret hash =>
         match validate_secret secret with
         | Some refusal => Raises refusal
         | None =>
             Returns (bool_decide (String.substring 13 (String.length secret) hash = secret)
                      && bool_decide (String.length hash = (13 + String.length secret)%nat))
         end;
       bcrypt_check_validates := _ |}.
  intros secret hash. destruct (validate_secret secret); [discriminate|reflexivity].
Defined.

Definition cfg0 : Config :=
  {| SECRET_KEY := "k3y"; ALGORITHM := "HS256"; ACCESS_TOKEN_EXPIRE_MINUTES := 10 |}.

Definition env_at (t : Z) : Env :=
  {| cfg := cfg0; bcrypt := bcrypt0; utcnow := t;
     token_urlsafe := "r4nd0m"; gensalt := "saltsa" |}.

Definition user_doc (oid : nat) (name email password role : string) : Doc :=
  dict [("_id", VOid oid); ("name", VStr name); ("email", VStr email);
        ("password_hash", VStr (bcrypt_digest bcrypt0 "saltsa" password));
        ("role", VStr role); ("created_at", VDate 0)].

Definition alice : Doc := user_doc 1 "Alice" "a@x.com" "Secret123" "admin".
Definition bob : Doc := user_doc 2 "Bob" "b@x.com" "hunter2" "user".

Definition world0 : World :=
  {| users := [alice; bob]; session := ∅; db_trace := [] |}.

Definition with_cookie (t : JWT) : Request :=
  {| cookies := {["access_token" := t]} |}.

Definition no_cookie : Request := {| cookies := ∅ |}.

(** The tokens [POST /token] issues to Alice and Bob at time 100. *)
Definition alice_token : JWT :=
  Jws "HS256" "k3y" {| sub := Some "a@x.com"; role := Some "admin"; exp := Some 700 |}.
Definition bob_token : JWT :=
  Jws "HS256" "k3y" {| sub := Some "b@x.com"; role := Some "user"; exp := Some 700 |}.

(** A token signed with the deployment's key whose subject is empty. *)
Definition empty_subject_token : JWT :=
  Jws "HS256" "k3y" {| sub := Some ""; role := Some "user"; exp := Some 700 |}.

(** A token signed with the deployment's key that has no subject. *)
Definition no_subject_token : JWT :=
  Jws "HS256" "k3y" {| sub := None; role := Some "user"; exp := Some 700 |}.

(** The world after Alice promoted Bob at time 200. *)
Definition world_promoted : World :=
  (route_assign_admin (with_cookie alice_token) None "b@x.com" (env_at 200) world0).2.

(** Bob after he asked for a password reset at time 5, and the world then. *)
Definition bob_resetting : Doc :=
  apply_set (dict [("reset_token", VStr "r4nd0m");
                   ("reset_token_expires_at", VDate 3605);
                   ("updated_at", VDate 5)]) bob.

Definition world_resetting : World :=
  (process_forgot_password "b@x.com" (env_at 5) world0).2.

End Example.

(** * Vocabulary of the further properties *)

(** The e-mail a record is found under. *)
Definition email_of (d : Doc) : option string :=
  match d !! "email" with
  | Some (VStr e) => Some e
  | _ => None
  end.

(** The data-model invariant on e-mails: no two records share one. *)
Definition emails_unique (c : list Doc) : Prop := NoDup (omap email_of c).

#[global] Instance emails_unique_dec (c : list Doc) : Decision (emails_unique c).
Proof. unfold emails_unique. apply _. Defined.

Definition Inv_emails (w : World) : Prop := emails_unique (users w).

(** The error of both login endpoints' failure path. *)
Definition unauthorized : Exn :=
  HTTPException HTTP_401_UNAUTHORIZED "Incorrect username or password"
                [("WWW-Authenticate", "Bearer")].

(** The token [create_access_token] builds for [data] at time [now]. *)
Definition issued_token (c : Config) (data : Claims) (now delta : Z) : JWT :=
  Jws (ALGORITHM c) (SECRET_KEY c)
      {| sub := sub data; role := role data; exp := Some (now + delta) |}.

(** The default lifetime of a token, in seconds. *)
Definition default_lifetime (c : Config) : Z := 60 * ACCESS_TOKEN_EXPIRE_MINUTES c.

(** The [$set] documents of the admin edits and of the reset request. *)
Definition update_user_data (name new_email role : string) (now : Z) : Doc :=
  dict [("name", VStr name);
        ("email", VStr new_email);
        ("role", VStr role);
        ("updated_at", VDate now)].

Definition assign_admin_data (now : Z) : Doc :=
  dict [("role", VStr "admin"); ("updated_at", VDate now)].

Definition forgot_password_data (reset_token : string) (now : Z) : Doc :=
  dict [("reset_token", VStr reset_token);
        ("reset_token_expires_at", VDate (now + 3600));
        ("updated_at", VDate now)].

(** Whether [update_one f {"$set": s}] reports a modified document: it
    matched one, and the update changed it. *)
Definition modified_by (f : Filter) (s : Doc) (c : list Doc) : bool :=
  match find (matches f) c with
  | Some d => negb (bool_decide (apply_set s d = d))
  | None => false
  end.

(** The stored password hashes, record by record. *)
Definition password_hashes (c : list Doc) : list (option Value) :=
  (fun d => d !! "password_hash") <$> c.

(** * Pages: the handlers that render a template or move a cookie

    A page handler answers with a redirect, possibly setting or deleting a
    cookie, or with a template and its context.  Cursor reads ([find]) are
    not entered in [db_trace], which records the single-document calls. *)

Definition DASHBOARD_ROUTE : string := "/dashboard".
Definition ADMIN_DASHBOARD_ROUTE : string := "/admin-dashboard".
Definition CREATE_SHIPMENT_ROUTE : string := "/create-shipment".
Definition EDIT_SHIPMENT_ROUTE : string := "/edit-shipment".
Definition DATETIME_DISPLAY_FORMAT : string := "%Y-%m-%d %H:%M:%S UTC".

Inductive CtxValue :=
| CRequest
| CStr (s : string)
| CNone
| CVal (v : Value)
| CDoc (d : Doc)
| CDocs (l : list Doc).

Definition ctx_option (o : option string) : CtxValue := from_option CStr CNone o.

Inductive Page :=
| Redirect (response : Response)
| RedirectSetCookie (response : Response) (key : string) (value : JWT) (max_age : Z)
| RedirectDeleteCookie (response : Response) (key : string)
| TemplateResponse (name : string) (context : gmap string CtxValue).

Definition context (entries : list (string * CtxValue)) : gmap string CtxValue :=
  list_to_map entries.

(** [request.session.pop(key, None)]. *)
Definition session_pop (key : string) : M (option string) :=
  fun _ w =>
    (Returns (session w !! key),
     {| users := users w; session := delete key (session w); db_trace := db_trace w |}).

(** A projection document: with some field set to 1 only the fields set to
    1 are kept (and ["_id"], unless it is set to 0); with every field set to
    0 those fields are dropped. *)
Definition project (projection : list (string * nat)) (d : Doc) : Doc :=
  let included := (filter (fun kv => kv.2 <> 0%nat) projection).*1 in
  let excluded := (filter (fun kv => kv.2 = 0%nat) projection).*1 in
  match included with
  | [] => foldr delete d excluded
  | _ => filter (fun kv => kv.1 ∈ included \/ (kv.1 = "_id" /\ "_id" ∉ excluded)) d
  end.

(** [users_collection.find(f, projection)], read to the end. *)
Definition find_projected (f : Filter) (projection : list (string * nat)) : M (list Doc) :=
  fun _ w => (Returns (project projection <$> List.filter (matches f) (users w)), w).

(** [users_collection.find_one(f, projection)]. *)
Definition find_one_projected (f : Filter) (projection : list (string * nat))
  : M (option Doc) :=
  (user <- find_one f ;; ret (project projection <$> user))%handler.

Section Pages.

(** Read from the environment by [config.py]. *)
Variable RECAPTCHA_SITE_KEY : string.

(** [datetime.strftime]. *)
Variable strftime : Z -> string -> string.

Definition root : M Page := ret (Redirect (RedirectResponse LOGIN_ROUTE 307)).

Definition get_login : M Page :=
  (flash <- session_pop "flash" ;;
   ret (TemplateResponse "login.html"
          (context [("request", CRequest);
                    ("site_key", CStr RECAPTCHA_SITE_KEY);
                    ("flash", ctx_option flash)])))%handler.

Definition get_signup : M Page :=
  (flash <- session_pop "flash" ;;
   ret (TemplateResponse "signup.html"
          (context [("request", CRequest); ("flash", ctx_option flash)])))%handler.

Definition forgot_password : M Page :=
  (flash <- session_pop "flash" ;;
   ret (TemplateResponse "forgot_password.html"
          (context [("request", CRequest); ("flash", ctx_option flash)])))%handler.

Definition reset_password_get (token : option string) : M Page :=
  (flash <- session_pop "flash" ;;
   if negb (bool_decide (token <> None /\ token <> Some "")) then
     set_flash "Invalid or missing password reset token." ;;
     ret (Redirect (RedirectResponse FORGOT_PASSWORD_ROUTE HTTP_302_FOUND))
   else
     ret (TemplateResponse "password_reset.html"
            (context [("request", CRequest);
                      ("token", ctx_option token);
                      ("flash", ctx_option flash)])))%handler.

(** The display form of a listed record: a stored date becomes a string. *)
Definition format_created_at (user : Doc) : Doc :=
  match user !! "created_at" with
  | Some (VDate t) => <["created_at" := VStr (strftime t DATETIME_DISPLAY_FORMAT)]> user
  | _ => user
  end.

Definition user_management (current_user : Doc) : M Page :=
  (getitem current_user "email" ;;       (* formatted into the log line *)
   users_cursor <- find_projected [] [("_id", 0%nat); ("password_hash", 0%nat)] ;;
   let users := format_created_at <$> users_cursor in
   flash <- session_pop "flash" ;;
   ret (TemplateResponse "user_management.html"
          (context [("request", CRequest);
                    ("users", CDocs users);
                    ("flash", ctx_option flash)])))%handler.

Definition edit_user (email : string) (current_user : Doc) : M Page :=
  (getitem current_user "email" ;;       (* formatted into the log line *)
   user <- find_one_projected [("email", CEq (VStr email))]
                              [("_id", 0%nat); ("password_hash", 0%nat)] ;;
   match user with
   | Some user' =>
       if negb (truthy_doc user) then
         set_flash "User not found." ;;
         ret (Redirect (RedirectResponse USER_MANAGEMENT_ROUTE HTTP_303_SEE_OTHER))
       else
         flash <- session_pop "flash" ;;
         ret (TemplateResponse "edit_user.html"
                (context [("request", CRequest);
                          ("user", CDoc user');
                          ("flash", ctx_option flash)]))
   | None =>
       set_flash "User not found." ;;
       ret (Redirect (RedirectResponse USER_MANAGEMENT_ROUTE HTTP_303_SEE_OTHER))
   end)%handler.

Definition get_dashboard (current_user : Doc) : M Page :=
  (name <- getitem current_user "email" ;;
   role <- getitem current_user "role" ;;
   flash <- session_pop "flash" ;;
   ret (TemplateResponse "dashboard.html"
          (context [("request", CRequest);
                    ("name", CVal name);
                    ("flash", ctx_option flash);
                    ("role", CVal role)])))%handler.

Definition get_admin_dashboard (current_user : Doc) : M Page :=
  (name <- getitem current_user "email" ;;
   flash <- session_pop "flash" ;;
   ret (TemplateResponse "admin_dashboard.html"
          (context [("request", CRequest);
                    ("name", CVal name);
                    ("flash", ctx_option flash)])))%handler.

Definition logout : M Page :=
  ret (RedirectDeleteCookie (RedirectResponse LOGIN_ROUTE HTTP_302_FOUND) "access_token").

Definition route_user_management (request : Request) (token : option JWT) : M Page :=
  (current_user <- Depends_verify_admin request token ;;
   user_management current_user)%handler.

Definition route_edit_user (request : Request) (token : option JWT) (email : string)
  : M Page :=
  (current_user <- Depends_verify_admin request token ;;
   edit_user email current_user)%handler.

Definition route_get_dashboard (request : Request) (token : option JWT) : M Page :=
  (current_user <- Depends_get_current_active_user request token ;;
   get_dashboard current_user)%handler.

Definition route_get_admin_dashboard (request : Request) (token : option JWT) : M Page :=
  (current_user <- Depends_verify_admin request token ;;
   get_admin_dashboard current_user)%handler.

(** The pages that only show the pending flash message. *)
Definition flash_pages : list (M Page) := [get_login; get_signup; forgot_password].

(** The record a listing shows for a stored record. *)
Definition listed (d : Doc) : Doc :=
  format_created_at (project [("_id", 0%nat); ("password_hash", 0%nat)] d).

End Pages.

(** The ["flash"] entry of the template a page handler answered with. *)
Definition shown_flash (r : outcome Page) : option CtxValue :=
  match r with
  | Returns (TemplateResponse _ ctx) => ctx !! "flash"
  | _ => None
  end.

(** * The other collections: logins and shipments

    The site is the core world with the two further collections the
    handlers below write; a site handler reads the same environment. *)

Record Site := {
  site_core : World;
  logins : list Doc;        (* db["logins"] *)
  shipments : list Doc      (* db["shipments"] *)
}.

Definition SM (A : Type) : Type := Env -> Site -> outcome A * Site.

Definition sret {A} (a : A) : SM A := fun _ s => (Returns a, s).
Definition sraise {A} (e : Exn) : SM A := fun _ s => (Raises e, s).
Definition sask : SM Env := fun env s => (Returns env, s).
Definition sbind {A B} (c : SM A) (k : A -> SM B) : SM B :=
  fun env s =>
    match c env s with
    | (Returns a, s') => k a env s'
    | (Raises e, s') => (Raises e, s')
    end.

Declare Scope site_scope.
Delimit Scope site_scope with site.
Notation "x <- c ;; k" := (sbind c (fun x => k))
  (at level 20, c at level 99, k at level 200, right associativity) : site_scope.
Notation "c ;; k" := (sbind c (fun _ => k))
  (at level 100, k at level 200, right associativity) : site_scope.

Definition stry_except {A} (body : SM A) (caught : Exn -> bool) (handler : Exn -> SM A)
  : SM A :=
  fun env s =>
    match body env s with
    | (Raises e, s') => if caught e then handler e env s' else (Raises e, s')
    | r => r
    end.

(** A handler of the core run on the site's core world. *)
Definition on_core {A} (c : M A) : SM A :=
  fun env s =>
    let (r, w') := c env (site_core s) in
    (r, {| site_core := w'; logins := logins s; shipments := shipments s |}).

Inductive Collection := Logins | Shipments.

Definition collection (k : Collection) (s : Site) : list Doc :=
  match k with
  | Logins => logins s
  | Shipments => shipments s
  end.

Definition with_collection (k : Collection) (c : list Doc) (s : Site) : Site :=
  match k with
  | Logins => {| site_core := site_core s; logins := c; shipments := shipments s |}
  | Shipments => {| site_core := site_core s; logins := logins s; shipments := c |}
  end.

Definition find_one_in (k : Collection) (f : Filter) : SM (option Doc) :=
  fun _ s => (Returns (find (matches f) (collection k s)), s).

Definition update_one_in (k : Collection) (f : Filter) (upd : Doc) : SM UpdateResult :=
  fun _ s =>
    (Returns {| matched_count := match find (matches f) (collection k s) with
                                 | Some _ => 1
                                 | None => 0
                                 end;
                modified_count := if modified_by f upd (collection k s) then 1 else 0 |},
     with_collection k (update_first (matches f) (apply_set upd) (collection k s)) s).

Definition delete_one_in (k : Collection) (f : Filter) : SM DeleteResult :=
  fun _ s =>
    (Returns {| deleted_count := match find (matches f) (collection k s) with
                                 | Some _ => 1
                                 | None => 0
                                 end |},
     with_collection k (delete_first (matches f) (collection k s)) s).

Definition insert_one_in (k : Collection) (d : Doc) : SM unit :=
  fun _ s =>
    match d !! "_id" with
    | None =>
        (Returns tt,
         with_collection k
           (collection k s ++ [<["_id" := VOid (fresh_oid (collection k s))]> d]) s)
    | Some v =>
        if existsb (fun d' => bool_decide (d' !! "_id" = Some v)) (collection k s)
        then (Raises DuplicateKeyError, s)
        else (Returns tt, with_collection k (collection k s ++ [d]) s)
    end.

(** ** app/routes/auth_routes.py: the form login *)

Section FormLogin.

Variable RECAPTCHA_SITE_KEY : string.

Definition invalid_credentials_page : Page :=
  TemplateResponse "login.html"
    (context [("request", CRequest);
              ("error", CStr "Invalid credentials");
              ("site_key", CStr RECAPTCHA_SITE_KEY)]).

Definition login_for_access_token (username password : string) : SM Page :=
  (user <- on_core (find_one [("email", CEq (VStr username))]) ;;
   match user with
   | Some user' =>
       if negb (truthy_doc user) then sret invalid_credentials_page
       else
         password_hash <- on_core (getitem user' "password_hash") ;;
         ok <- on_core (match password_hash with
                        | VStr h => verify_password password h
                        | VNull => ret false
                        | _ => raise TypeError
                        end) ;;
         if negb ok then sret invalid_credentials_page
         else
           env <- sask ;;
           let access_token_expires := 60 * ACCESS_TOKEN_EXPIRE_MINUTES (cfg env) in
           stored_role <- on_core (match user' !! "role" with
                                   | None => ret (Some "user")
                                   | Some (VStr r) => ret (Some r)
                                   | Some VNull => ret None
                                   | Some _ => raise TypeError
                                   end) ;;
           access_token <-
             on_core (create_access_token
                        {| sub := Some username; role := stored_role; exp := None |}
                        (Some access_token_expires)) ;;
           insert_one_in Logins (dict [("email", VStr username);
                                       ("login_time", VDate (utcnow env));
                                       ("status", VStr "success")]) ;;
           let redirect_url :=
             if bool_decide (user' !! "role" = Some (VStr "admin"))
             then ADMIN_DASHBOARD_ROUTE else DASHBOARD_ROUTE in
           sret (RedirectSetCookie (RedirectResponse redirect_url HTTP_302_FOUND)
                                   "access_token" access_token
                                   (ACCESS_TOKEN_EXPIRE_MINUTES (cfg env) * 60))
   | None => sret invalid_credentials_page
   end)%site.

End FormLogin.

(** ** app/routes/shipment_routes.py *)

Definition shipment_fields : list string :=
  ["shipment_id"; "po_number"; "route_details"; "device"; "ndc_number";
   "serial_number"; "container_number"; "goods_type"; "expected_delivery_date";
   "delivery_number"; "batch_id"; "origin"; "destination"; "shipment_description"].

(** [ShipmentCreateData(...)] on the submitted text fields: every field of
    the model is required; the result is either the names of the missing
    fields (a validation error) or the model's fields. *)
Definition ShipmentCreateData (form_data : gmap string string)
  : list string + gmap string string :=
  match filter (fun key => form_data !! key = None) shipment_fields with
  | [] => inr (filter (fun kv => kv.1 ∈ shipment_fields) form_data)
  | missing => inl missing
  end.

(** [shipment_data.shipment_id]; a validated model always has the field. *)
Definition data_shipment_id (shipment_data : gmap string string) : string :=
  default "" (shipment_data !! "shipment_id").

Definition model_dump (shipment_data : gmap string string) : Doc := VStr <$> shipment_data.

Section Shipments.

(** The text of [e.errors()] for the missing fields. *)
Variable errors_repr : list string -> string.

Definition create_shipment (form_data : gmap string string) (current_user : Doc)
  : SM Response :=
  (match ShipmentCreateData form_data with
   | inl missing =>
       on_core (set_flash ("Validation error: " +:+ errors_repr missing)) ;;
       sret (RedirectResponse CREATE_SHIPMENT_ROUTE HTTP_302_FOUND)
   | inr shipment_data =>
       on_core (getitem current_user "email") ;;    (* formatted into the log line *)
       let shipment_id := data_shipment_id shipment_data in
       existing <- find_one_in Shipments [("shipment_id", CEq (VStr shipment_id))] ;;
       if truthy_doc existing then
         on_core (set_flash ("Shipment ID '" +:+ shipment_id +:+ "' already exists.")) ;;
         sret (RedirectResponse CREATE_SHIPMENT_ROUTE HTTP_302_FOUND)
       else
         env <- sask ;;
         let shipment_dict := model_dump shipment_data in
         let shipment_dict := <["created_at" := VDate (utcnow env)]> shipment_dict in
         created_by <- on_core (getitem current_user "email") ;;
         let shipment_dict := <["created_by" := created_by]> shipment_dict in
         stry_except
           (insert_one_in Shipments shipment_dict ;;
            on_core (set_flash ("Shipment " +:+ shipment_id +:+ " created successfully!")))
           (fun _ => true)
           (fun e => on_core (set_flash ("Error creating shipment: " +:+ str_exn e))) ;;
         sret (RedirectResponse CREATE_SHIPMENT_ROUTE HTTP_302_FOUND)
   end)%site.

End Shipments.

Definition post_edit_shipment (current_user : Doc)
    (shipment_id status_value destination expected_delivery_date : string) : SM Response :=
  (updated_by <- on_core (getitem current_user "email") ;;
   env <- sask ;;
   let update_data := dict [("status", VStr status_value);
                            ("destination", VStr destination);
                            ("expected_delivery_date", VStr expected_delivery_date);
                            ("last_updated", VDate (utcnow env));
                            ("updated_by", updated_by)] in
   result <- update_one_in Shipments [("shipment_id", CEq (VStr shipment_id))] update_data ;;
   (if (0 <? modified_count result)%nat
    then on_core (set_flash "Shipment updated successfully.")
    else on_core (set_flash "No changes made or shipment not found.")) ;;
   sret (RedirectResponse EDIT_SHIPMENT_ROUTE HTTP_302_FOUND))%site.

Definition delete_shipment (shipment_id : string) (current_user : Doc) : SM Response :=
  (on_core (getitem current_user "email") ;;      (* formatted into the log line *)
   stry_except
     (result <- delete_one_in Shipments [("shipment_id", CEq (VStr shipment_id))] ;;
      if (0 <? deleted_count result)%nat
      then on_core (set_flash "Shipment deleted successfully.")
      else on_core (set_flash "Shipment not found or already deleted."))
     (fun _ => true)
     (fun e => on_core (set_flash ("Error deleting shipment: " +:+ str_exn e))) ;;
   sret (RedirectResponse EDIT_SHIPMENT_ROUTE HTTP_302_FOUND))%site.

Definition route_create_shipment (errors_repr : list string -> string)
    (request : Request) (token : option JWT) (form_data : gmap string string)
  : SM Response :=
  (current_user <- on_core (Depends_get_current_active_user request token) ;;
   create_shipment errors_repr form_data current_user)%site.

Definition route_post_edit_shipment (request : Request) (token : option JWT)
    (shipment_id status_value destination expected_delivery_date : string) : SM Response :=
  (current_user <- on_core (Depends_verify_admin request token) ;;
   post_edit_shipment current_user shipment_id status_value destination
                      expected_delivery_date)%site.

Definition route_delete_shipment (request : Request) (token : option JWT)
    (shipment_id : string) : SM Response :=
  (current_user <- on_core (Depends_verify_admin request token) ;;
   delete_shipment shipment_id current_user)%site.

(** * app/main.py: the global handler of HTTP exceptions *)

Record JSONResponse := {
  json_detail : string;
  json_status_code : nat;
  json_headers : list (string * string)
}.

(** The handler answers with the exception's detail and status; it does not
    pass the exception's headers on.  It is registered for HTTP exceptions
    only. *)
Definition http_exception_handler (exc : Exn) : option JSONResponse :=
  match exc with
  | HTTPException status_code detail _ =>
      Some {| json_detail := detail; json_status_code := status_code; json_headers := [] |}
  | _ => None
  end.

(** ** Vocabulary of the site properties *)

(** The string stored under a field, if any. *)
Definition str_field (key : string) (d : Doc) : option string :=
  match d !! key with
  | Some (VStr e) => Some e
  | _ => None
  end.

(** No two shipments share a shipment id. *)
Definition shipment_ids_unique (c : list Doc) : Prop :=
  NoDup (omap (str_field "shipment_id") c).

#[global] Instance shipment_ids_unique_dec (c : list Doc) : Decision (shipment_ids_unique c).
Proof. unfold shipment_ids_unique. apply _. Defined.

(** The record [login_for_access_token] files for a successful login. *)
Definition login_record (username : string) (now : Z) : Doc :=
  dict [("email", VStr username); ("login_time", VDate now); ("status", VStr "success")].

(** The [$set] document of [post_edit_shipment]. *)
Definition edit_shipment_data (status_value destination expected_delivery_date : string)
    (now : Z) (updated_by : Value) : Doc :=
  dict [("status", VStr status_value);
        ("destination", VStr destination);
        ("expected_delivery_date", VStr expected_delivery_date);
        ("last_updated", VDate now);
        ("updated_by", updated_by)].

(** The site after a handler stored a flash message. *)
Definition flash_site (msg : string) (s : Site) : Site :=
  {| site_core := {| users := users (site_core s);
                     session := <["flash" := msg]> (session (site_core s));
                     db_trace := db_trace (site_core s) |};
     logins := logins s;
     shipments := shipments s |}.

(** The record [create_shipment] inserts, before the driver adds ["_id"]. *)
Definition shipment_doc (shipment_data : gmap string string) (now : Z) (created_by : Value)
  : Doc :=
  <["created_by" := created_by]> (<["created_at" := VDate now]> (model_dump shipment_data)).

(** The fields [post_edit_shipment] writes. *)
Definition edited_fields : list string :=
  ["status"; "destination"; "expected_delivery_date"; "last_updated"; "updated_by"].

(** * A concrete site, used to run the further handlers on examples *)

Module ExampleSite.
Import Example.

Definition site_key : string := "site-key".

(** A stand-in for [strftime] (it does not format). *)
Definition strftime0 (t : Z) (format : string) : string := "1970-01-01 00:00:00 UTC".

(** A stand-in for the text of a validation error. *)
Definition errors_repr0 (missing : list string) : string := String.concat ", " missing.

(** The deployment at a later draw of the random source. *)
Definition env_later (t : Z) : Env :=
  {| cfg := cfg0; bcrypt := bcrypt0; utcnow := t;
     token_urlsafe := "n3w3r"; gensalt := "saltsa" |}.

(** A token for Alice signed under a guessed key. *)
Definition forged_token : JWT :=
  Jws "HS256" "gu3ss" {| sub := Some "a@x.com"; role := Some "admin"; exp := Some 700 |}.

(** The world with a flash message pending. *)
Definition world_flash : World :=
  {| users := [alice; bob]; session := {["flash" := "Welcome"]}; db_trace := [] |}.

Definition site0 : Site := {| site_core := world0; logins := []; shipments := [] |}.

(** A complete shipment form for the id ["S-1"]. *)
Definition shipment_form : gmap string string :=
  <["shipment_id" := "S-1"]> (list_to_map ((fun key => (key, "x")) <$> shipment_fields)).

(** The site after Alice created that shipment at time 10. *)
Definition site1 : Site :=
  (create_shipment errors_repr0 shipment_form alice (env_at 10) site0).2.

End ExampleSite.

(** * Properties of the collection operations *)

Section Collection.
Implicit Types (p : Doc -> bool) (g : Doc -> Doc) (c : list Doc) (d u : Doc).

Lemma find_update_first p g c :
  (forall d, p d = true -> p (g d) = true) ->
  find p (update_first p g c) = g <$> find p c.
Proof.
  intros Hg. induction c as [|d c IH]; [done|].
  simpl. destruct (p d) eqn:Hd; simpl.
  - by rewrite (Hg d Hd).
  - by rewrite Hd.
Qed.

Lemma update_first_no_match p g c :
  find p c = None -> update_first p g c = c.
Proof.
  induction c as [|d c IH]; [done|].
  simpl. destruct (p d); [done|]. intros H. by rewrite IH.
Qed.

Lemma delete_first_no_match p c :
  find p c = None -> delete_first p c = c.
Proof.
  induction c as [|d c IH]; [done|].
  simpl. destruct (p d); [done|]. intros H. by rewrite IH.
Qed.

Lemma Forall_update_first (P : Doc -> Prop) p g c :
  (forall d, P d -> p d = true -> P (g d)) ->
  Forall P c -> Forall P (update_first p g c).
Proof.
  intros Hg. induction 1 as [|d c Hd Hc IH]; [constructor|].
  simpl. destruct (p d) eqn:Hp; constructor; auto.
Qed.

Lemma Forall_delete_first (P : Doc -> Prop) p c :
  Forall P c -> Forall P (delete_first p c).
Proof.
  induction 1 as [|d c Hd Hc IH]; [constructor|].
  simpl. destruct (p d); [done|]. by constructor.
Qed.

Lemma find_unique p c u :
  u ∈ c -> p u = true -> (forall d, d ∈ c -> p d = true -> d = u) ->
  find p c = Some u.
Proof.
  intros Hin Hu Huniq. destruct (find p c) as [d|] eqn:Hf.
  - apply find_some in Hf as [Hd Hpd].
    f_equal. apply Huniq; [by apply list_elem_of_In|done].
  - apply list_elem_of_In in Hin.
    pose proof (find_none _ _ Hf _ Hin) as Hn. congruence.
Qed.

Lemma find_none_Forall p c :
  Forall (fun d => p d = false) c -> find p c = None.
Proof.
  induction 1 as [|d c Hd Hc IH]; [done|]. simpl. by rewrite Hd.
Qed.

Lemma matches_field (k : string) (s : string) d :
  matches [(k, CEq (VStr s))] d = true <-> d !! k = Some (VStr s).
Proof.
  unfold matches. simpl. rewrite andb_true_r. apply bool_decide_eq_true.
Qed.

Lemma matches_oid (n : nat) d :
  matches [("_id", CEq (VOid n))] d = true <-> oid_of d = Some n.
Proof.
  unfold matches, oid_of. simpl. rewrite andb_true_r, bool_decide_eq_true.
  destruct (d !! "_id") as [[]|]; naive_solver.
Qed.

(** An update addressed by ["_id"] rewrites the one record carrying it. *)
Lemma update_first_by_oid g c u (n : nat) :
  store_wf c -> u ∈ c -> oid_of u = Some n ->
  update_first (matches [("_id", CEq (VOid n))]) g c
  = (fun d => if bool_decide (d = u) then g u else d) <$> c.
Proof.
  intros [Hsome Hnodup] Hin Hu.
  induction c as [|d c IH]; [by apply elem_of_nil in Hin|].
  rewrite fmap_cons in Hnodup. apply NoDup_cons in Hnodup as [Hfresh Hnodup].
  apply Forall_cons in Hsome as [Hd Hsome].
  rewrite fmap_cons. cbn [update_first].
  destruct (matches [("_id", CEq (VOid n))] d) eqn:Hm.
  - apply matches_oid in Hm.
    assert (d = u) as ->.
    { apply elem_of_cons in Hin as [->|Hin]; [done|].
      exfalso. apply Hfresh. rewrite Hm, <- Hu. by apply list_elem_of_fmap_2. }
    rewrite bool_decide_eq_true_2 by done. f_equal.
    rewrite <- (list_fmap_id c) at 1. apply list_fmap_ext.
    intros i d Hi. rewrite bool_decide_eq_false_2; [done|].
    intros ->. apply Hfresh. apply list_elem_of_fmap_2.
    by eapply list_elem_of_lookup_2.
  - assert (d <> u) as Hne.
    { intros ->. apply matches_oid in Hu. congruence. }
    rewrite bool_decide_eq_false_2 by done. f_equal.
    apply IH; [done..|]. apply elem_of_cons in Hin as [->|Hin]; done.
Qed.

End Collection.

(** * Properties of the principal resolver and the role gates *)

Ltac unfold_monad :=
  unfold bind, ret, raise, ask, lift, try_except, getitem, set_flash,
    find_one, update_one, delete_one in *.

Section Resolver.
Implicit Types (env : Env) (w : World) (request : Request) (token : option JWT).

Lemma jwt_decode_pure env w t :
  jwt_decode t (SECRET_KEY (cfg env)) [ALGORITHM (cfg env)] env w = (decode env t, w).
Proof.
  unfold decode, jwt_decode. unfold_monad.
  destruct t as [alg k claims|s]; [|done].
  repeat (case_match; try done).
Qed.

(** The resolver in closed form. *)
Lemma get_current_user_unfold env w request token :
  get_current_user request token env w =
  match selected_token request token with
  | None => (Raises credentials_exception, w)
  | Some t =>
      match decode env t with
      | Returns payload =>
          match sub payload with
          | Some username =>
              let w' := db (Call_find_one [("email", CEq (VStr username))]) (users w) w in
              match find (matches [("email", CEq (VStr username))]) (users w) with
              | Some user => (Returns user, w')
              | None => (Raises credentials_exception, w')
              end
          | None => (Raises credentials_exception, w)
          end
      | Raises e =>
          if is_JWTError e then (Raises credentials_exception, w) else (Raises e, w)
      end
  end.
Proof.
  unfold get_current_user, selected_token.
  destruct (cookies request !! "access_token") as [[alg k cl|s]|] eqn:Hc;
    destruct token as [[alg' k' cl'|s']|]; simpl;
    unfold_monad; simpl;
    repeat first [done | rewrite jwt_decode_pure | case_match; simplify_eq/=].
Qed.

End Resolver.

Section ResolverClaims.
Implicit Types (env : Env) (w : World) (request : Request) (token : option JWT).

Lemma decode_Returns_truthy env t payload :
  decode env t = Returns payload -> truthy_token (Some t) = true.
Proof. destruct t; [done|]. by cbv. Qed.

Lemma selected_token_cookie request token t :
  cookies request !! "access_token" = Some t ->
  truthy_token (Some t) = true ->
  selected_token request token = Some t.
Proof. intros Hc Ht. unfold selected_token. by rewrite Hc, Ht. Qed.

Lemma selected_token_none request token :
  truthy_token (cookies request !! "access_token") = false ->
  truthy_token token = false ->
  selected_token request token = None.
Proof. intros Hc Ht. unfold selected_token. by rewrite Hc, Ht. Qed.

Lemma get_current_user_principal env w request token t u :
  selected_token request token = Some t ->
  names_principal env w t u ->
  exists username,
    u !! "email" = Some (VStr username) /\
    get_current_user request token env w
    = (Returns u, db (Call_find_one [("email", CEq (VStr username))]) (users w) w).
Proof.
  intros Hsel (payload & username & Hdec & Hsub & Hfind).
  exists username. split.
  - apply find_some in Hfind as [_ Hm]. by apply matches_field in Hm.
  - rewrite get_current_user_unfold, Hsel, Hdec, Hsub. simpl. by rewrite Hfind.
Qed.

(** C3: when the cookie and the Authorization header carry two different
    valid tokens, the resolver returns the principal of the cookie token;
    when neither place carries a token it raises the 401 "Not
    authenticated" error without touching the store. *)
Theorem cookie_token_takes_precedence env w :
  (forall request tc th uc uh,
      cookies request !! "access_token" = Some tc ->
      tc <> th ->
      names_principal env w tc uc ->
      names_principal env w th uh ->
      (get_current_user request (Some th) env w).1 = Returns uc) /\
  (forall request token,
      truthy_token (cookies request !! "access_token") = false ->
      truthy_token token = false ->
      get_current_user request token env w = (Raises credentials_exception, w)).
Proof.
  split.
  - intros request tc th uc uh Hc _ Hvalid _.
    assert (selected_token request (Some th) = Some tc) as Hsel.
    { destruct Hvalid as (payload & ? & Hdec & _).
      eauto using selected_token_cookie, decode_Returns_truthy. }
    destruct (get_current_user_principal _ _ _ _ _ _ Hsel Hvalid) as (? & _ & ->).
    done.
  - intros request token Hc Ht.
    by rewrite get_current_user_unfold, selected_token_none.
Qed.

(** C7, as the code has it: a request with no token and a request whose
    token is not a JWS are both answered with the one 401 "Not
    authenticated" error, and neither reaches the store. *)
Theorem missing_and_malformed_token_same_error env w request token request' token' s :
  selected_token request token = None ->
  selected_token request' token' = Some (Opaque s) ->
  get_current_user request token env w = (Raises credentials_exception, w) /\
  get_current_user request' token' env w = (Raises credentials_exception, w).
Proof.
  intros Hnone Hbad. by rewrite !get_current_user_unfold, Hnone, Hbad.
Qed.

(** C8, as the code has it: a token whose payload has no subject is refused
    with the 401 error before any store call; a token whose subject is the
    empty string is not refused at that point: the store is queried for a
    user with that e-mail, and the query decides the outcome. *)
Theorem subject_absent_or_empty env w request token t payload :
  selected_token request token = Some t ->
  decode env t = Returns payload ->
  (sub payload = None ->
   get_current_user request token env w = (Raises credentials_exception, w)) /\
  (sub payload = Some "" ->
   get_current_user request token env w
   = (match find (matches [("email", CEq (VStr ""))]) (users w) with
      | Some user => Returns user
      | None => Raises credentials_exception
      end,
      db (Call_find_one [("email", CEq (VStr ""))]) (users w) w)).
Proof.
  intros Hsel Hdec.
  split; intros Hsub; rewrite get_current_user_unfold, Hsel, Hdec, Hsub; simpl;
    [done|by case_match].
Qed.

End ResolverClaims.

(** * Properties of the admin gate and the self-protection guards *)

Section Gates.
Implicit Types (env : Env) (w : World) (request : Request) (token : option JWT).

Lemma Depends_verify_admin_unfold env w request token :
  Depends_verify_admin request token env w =
  match get_current_user request token env w with
  | (Returns u, w') =>
      if bool_decide (u = ∅) then (Raises (HTTPException 400 "Inactive user" []), w')
      else if bool_decide (u !! "role" ≠ Some (VStr "admin")) then (Raises forbidden, w')
      else (Returns u, w')
  | (Raises e, w') => (Raises e, w')
  end.
Proof.
  unfold Depends_verify_admin, Depends_get_current_active_user,
    get_current_active_user, verify_admin, truthy_doc.
  unfold_monad.
  destruct (get_current_user request token env w) as [[u|e] w']; [|done].
  simpl. repeat case_bool_decide; simpl; try done; repeat case_bool_decide; done.
Qed.

(** The resolver only reads the store. *)
Lemma get_current_user_reads env w request token r w' :
  get_current_user request token env w = (r, w') ->
  users w' = users w /\ session w' = session w.
Proof.
  rewrite get_current_user_unfold.
  repeat case_match; intros; simplify_eq/=; done.
Qed.

Lemma Depends_verify_admin_reads env w request token r w' :
  Depends_verify_admin request token env w = (r, w') ->
  users w' = users w /\ session w' = session w.
Proof.
  rewrite Depends_verify_admin_unfold.
  destruct (get_current_user request token env w) as [[u|e] w0] eqn:Hg;
    apply get_current_user_reads in Hg;
    repeat case_match; intros; simplify_eq/=; done.
Qed.

Lemma assign_admin_users env w email current_user own_email :
  current_user !! "email" = Some (VStr own_email) ->
  own_email <> email ->
  users (assign_admin email current_user env w).2
  = update_first (matches [("email", CEq (VStr email))])
      (apply_set (dict [("role", VStr "admin"); ("updated_at", VDate (utcnow env))]))
      (users w).
Proof.
  intros Hown Hne. unfold assign_admin. unfold_monad. rewrite Hown. simpl.
  rewrite bool_decide_eq_false_2 by congruence.
  simpl. by destruct (0 <? _)%nat.
Qed.

(** C10: for an authenticated admin principal, [assign_admin] and
    [delete_user] aimed at the principal's own e-mail leave the user
    collection as it was, issue no update or delete to the store, and
    report an error through the flash message. *)
Theorem admin_cannot_target_own_account env w request token current_user w0 email :
  Depends_verify_admin request token env w = (Returns current_user, w0) ->
  current_user !! "email" = Some (VStr email) ->
  route_assign_admin request token email env w
  = (Returns (RedirectResponse USER_MANAGEMENT_ROUTE HTTP_303_SEE_OTHER),
     {| users := users w;
        session := <["flash" := "You cannot change your own role."]> (session w);
        db_trace := db_trace w0 |}) /\
  route_delete_user request token email env w
  = (Returns (RedirectResponse USER_MANAGEMENT_ROUTE HTTP_303_SEE_OTHER),
     {| users := users w;
        session := <["flash" := "You cannot delete your own account."]> (session w);
        db_trace := db_trace w0 |}).
Proof.
  intros Hdep Hemail.
  destruct (Depends_verify_admin_reads _ _ _ _ _ _ Hdep) as [Hu Hs].
  unfold route_assign_admin, route_delete_user, assign_admin, delete_user.
  unfold_monad. rewrite Hdep, Hemail. simpl.
  rewrite bool_decide_eq_true_2 by done. simpl.
  by rewrite Hu, Hs.
Qed.

(** C1, as the code has it: the admin gate decides on the role of the
    record loaded from the store, whatever role the token embeds; so once
    [assign_admin] has promoted a user, a still-valid token issued to that
    user before the promotion passes [verify_admin] without a new login. *)
Theorem verify_admin_uses_stored_role env w request token t payload username u :
  selected_token request token = Some t ->
  decode env t = Returns payload ->
  sub payload = Some username ->
  find (matches [("email", CEq (VStr username))]) (users w) = Some u ->
  (Depends_verify_admin request token env w).1
  = (if bool_decide (u !! "role" = Some (VStr "admin"))
     then Returns u else Raises forbidden) /\
  (forall env0 admin_user own_email,
      admin_user !! "email" = Some (VStr own_email) ->
      own_email <> username ->
      (Depends_verify_admin request token env
         (assign_admin username admin_user env0 w).2).1
      = Returns (apply_set (dict [("role", VStr "admin");
                                  ("updated_at", VDate (utcnow env0))]) u)).
Proof.
  intros Hsel Hdec Hsub Hfind.
  assert (forall w' u',
    find (matches [("email", CEq (VStr username))]) (users w') = Some u' ->
    (Depends_verify_admin request token env w').1
    = (if bool_decide (u' !! "role" = Some (VStr "admin"))
       then Returns u' else Raises forbidden)) as Hgate.
  { intros w' u' Hfind'.
    rewrite Depends_verify_admin_unfold, get_current_user_unfold, Hsel, Hdec, Hsub.
    simpl. rewrite Hfind'.
    assert (u' !! "email" = Some (VStr username)) as Hemail.
    { apply find_some in Hfind' as [_ Hm]. by apply matches_field in Hm. }
    rewrite bool_decide_eq_false_2; [|intros ->; by rewrite lookup_empty in Hemail].
    repeat case_bool_decide; done. }
  split; [by apply Hgate|].
  intros env0 admin_user own_email Hadmin Hne.
  erewrite Hgate.
  - rewrite bool_decide_eq_true_2; [done|]. unfold apply_set.
    by apply lookup_union_Some_l.
  - rewrite (assign_admin_users _ _ _ _ _ Hadmin) by congruence.
    rewrite find_update_first, Hfind; [done|].
    intros d Hd. apply matches_field. apply matches_field in Hd.
    unfold apply_set. rewrite lookup_union_r; done.
Qed.

End Gates.

(** * Properties of the password hasher and of the forgot-password request *)

Section Hasher.
Implicit Types (env : Env) (w : World).

(** C5, as the code has it: [verify_password] hands both strings to the
    hashing context and has no handler of its own; it returns the boolean
    of the bcrypt check when the hash string carries a bcrypt ident, and
    lets the context's exception reach the caller otherwise (an
    unidentified hash raises, it does not yield false). *)
Theorem verify_password_propagates env w plain_password hashed_password :
  verify_password plain_password hashed_password env w
  = (if bcrypt_identify hashed_password
     then bcrypt_check (bcrypt env) plain_password hashed_password
     else Raises UnknownHashError,
     w).
Proof.
  unfold verify_password, pwd_context_verify. unfold_monad.
  by destruct (bcrypt_identify hashed_password).
Qed.

Lemma get_password_hash_run env w password :
  get_password_hash password env w
  = (match validate_secret password with
     | Some refusal => Raises refusal
     | None => Returns (bcrypt_digest (bcrypt env) (gensalt env) password)
     end,
     w).
Proof.
  unfold get_password_hash, pwd_context_hash. unfold_monad.
  by destruct (validate_secret password).
Qed.

End Hasher.

Section ForgotPassword.



End ForgotPassword.

(** * Properties of the reset-token consumption *)

Section ResetPassword.
Implicit Types (env : Env) (w : World) (d u : Doc).

Lemma matches_reset_filter token now d :
  matches (reset_filter token now) d = true <-> holds_reset_token token now d.
Proof.
  unfold matches, reset_filter, holds_reset_token. simpl.
  rewrite andb_true_r, andb_true_iff, bool_decide_eq_true.
  split.
  - intros [Ht Hexp]. split; [done|].
    destruct (d !! "reset_token_expires_at") as [[]|]; try done.
    eexists. split; [done|]. by apply Z.ltb_lt.
  - intros [Ht (t & -> & Hlt)]. split; [done|]. by apply Z.ltb_lt.
Qed.

Lemma reset_password_post_no_match env w token pw :
  find (matches (reset_filter token (utcnow env))) (users w) = None ->
  reset_password_post token pw pw env w
  = (Returns (RedirectResponse FORGOT_PASSWORD_ROUTE HTTP_302_FOUND),
     {| users := users w;
        session := <["flash" := reset_rejected]> (session w);
        db_trace := db_trace w ++ [Call_find_one (reset_filter token (utcnow env))] |}).
Proof.
  intros Hfind. unfold reset_password_post.
  rewrite bool_decide_eq_false_2 by (intros H; by apply H).
  unfold_monad. unfold reset_filter in Hfind. simpl. by rewrite Hfind.
Qed.

Lemma reset_password_post_match env w token pw u (n : nat) :
  find (matches (reset_filter token (utcnow env))) (users w) = Some u ->
  oid_of u = Some n ->
  is_Some (u !! "email") ->
  validate_secret pw = None ->
  let h := bcrypt_digest (bcrypt env) (gensalt env) pw in
  reset_password_post token pw pw env w
  = (Returns (RedirectResponse LOGIN_ROUTE HTTP_302_FOUND),
     {| users := update_first (matches [("_id", CEq (VOid n))])
                   (apply_set (reset_update h (utcnow env))) (users w);
        session := <["flash" := reset_done]> (session w);
        db_trace := db_trace w ++
                    [Call_find_one (reset_filter token (utcnow env));
                     Call_update_one [("_id", CEq (VOid n))]
                                     (reset_update h (utcnow env))] |}).
Proof.
  intros Hfind Hoid [e He] Hvalid h. unfold reset_password_post.
  rewrite bool_decide_eq_false_2 by (intros H; by apply H).
  unfold get_password_hash, pwd_context_hash.
  unfold_monad. unfold reset_filter in Hfind. simpl. rewrite Hfind.
  assert (u !! "_id" = Some (VOid n)) as Hid.
  { unfold oid_of in Hoid. destruct (u !! "_id") as [[]|]; congruence. }
  unfold truthy_doc.
  rewrite bool_decide_eq_false_2; [|intros ->; by rewrite lookup_empty in He].
  simpl. rewrite Hvalid. unfold ret. simpl. rewrite Hid. simpl. rewrite He. simpl.
  by rewrite <- app_assoc.
Qed.

(** With a password the hasher refuses, the handler raises the refusal
    after the lookup and before any update. *)
Lemma reset_password_post_refused env w token pw u refusal :
  find (matches (reset_filter token (utcnow env))) (users w) = Some u ->
  validate_secret pw = Some refusal ->
  reset_password_post token pw pw env w
  = (Raises refusal,
     {| users := users w;
        session := session w;
        db_trace := db_trace w ++ [Call_find_one (reset_filter token (utcnow env))] |}).
Proof.
  intros Hfind Hrefused. unfold reset_password_post.
  rewrite bool_decide_eq_false_2 by (intros H; by apply H).
  unfold get_password_hash, pwd_context_hash.
  unfold_monad. unfold reset_filter in Hfind. simpl. rewrite Hfind.
  assert (u <> ∅) as Hne.
  { apply find_some in Hfind as [_ Hm]. intros ->. by vm_compute in Hm. }
  unfold truthy_doc. rewrite bool_decide_eq_false_2 by done.
  simpl. by rewrite Hrefused.
Qed.

(** Success is reported only through the redirect to the login page. *)
Lemma reset_password_post_success_inv env w token pw cpw w' :
  reset_password_post token pw cpw env w
  = (Returns (RedirectResponse LOGIN_ROUTE HTTP_302_FOUND), w') ->
  pw = cpw /\
  exists u, u ∈ users w /\ holds_reset_token token (utcnow env) u.
Proof.
  destruct (decide (pw = cpw)) as [<-|Hpw]; last first.
  { unfold reset_password_post. rewrite bool_decide_eq_true_2 by done.
    unfold_monad. simpl. intros [=]. }
  intros Hrun. split; [done|].
  destruct (find (matches (reset_filter token (utcnow env))) (users w)) as [u|] eqn:Hfind.
  - apply find_some in Hfind as [Hin Hm].
    exists u. split; [by apply list_elem_of_In|by apply matches_reset_filter].
  - rewrite (reset_password_post_no_match _ _ _ _ Hfind) in Hrun.
    discriminate Hrun.
Qed.

Lemma reset_update_clears h now u :
  let u' := apply_set (reset_update h now) u in
  u' !! "password_hash" = Some (VStr h) /\
  u' !! "reset_token" = Some VNull /\
  u' !! "reset_token_expires_at" = Some VNull.
Proof. unfold apply_set. repeat split; by apply lookup_union_Some_l. Qed.

Lemma holds_reset_token_field token now d :
  holds_reset_token token now d -> d !! "reset_token" = Some (VStr token).
Proof. by intros [? _]. Qed.

Lemma elem_of_update_first (p : Doc -> bool) (g : Doc -> Doc) (c : list Doc) d' :
  d' ∈ update_first p g c ->
  d' ∈ c \/ exists d, find p c = Some d /\ d' = g d.
Proof.
  induction c as [|d c IH]; [by intros ?%elem_of_nil|].
  simpl. destruct (p d) eqn:Hp.
  - intros [->|Hin]%elem_of_cons; [right; eauto|left; by apply elem_of_cons; right].
  - intros [->|Hin]%elem_of_cons; [left; by apply elem_of_cons; left|].
    destruct (IH Hin) as [?|?]; [left; by apply elem_of_cons; right|by right].
Qed.

(** A freshly drawn reset token is held by the requesting record alone, so
    the uniqueness the single-use property rests on is what
    [process_forgot_password] establishes. *)
Lemma fresh_reset_token_one_holder env w email u d :
  find (matches [("email", CEq (VStr email))]) (users w) = Some u ->
  (forall d0, d0 ∈ users w -> d0 !! "reset_token" <> Some (VStr (token_urlsafe env))) ->
  d ∈ users (process_forgot_password email env w).2 ->
  d !! "reset_token" = Some (VStr (token_urlsafe env)) ->
  d = apply_set (dict [("reset_token", VStr (token_urlsafe env));
                       ("reset_token_expires_at", VDate (utcnow env + 3600));
                       ("updated_at", VDate (utcnow env))]) u.
Proof.
  intros Hfind Hfresh. unfold process_forgot_password. unfold_monad. simpl.
  rewrite Hfind.
  assert (u !! "email" = Some (VStr email)) as Hemail.
  { apply find_some in Hfind as [_ Hm]. by apply matches_field in Hm. }
  unfold truthy_doc.
  rewrite bool_decide_eq_false_2; [|intros ->; by rewrite lookup_empty in Hemail].
  simpl. intros Hin Htok.
  apply elem_of_update_first in Hin as [Hin|(d0 & Hd0 & ->)].
  - by destruct (Hfresh d Hin).
  - congruence.
Qed.

(** C2, as the code has it: a reset succeeds only for a stored user whose
    reset token equals the submitted one and whose expiry is strictly later
    than the clock.  For a new password the hasher accepts, on a collection
    with unique ["_id"]s in which no other record holds the token, it
    succeeds, and one [update_one] call overwrites the password hash and
    nulls the token and its expiry on that record and leaves every other
    record as it was; any later call with the same token leaves the
    collection (so every password hash) unchanged and never succeeds: when
    its two password fields agree it is answered with the generic
    invalid-or-expired message, and when they differ with "Passwords do not
    match." and a redirect back to the reset page.  A new password the
    hasher refuses makes the handler raise the refusal after the lookup,
    with no update issued. *)
Theorem reset_token_single_use :
  (forall env w token pw cpw w',
      reset_password_post token pw cpw env w
      = (Returns (RedirectResponse LOGIN_ROUTE HTTP_302_FOUND), w') ->
      exists u, u ∈ users w /\ holds_reset_token token (utcnow env) u) /\
  (forall env w token pw u,
      store_wf (users w) ->
      u ∈ users w ->
      holds_reset_token token (utcnow env) u ->
      is_Some (u !! "email") ->
      (forall d, d ∈ users w -> d !! "reset_token" = Some (VStr token) -> d = u) ->
      validate_secret pw = None ->
      let h := bcrypt_digest (bcrypt env) (gensalt env) pw in
      let u' := apply_set (reset_update h (utcnow env)) u in
      let run1 := reset_password_post token pw pw env w in
      run1.1 = Returns (RedirectResponse LOGIN_ROUTE HTTP_302_FOUND) /\
      session run1.2 !! "flash" = Some reset_done /\
      users run1.2 = (fun d => if bool_decide (d = u) then u' else d) <$> users w /\
      u' !! "password_hash" = Some (VStr h) /\
      u' !! "reset_token" = Some VNull /\
      u' !! "reset_token_expires_at" = Some VNull /\
      (exists n : nat,
          db_trace run1.2
          = db_trace w ++ [Call_find_one (reset_filter token (utcnow env));
                           Call_update_one [("_id", CEq (VOid n))]
                                           (reset_update h (utcnow env))]) /\
      (forall env' pw' cpw',
          let run2 := reset_password_post token pw' cpw' env' run1.2 in
          users run2.2 = users run1.2 /\
          run2.1 <> Returns (RedirectResponse LOGIN_ROUTE HTTP_302_FOUND) /\
          (pw' = cpw' ->
           run2.1 = Returns (RedirectResponse FORGOT_PASSWORD_ROUTE HTTP_302_FOUND) /\
           session run2.2 !! "flash" = Some reset_rejected) /\
          (pw' <> cpw' ->
           run2.1 = Returns (RedirectResponse (RESET_PASSWORD_ROUTE +:+ "?token=" +:+ token)
                                              HTTP_302_FOUND) /\
           session run2.2 !! "flash" = Some "Passwords do not match."))) /\
  (forall env w token pw u refusal,
      u ∈ users w ->
      holds_reset_token token (utcnow env) u ->
      validate_secret pw = Some refusal ->
      let run := reset_password_post token pw pw env w in
      run.1 = Raises refusal /\
      users run.2 = users w /\
      session run.2 = session w /\
      db_trace run.2 = db_trace w ++ [Call_find_one (reset_filter token (utcnow env))]).
Proof.
  split; [|split].
  { intros env w token pw cpw w' Hrun.
    by apply reset_password_post_success_inv in Hrun as [_ ?]. }
  { intros env w token pw u Hwf Hin Hholds Hemail Honly Hvalid h u' run1.
    assert (find (matches (reset_filter token (utcnow env))) (users w) = Some u) as Hfind.
    { apply find_unique; [done|by apply matches_reset_filter|].
      intros d Hd Hm. apply matches_reset_filter in Hm.
      eauto using holds_reset_token_field. }
    destruct Hwf as [Hsome Hnodup].
    destruct (proj1 (Forall_forall _ _) Hsome u Hin) as [n Hoid].
    pose proof (reset_password_post_match env w token pw u n Hfind Hoid Hemail Hvalid)
      as Hrun1.
    simpl in Hrun1. fold h in Hrun1.
    assert (users run1.2 = (fun d => if bool_decide (d = u) then u' else d) <$> users w)
      as Husers.
    { subst run1. rewrite Hrun1. simpl. by apply update_first_by_oid. }
    destruct (reset_update_clears h (utcnow env) u) as (Hpw & Htok & Hexp).
    assert (forall now', find (matches (reset_filter token now')) (users run1.2) = None)
      as Hgone.
    { intros now'. apply find_none_Forall. rewrite Husers.
      apply Forall_fmap, Forall_forall. intros d Hd. simpl.
      apply not_true_is_false. intros Hm. apply matches_reset_filter in Hm as [Hm _].
      case_bool_decide as Hdu.
      - fold u' in Htok. congruence.
      - by apply Hdu, Honly. }
    split; [subst run1; by rewrite Hrun1|].
    split; [subst run1; rewrite Hrun1; simpl; by rewrite lookup_insert_eq|].
    split; [done|]. split; [done|]. split; [done|]. split; [done|].
    split; [exists n; subst run1; by rewrite Hrun1|].
    intros env' pw' cpw' run2.
    destruct (decide (pw' = cpw')) as [<-|Hne].
    - subst run2. rewrite (reset_password_post_no_match _ _ _ _ (Hgone (utcnow env'))).
      simpl. split; [done|]. split; [done|]. split; [|done]. intros _.
      split; [done|]. by rewrite lookup_insert_eq.
    - subst run2. unfold reset_password_post.
      rewrite bool_decide_eq_true_2 by done. unfold_monad. simpl.
      split; [done|]. split; [done|]. split; [done|]. intros _.
      split; [done|]. by rewrite lookup_insert_eq. }
  intros env w token pw u refusal Hin Hholds Hrefused run.
  destruct (find (matches (reset_filter token (utcnow env))) (users w)) as [u0|] eqn:Hfind.
  - subst run. by rewrite (reset_password_post_refused _ _ _ _ u0 refusal Hfind Hrefused).
  - apply list_elem_of_In in Hin. pose proof (find_none _ _ Hfind u Hin) as Hm.
    apply matches_reset_filter in Hholds. congruence.
Qed.

End ResetPassword.

(** * The role invariant across the user-mutating operations *)

Section Roles.
Implicit Types (env : Env) (w : World) (d s : Doc) (c : list Doc).

Lemma coerce_role_ok role : coerce_role role = "user" \/ coerce_role role = "admin".
Proof.
  unfold coerce_role. case_bool_decide as H; [by left|].
  apply elem_of_cons in H as [->|H]; [by left|].
  apply list_elem_of_singleton in H as ->. by right.
Qed.

Lemma coerce_role_invalid role : role ∉ ["user"; "admin"] -> coerce_role role = "user".
Proof. intros H. unfold coerce_role. by rewrite bool_decide_eq_true_2. Qed.

Lemma role_ok_apply_set s d :
  s !! "role" = None \/ role_ok s -> role_ok d -> role_ok (apply_set s d).
Proof.
  unfold role_ok, apply_set. intros [Hs|[Hs|Hs]] Hd.
  - by rewrite lookup_union_r.
  - left. by apply lookup_union_Some_l.
  - right. by apply lookup_union_Some_l.
Qed.

Lemma roles_ok_update p s c :
  s !! "role" = None \/ role_ok s ->
  roles_ok c -> roles_ok (update_first p (apply_set s) c).
Proof. intros Hs. apply Forall_update_first. eauto using role_ok_apply_set. Qed.

Lemma post_signup_run env w fullname email password confirm_password :
  post_signup fullname email password confirm_password env w =
  if bool_decide (password ≠ confirm_password) then
    (Returns (RedirectResponse SIGNUP_ROUTE HTTP_302_FOUND),
     {| users := users w;
        session := <["flash" := "Passwords do not match."]> (session w);
        db_trace := db_trace w |})
  else
    match find (matches [("email", CEq (VStr email))]) (users w) with
    | Some _ =>
        (Returns (RedirectResponse SIGNUP_ROUTE HTTP_302_FOUND),
         {| users := users w;
            session := <["flash" := "Email already registered."]> (session w);
            db_trace := db_trace w ++ [Call_find_one [("email", CEq (VStr email))]] |})
    | None =>
        match validate_secret password with
        | Some refusal =>
            (Raises refusal,
             {| users := users w;
                session := session w;
                db_trace := db_trace w ++ [Call_find_one [("email", CEq (VStr email))]] |})
        | None =>
            (Returns (RedirectResponse LOGIN_ROUTE HTTP_302_FOUND),
             {| users := users w ++ [<["_id" := VOid (fresh_oid (users w))]>
                                       (signup_doc env fullname email password)];
                session := <["flash" := "Account created successfully! Please log in."]>
                             (session w);
                db_trace := db_trace w ++
                            [Call_find_one [("email", CEq (VStr email))];
                             Call_insert_one (signup_doc env fullname email password)] |})
        end
    end.
Proof.
  unfold post_signup. case_bool_decide as Hpw; [done|].
  unfold get_password_hash, pwd_context_hash.
  unfold_monad. simpl.
  destruct (find (matches [("email", CEq (VStr email))]) (users w)) as [d|] eqn:Hfind.
  - apply find_some in Hfind as [_ Hm]. apply matches_field in Hm.
    unfold truthy_doc.
    rewrite bool_decide_eq_false_2; [done|intros ->; by rewrite lookup_empty in Hm].
  - simpl. destruct (validate_secret password); [done|].
    unfold ret, insert_one, db. simpl. by rewrite <- app_assoc.
Qed.

End Roles.

(** * Invariants carried through a handler *)

Section Hoare.
Variable I : World -> Prop.
Hypothesis I_session :
  forall w s, I w -> I {| users := users w; session := s; db_trace := db_trace w |}.

Lemma preserves_ret {A} (a : A) : preserves I (ret a).
Proof. intros env w r w' [= _ <-]. done. Qed.

Lemma preserves_raise {A} (e : Exn) : preserves I (@raise A e).
Proof. intros env w r w' [= _ <-]. done. Qed.

Lemma preserves_ask : preserves I ask.
Proof. intros env w r w' [= _ <-]. done. Qed.

Lemma preserves_lift {A} (o : outcome A) : preserves I (lift o).
Proof. intros env w r w' [= _ <-]. done. Qed.

Lemma preserves_bind {A B} (c : M A) (k : A -> M B) :
  preserves I c -> (forall a, preserves I (k a)) -> preserves I (bind c k).
Proof.
  intros Hc Hk env w r w'. unfold bind.
  destruct (c env w) as [[a|e] w1] eqn:Hrun.
  - intros Hka Hw. eapply Hk; [done|]. eapply Hc; done.
  - intros [= _ <-] Hw. eapply Hc; done.
Qed.

Lemma preserves_try_except {A} (body : M A) caught handler :
  preserves I body -> (forall e, preserves I (handler e)) ->
  preserves I (try_except body caught handler).
Proof.
  intros Hb Hh env w r w'. unfold try_except.
  destruct (body env w) as [[a|e] w1] eqn:Hrun.
  - intros [= _ <-] Hw. eapply Hb; done.
  - destruct (caught e).
    + intros Hhe Hw. eapply Hh; [done|]. eapply Hb; done.
    + intros [= _ <-] Hw. eapply Hb; done.
Qed.

Lemma preserves_getitem d key : preserves I (getitem d key).
Proof.
  unfold getitem. destruct (d !! key); [apply preserves_ret|apply preserves_raise].
Qed.

Lemma preserves_set_flash msg : preserves I (set_flash msg).
Proof. intros env w r w' [= _ <-] Hw. by apply I_session. Qed.

End Hoare.

Section RoleInvariant.
Implicit Types (env : Env) (w : World) (d s : Doc) (c : list Doc).

Lemma Inv_roles_session w (sess : gmap string string) :
  Inv_roles w -> Inv_roles {| users := users w; session := sess; db_trace := db_trace w |}.
Proof. done. Qed.

Lemma Inv_roles_db call c w :
  roles_ok c -> writes_role_ok call -> Inv_roles w -> Inv_roles (db call c w).
Proof.
  intros Hc Hcall [_ Htr]. split; [done|].
  simpl. apply Forall_app. split; [done|]. by constructor.
Qed.

Lemma roles_find_one f : preserves Inv_roles (find_one f).
Proof.
  intros env w r w' [= _ <-] Hw. apply Inv_roles_db; [apply Hw|by left|done].
Qed.

Lemma roles_delete_one f : preserves Inv_roles (delete_one f).
Proof.
  intros env w r w' [= _ <-] Hw.
  apply Inv_roles_db; [apply Forall_delete_first, Hw|by left|done].
Qed.

Lemma roles_update_one f s :
  s !! "role" = None \/ role_ok s -> preserves Inv_roles (update_one f s).
Proof.
  intros Hs env w r w' [= _ <-] Hw.
  apply Inv_roles_db; [apply roles_ok_update; [done|apply Hw]| |done].
  unfold writes_role_ok, role_ok in *. simpl. tauto.
Qed.

Lemma roles_insert_one d : role_ok d -> preserves Inv_roles (insert_one d).
Proof.
  intros Hd env w r w'. unfold insert_one.
  assert (writes_role_ok (Call_insert_one d)) as Hcall.
  { unfold writes_role_ok, role_ok in *. simpl. tauto. }
  destruct (d !! "_id") as [v|] eqn:Hid.
  - destruct (existsb _ _); intros [= _ <-] Hw.
    + apply Inv_roles_db; [apply Hw|done..].
    + apply Inv_roles_db; [|done..].
      apply Forall_app. split; [apply Hw|by constructor].
  - intros [= _ <-] Hw. apply Inv_roles_db; [|done..].
    apply Forall_app. split; [apply Hw|]. constructor; [|constructor].
    unfold role_ok in *. by rewrite !lookup_insert_ne.
Qed.

End RoleInvariant.

Section IdInvariant.
Implicit Types (env : Env) (w : World) (d s : Doc) (c : list Doc).

Lemma Inv_ids_session w (sess : gmap string string) :
  Inv_ids w -> Inv_ids {| users := users w; session := sess; db_trace := db_trace w |}.
Proof. done. Qed.

Lemma oid_of_apply_set s d : s !! "_id" = None -> oid_of (apply_set s d) = oid_of d.
Proof. intros Hs. unfold oid_of, apply_set. by rewrite lookup_union_r. Qed.

Lemma oids_update_first p g c :
  (forall d, oid_of (g d) = oid_of d) ->
  oid_of <$> update_first p g c = oid_of <$> c.
Proof.
  intros Hg. induction c as [|d c IH]; [done|].
  cbn [update_first]. destruct (p d); rewrite !fmap_cons; [by rewrite Hg|by rewrite IH].
Qed.

Lemma store_wf_update_first p s c :
  s !! "_id" = None -> store_wf c -> store_wf (update_first p (apply_set s) c).
Proof.
  intros Hs [Hsome Hnodup]. split.
  - apply Forall_update_first; [|done]. intros d Hd _. by rewrite oid_of_apply_set.
  - rewrite oids_update_first; [done|]. intros d. by apply oid_of_apply_set.
Qed.

Lemma delete_first_sublist p c : delete_first p c `sublist_of` c.
Proof.
  induction c as [|d c IH]; [done|].
  simpl. destruct (p d); [by apply sublist_cons|by apply sublist_skip].
Qed.

Lemma store_wf_delete_first p c : store_wf c -> store_wf (delete_first p c).
Proof.
  intros [Hsome Hnodup]. split; [by apply Forall_delete_first|].
  pose proof (delete_first_sublist p c) as Hsub.
  apply (fmap_sublist oid_of) in Hsub.
  eauto using sublist_NoDup.
Qed.

Lemma fresh_oid_above c d (n : nat) :
  d ∈ c -> oid_of d = Some n -> (n < fresh_oid c)%nat.
Proof.
  unfold fresh_oid. induction c as [|d' c IH]; [by intros ?%elem_of_nil|].
  intros [->|Hin]%elem_of_cons Hn; simpl.
  - rewrite Hn. simpl. lia.
  - specialize (IH Hin Hn). lia.
Qed.

Lemma store_wf_insert c d :
  d !! "_id" = None -> store_wf c ->
  store_wf (c ++ [<["_id" := VOid (fresh_oid c)]> d]).
Proof.
  intros Hd [Hsome Hnodup].
  assert (oid_of (<["_id" := VOid (fresh_oid c)]> d) = Some (fresh_oid c)) as Hnew.
  { unfold oid_of. by rewrite lookup_insert_eq. }
  split.
  - apply Forall_app. split; [done|]. constructor; [|constructor]. by rewrite Hnew.
  - rewrite fmap_app. apply NoDup_app. split; [done|]. split.
    + intros o Ho Ho'. simpl in Ho'. apply list_elem_of_singleton in Ho'.
      rewrite Hnew in Ho'. subst o.
      apply list_elem_of_fmap in Ho as (d' & Hoid & Hin).
      pose proof (fresh_oid_above c d' _ Hin (eq_sym Hoid)). lia.
    + simpl. apply NoDup_singleton.
Qed.

Lemma ids_find_one f : preserves Inv_ids (find_one f).
Proof. intros env w r w' [= _ <-] Hw. done. Qed.

Lemma ids_delete_one f : preserves Inv_ids (delete_one f).
Proof. intros env w r w' [= _ <-] Hw. by apply store_wf_delete_first. Qed.

Lemma ids_update_one f s : s !! "_id" = None -> preserves Inv_ids (update_one f s).
Proof. intros Hs env w r w' [= _ <-] Hw. by apply store_wf_update_first. Qed.

Lemma ids_insert_one d : d !! "_id" = None -> preserves Inv_ids (insert_one d).
Proof.
  intros Hd env w r w'. unfold insert_one. rewrite Hd.
  intros [= _ <-] Hw. by apply store_wf_insert.
Qed.

End IdInvariant.

Create HintDb preserves.

#[local] Hint Resolve preserves_ret preserves_raise preserves_ask preserves_lift
  preserves_getitem preserves_set_flash Inv_roles_session Inv_ids_session
  roles_find_one roles_delete_one ids_find_one ids_delete_one : preserves.

Ltac preserves_step :=
  first
    [ apply preserves_bind; [|intros ?]
    | apply preserves_try_except; [|intros ?]
    | solve [auto with preserves]
    | case_bool_decide
    | case_match ].

Ltac unfold_handlers :=
  unfold post_signup, update_user, assign_admin, delete_user,
    process_forgot_password, reset_password_post, get_password_hash,
    pwd_context_hash.

Section RoleClaims.
Implicit Types (env : Env) (w : World).

Lemma run_op_preserves_roles op : preserves Inv_roles (run_op op).
Proof.
  destruct op; simpl; unfold_handlers; repeat preserves_step.
  - apply roles_insert_one. by left.
  - apply roles_update_one. right. by left.
  - apply roles_update_one. right.
    match goal with H : _ ∈ _ |- _ => apply elem_of_cons in H as [->|H] end;
      [by left|].
    apply list_elem_of_singleton in H as ->. by right.
  - apply roles_update_one. right. by right.
  - apply roles_update_one. by left.
  - apply roles_update_one. by left.
Qed.

(** MongoDB's guarantee on ["_id"] is kept by every operation. *)
Lemma run_op_preserves_ids op : preserves Inv_ids (run_op op).
Proof.
  destruct op; simpl; unfold_handlers; repeat preserves_step;
    first [by apply ids_insert_one | by apply ids_update_one].
Qed.

(** C9: a record created by [post_signup] has role ["user"]; [update_user]
    treats a submitted role outside {user, admin} exactly as ["user"];
    and every user-mutating operation keeps all stored roles, and all
    roles handed to the driver for writing, inside {user, admin}. *)
Theorem roles_stay_in_user_admin :
  (forall env w fullname email password confirm_password d,
      d ∈ users (post_signup fullname email password confirm_password env w).2 ->
      d ∉ users w ->
      d !! "role" = Some (VStr "user")) /\
  (forall env w email current_user name new_email role,
      role ∉ ["user"; "admin"] ->
      update_user email current_user name new_email role env w
      = update_user email current_user name new_email "user" env w) /\
  (forall op env w,
      roles_ok (users w) ->
      Forall writes_role_ok (db_trace w) ->
      roles_ok (users (run_op op env w).2) /\
      Forall writes_role_ok (db_trace (run_op op env w).2)).
Proof.
  split; [|split].
  - intros env w fullname email password confirm_password d.
    rewrite post_signup_run.
    case_bool_decide; [done|]. case_match; [done|].
    destruct (validate_secret password); [done|]. simpl.
    intros Hin Hnew. apply elem_of_app in Hin as [Hin|Hin]; [done|].
    apply list_elem_of_singleton in Hin as ->. by rewrite lookup_insert_ne.
  - intros env w email current_user name new_email role Hrole.
    unfold update_user.
    by rewrite (bool_decide_eq_true_2 (role ∉ ["user"; "admin"])).
  - intros op env w Hroles Htrace.
    destruct (run_op op env w) as [r w'] eqn:Hrun.
    by apply (run_op_preserves_roles op env w r w' Hrun).
Qed.

End RoleClaims.

(** * The claims on a concrete deployment *)

Section Scenarios.
Import Example.

Example login_issues_stored_role :
  (login_for_api_token "b@x.com" "hunter2" (env_at 100) world0).1
  = Returns {| Token.access_token := bob_token; Token.token_type := "bearer" |}.
Proof. vm_compute. reflexivity. Qed.

Example bob_is_promoted :
  exists bob', users world_promoted = [alice; bob'] /\ bob' !! "role" = Some (VStr "admin").
Proof. eexists. split; vm_compute; reflexivity. Qed.

(** C1 fails on the code: Bob's token, issued at login with role "user",
    passes the admin gate once the stored role is "admin". *)
Lemma stale_token_passes_after_promotion :
  (login_for_api_token "b@x.com" "hunter2" (env_at 100) world0).1
  = Returns {| Token.access_token :=
                 Jws "HS256" "k3y"
                     {| sub := Some "b@x.com"; role := Some "user"; exp := Some 700 |};
               Token.token_type := "bearer" |} /\
  exists bob',
    (Depends_verify_admin
       (with_cookie (Jws "HS256" "k3y"
                         {| sub := Some "b@x.com"; role := Some "user"; exp := Some 700 |}))
       None (env_at 300) world_promoted).1
    = Returns bob' /\
    bob' !! "role" = Some (VStr "admin").
Proof. split; [vm_compute; reflexivity|]. eexists. split; vm_compute; reflexivity. Qed.

Lemma verify_admin_uses_stored_role_witness :
  (Depends_verify_admin (with_cookie bob_token) None (env_at 300) world0).1
  = Raises forbidden /\
  (Depends_verify_admin (with_cookie bob_token) None (env_at 300)
     (assign_admin "b@x.com" alice (env_at 200) world0).2).1
  = Returns (apply_set (dict [("role", VStr "admin"); ("updated_at", VDate 200)]) bob).
Proof.
  destruct (verify_admin_uses_stored_role (env_at 300) world0
              (with_cookie bob_token) None bob_token
              {| sub := Some "b@x.com"; role := Some "user"; exp := Some 700 |}
              "b@x.com" bob) as [Hgate Hpromoted]; try (vm_compute; reflexivity).
  split.
  - exact Hgate.
  - apply (Hpromoted (env_at 200) alice "a@x.com"); [vm_compute; reflexivity|].
    discriminate.
Defined.

Example bob_holds_reset_token :
  users world_resetting = [alice; bob_resetting].
Proof. vm_compute. reflexivity. Qed.

Lemma reset_token_single_use_witness :
  (reset_password_post "r4nd0m" "N3wSecret" "N3wSecret" (env_at 50) world_resetting).1
  = Returns (RedirectResponse LOGIN_ROUTE HTTP_302_FOUND) /\
  (let first := reset_password_post "r4nd0m" "N3wSecret" "N3wSecret" (env_at 50)
                  world_resetting in
   let second := reset_password_post "r4nd0m" "Again123" "Again123" (env_at 60) first.2 in
   second.1 = Returns (RedirectResponse FORGOT_PASSWORD_ROUTE HTTP_302_FOUND) /\
   users second.2 = users first.2).
Proof.
  assert (store_wf (users world_resetting)) as Hwf.
  { apply (bool_decide_unpack _). vm_compute. exact I. }
  assert (bob_resetting ∈ users world_resetting) as Hin.
  { apply (bool_decide_unpack _). vm_compute. exact I. }
  assert (holds_reset_token "r4nd0m" (utcnow (env_at 50)) bob_resetting) as Hholds.
  { split; [reflexivity|]. exists 3605. split; [reflexivity|]. simpl. lia. }
  assert (is_Some (bob_resetting !! "email")) as Hemail.
  { eexists. reflexivity. }
  assert (forall d, d ∈ users world_resetting ->
                    d !! "reset_token" = Some (VStr "r4nd0m") -> d = bob_resetting)
    as Honly.
  { intros d Hd Htok. rewrite bob_holds_reset_token in Hd.
    apply elem_of_cons in Hd as [->|Hd]; [vm_compute in Htok; discriminate|].
    by apply list_elem_of_singleton in Hd. }
  assert (validate_secret "N3wSecret" = None) as Hvalid.
  { vm_compute. reflexivity. }
  pose proof (proj1 (proj2 reset_token_single_use) (env_at 50) world_resetting
                "r4nd0m" "N3wSecret" bob_resetting Hwf Hin Hholds Hemail Honly Hvalid)
    as (Hfirst & _ & _ & _ & _ & _ & _ & Hsecond).
  split; [exact Hfirst|].
  intros first second.
  destruct (Hsecond (env_at 60) "Again123" "Again123") as (Husers & _ & Hrejected & _).
  split; [apply Hrejected; reflexivity|exact Husers].
Defined.

(** C2 fails on the code as the claim words it: after a successful reset, a
    second call with the same token whose two password fields differ is
    not answered with the generic invalid-or-expired error; it is sent back
    to the reset page with "Passwords do not match.". *)
Lemma second_reset_with_mismatch_is_not_generic :
  let first :=
    reset_password_post "r4nd0m" "N3wSecret" "N3wSecret" (env_at 50) world_resetting in
  let second := reset_password_post "r4nd0m" "Again123" "Again124" (env_at 60) first.2 in
  first.1 = Returns (RedirectResponse "/login" 302%nat) /\
  second.1 = Returns (RedirectResponse "/reset-password?token=r4nd0m" 302%nat) /\
  (session second.2) !! "flash" = Some "Passwords do not match." /\
  (session second.2) !! "flash" <> Some reset_rejected.
Proof. repeat split; try (vm_compute; reflexivity). vm_compute. discriminate. Qed.

(** A new password containing NUL is refused by the hasher: the handler
    raises after the lookup, issues no update, and the token stays valid. *)
Example reset_with_nul_password_raises :
  reset_password_post "r4nd0m" (String Ascii.zero "pw") (String Ascii.zero "pw")
                      (env_at 50) world_resetting
  = (Raises PasswordValueError,
     db (Call_find_one (reset_filter "r4nd0m" 50)) (users world_resetting) world_resetting).
Proof. vm_compute. reflexivity. Qed.

(** Were a second record to hold the same unexpired token, the token would
    work a second time, on that record: the single use rests on the token
    having one holder. *)
Example second_holder_makes_token_work_again :
  let carol := dict [("_id", VOid 3); ("email", VStr "c@x.com");
                     ("password_hash", VStr "$2b$12$saltsaold");
                     ("role", VStr "user");
                     ("reset_token", VStr "r4nd0m");
                     ("reset_token_expires_at", VDate 3605)] in
  let w := {| users := [alice; bob_resetting; carol]; session := ∅; db_trace := [] |} in
  let first := reset_password_post "r4nd0m" "N3wSecret" "N3wSecret" (env_at 50) w in
  let second := reset_password_post "r4nd0m" "Again123" "Again123" (env_at 60) first.2 in
  first.1 = Returns (RedirectResponse LOGIN_ROUTE HTTP_302_FOUND) /\
  second.1 = Returns (RedirectResponse LOGIN_ROUTE HTTP_302_FOUND) /\
  password_hashes (users second.2) <> password_hashes (users first.2).
Proof. repeat split; try (vm_compute; reflexivity). vm_compute. discriminate. Qed.

Lemma cookie_token_takes_precedence_witness :
  (get_current_user (with_cookie bob_token) (Some alice_token) (env_at 100) world0).1
  = Returns bob /\
  get_current_user no_cookie None (env_at 100) world0
  = (Raises credentials_exception, world0).
Proof.
  destruct (cookie_token_takes_precedence (env_at 100) world0) as [Hboth Hnone].
  split.
  - apply (Hboth (with_cookie bob_token) bob_token alice_token bob alice).
    + reflexivity.
    + discriminate.
    + eexists _, _. repeat split; vm_compute; reflexivity.
    + eexists _, _. repeat split; vm_compute; reflexivity.
  - apply Hnone; reflexivity.
Defined.

(** C5 fails on the code: a stored hash that is not a bcrypt digest makes
    [verify_password] raise. *)
Lemma verify_password_raises_on_unidentified_hash :
  (verify_password "Secret123" "not-a-bcrypt-hash" (env_at 100) world0).1
  = Raises UnknownHashError.
Proof. vm_compute. reflexivity. Qed.

(** C7 fails on the code: the request without a token and the request
    with a malformed token get the same outcome. *)
Lemma missing_and_malformed_token_indistinguishable :
  (get_current_user no_cookie None (env_at 100) world0).1
  = (get_current_user (with_cookie (Opaque "not.a.jwt")) None (env_at 100) world0).1 /\
  (get_current_user no_cookie None (env_at 100) world0).1
  = Raises (HTTPException 401 "Not authenticated" [("WWW-Authenticate", "Bearer")]).
Proof. split; vm_compute; reflexivity. Qed.

Lemma missing_and_malformed_token_same_error_witness :
  get_current_user no_cookie None (env_at 100) world0
  = (Raises credentials_exception, world0) /\
  get_current_user (with_cookie (Opaque "not.a.jwt")) None (env_at 100) world0
  = (Raises credentials_exception, world0).
Proof.
  apply (missing_and_malformed_token_same_error (env_at 100) world0
           no_cookie None (with_cookie (Opaque "not.a.jwt")) None "not.a.jwt");
    vm_compute; reflexivity.
Defined.

(** C8 fails on the code: a token whose subject is the empty string is
    looked up in the store before the request is refused. *)
Lemma empty_subject_reaches_the_store :
  get_current_user (with_cookie empty_subject_token) None (env_at 100) world0
  = (Raises credentials_exception,
     {| users := users world0;
        session := session world0;
        db_trace := [Call_find_one [("email", CEq (VStr ""))]] |}).
Proof. vm_compute. reflexivity. Qed.

(** With a record whose e-mail is the empty string in the collection, that
    token is even accepted. *)
Example empty_subject_accepted :
  let ghost := dict [("_id", VOid 9); ("email", VStr ""); ("role", VStr "user")] in
  (get_current_user (with_cookie empty_subject_token) None (env_at 100)
     {| users := [alice; ghost]; session := ∅; db_trace := [] |}).1
  = Returns ghost.
Proof. vm_compute. reflexivity. Qed.

Lemma subject_absent_or_empty_witness :
  get_current_user (with_cookie no_subject_token) None (env_at 100) world0
  = (Raises credentials_exception, world0) /\
  get_current_user (with_cookie empty_subject_token) None (env_at 100) world0
  = (Raises credentials_exception,
     db (Call_find_one [("email", CEq (VStr ""))]) (users world0) world0).
Proof.
  split.
  - apply (proj1 (subject_absent_or_empty (env_at 100) world0
                    (with_cookie no_subject_token) None no_subject_token
                    {| sub := None; role := Some "user"; exp := Some 700 |}
                    eq_refl eq_refl)).
    reflexivity.
  - apply (proj2 (subject_absent_or_empty (env_at 100) world0
                    (with_cookie empty_subject_token) None empty_subject_token
                    {| sub := Some ""; role := Some "user"; exp := Some 700 |}
                    eq_refl eq_refl)).
    reflexivity.
Defined.

Lemma roles_stay_in_user_admin_witness :
  (forall d,
      d ∈ users (post_signup "Carol" "c@x.com" "pw" "pw" (env_at 5) world0).2 ->
      d ∉ users world0 ->
      d !! "role" = Some (VStr "user")) /\
  update_user "b@x.com" alice "Bob" "b@x.com" "root" (env_at 5) world0
  = update_user "b@x.com" alice "Bob" "b@x.com" "user" (env_at 5) world0 /\
  roles_ok (users (run_op (Op_update_user "b@x.com" alice "Bob" "b@x.com" "root")
                     (env_at 5) world0).2).
Proof.
  destruct roles_stay_in_user_admin as (Hsignup & Hcoerce & Hinv).
  split; [|split].
  - intros d. apply Hsignup.
  - apply Hcoerce. apply (bool_decide_unpack _). vm_compute. exact I.
  - refine (proj1 (Hinv _ _ _ _ _)).
    + apply Forall_cons. split; [right; reflexivity|].
      apply Forall_cons. split; [left; reflexivity|constructor].
    + constructor.
Defined.

Lemma admin_cannot_target_own_account_witness :
  users (route_assign_admin (with_cookie alice_token) None "a@x.com" (env_at 100) world0).2
  = users world0 /\
  users (route_delete_user (with_cookie alice_token) None "a@x.com" (env_at 100) world0).2
  = users world0.
Proof.
  destruct (admin_cannot_target_own_account (env_at 100) world0
              (with_cookie alice_token) None alice
              (db (Call_find_one [("email", CEq (VStr "a@x.com"))]) (users world0) world0)
              "a@x.com") as [Hassign Hdelete].
  - vm_compute. reflexivity.
  - reflexivity.
  - by rewrite Hassign, Hdelete.
Defined.

End Scenarios.

(** * Further properties of the resolver and the gates *)

Section ResolverMore.
Implicit Types (env : Env) (w : World) (request : Request) (token : option JWT).

Lemma decode_Jws env alg k claims :
  decode env (Jws alg k claims)
  = if negb (bool_decide (alg = ALGORITHM (cfg env)))
    then Raises (JWTError "The specified alg value is not allowed")
    else if negb (bool_decide (k = SECRET_KEY (cfg env)))
    then Raises (JWTError "Signature verification failed.")
    else match exp claims with
         | Some e => if e <? utcnow env
                     then Raises (JWTError "Signature has expired.")
                     else Returns claims
         | None => Returns claims
         end.
Proof.
  unfold decode, jwt_decode. unfold_monad.
  destruct (decide (alg = ALGORITHM (cfg env))) as [->|Halg].
  - rewrite (bool_decide_eq_true_2 (_ ∈ _)) by (apply list_elem_of_singleton; done).
    rewrite (bool_decide_eq_true_2 (ALGORITHM (cfg env) = _)) by done. simpl.
    destruct (bool_decide (k = SECRET_KEY (cfg env))); simpl; [|done].
    destruct (exp claims) as [e|]; [|done]. by destruct (e <? utcnow env).
  - rewrite (bool_decide_eq_false_2 (_ ∈ _)) by (by intros ?%list_elem_of_singleton).
    by rewrite (bool_decide_eq_false_2 (alg = _)).
Qed.

Lemma decode_raises_JWTError env t e :
  decode env t = Raises e -> is_JWTError e = true.
Proof.
  destruct t as [alg k claims|s]; [|by intros [= <-]].
  rewrite decode_Jws. repeat (case_match; try done); by intros [= <-].
Qed.

(** X1: a token is refused with the 401 error, before any store call, when
    it was signed under another key or names another algorithm than the
    configured one, whatever its claims. *)
Theorem foreign_token_rejected env w request token alg k claims :
  selected_token request token = Some (Jws alg k claims) ->
  alg <> ALGORITHM (cfg env) \/ k <> SECRET_KEY (cfg env) ->
  get_current_user request token env w = (Raises credentials_exception, w).
Proof.
  intros Hsel Hforeign.
  rewrite get_current_user_unfold, Hsel, decode_Jws.
  destruct Hforeign as [Halg|Hkey].
  - by rewrite (bool_decide_eq_false_2 _ Halg).
  - rewrite (bool_decide_eq_false_2 _ Hkey). by case_bool_decide.
Qed.

Lemma create_access_token_run env w data expires_delta :
  create_access_token data expires_delta env w
  = (Returns (issued_token (cfg env) data (utcnow env)
                (default (default_lifetime (cfg env)) expires_delta)), w).
Proof. unfold create_access_token. unfold_monad. by destruct expires_delta. Qed.

(** X2: a token built by [create_access_token] for a subject is accepted by
    the resolver, under the same configuration, at every clock value up to
    and including its expiry second, where it resolves to the first stored
    record with that e-mail (401 after the lookup when there is none); at
    every later clock value it is refused before any store call. *)
Theorem issued_token_round_trip env env' w w' request token subject r expires_delta tok :
  cfg env' = cfg env ->
  (create_access_token {| sub := Some subject; role := r; exp := None |}
     expires_delta env w).1 = Returns tok ->
  selected_token request token = Some tok ->
  let expiry := utcnow env + default (default_lifetime (cfg env)) expires_delta in
  (utcnow env' <= expiry ->
   get_current_user request token env' w'
   = (match find (matches [("email", CEq (VStr subject))]) (users w') with
      | Some user => Returns user
      | None => Raises credentials_exception
      end,
      db (Call_find_one [("email", CEq (VStr subject))]) (users w') w')) /\
  (expiry < utcnow env' ->
   get_current_user request token env' w' = (Raises credentials_exception, w')).
Proof.
  intros Hcfg Hissue Hsel expiry.
  rewrite create_access_token_run in Hissue. simpl in Hissue.
  injection Hissue as <-.
  rewrite get_current_user_unfold, Hsel. unfold issued_token.
  rewrite decode_Jws, Hcfg, !bool_decide_eq_true_2 by done. simpl.
  fold expiry. split; intros Hclock.
  - rewrite (proj2 (Z.ltb_ge _ _)) by done. simpl. by case_match.
  - by rewrite (proj2 (Z.ltb_lt _ _)).
Qed.

(** X3: the "active user" dependency adds nothing to the resolver: a record
    the resolver returns is never an empty document, so the 400 "Inactive
    user" error cannot be raised through the dependency chain. *)
Theorem active_user_gate_is_transparent env w request token :
  Depends_get_current_active_user request token env w
  = get_current_user request token env w.
Proof.
  unfold Depends_get_current_active_user, get_current_active_user. unfold_monad.
  rewrite get_current_user_unfold.
  repeat (case_match; simplify_eq/=; try done).
  all: match goal with
       | H : find _ _ = Some ?u |- _ =>
           apply find_some in H as [_ H]; apply matches_field in H;
           unfold truthy_doc in *; case_bool_decide; simplify_eq/=;
           by rewrite ?lookup_empty in H
       end.
Qed.

(** X4: the admin gate only reads: whatever it answers, the collection and
    the session are as before; and a principal it returns is a stored
    record whose stored role is ["admin"]. *)
Theorem admin_gate_reads_and_checks_role env w request token r w' :
  Depends_verify_admin request token env w = (r, w') ->
  users w' = users w /\ session w' = session w /\
  (forall u, r = Returns u -> u ∈ users w /\ u !! "role" = Some (VStr "admin")).
Proof.
  intros Hrun.
  destruct (Depends_verify_admin_reads _ _ _ _ _ _ Hrun) as [Hu Hs].
  split; [done|]. split; [done|]. intros u ->.
  rewrite Depends_verify_admin_unfold, get_current_user_unfold in Hrun.
  repeat (case_match; simplify_eq/=; try done).
  split.
  - match goal with H : find _ _ = Some _ |- _ => apply find_some in H as [H _] end.
    by apply list_elem_of_In.
  - match goal with H : bool_decide (_ ≠ _) = false |- _ =>
      apply bool_decide_eq_false in H; by apply dec_stable in H end.
Qed.

(** X5: when the admin gate does not return a principal, each of the three
    admin routes raises the gate's error and leaves the collection and the
    session as they were: no edit, promotion or deletion happens. *)
Theorem admin_routes_guarded env w request token e w0 :
  Depends_verify_admin request token env w = (Raises e, w0) ->
  (forall email name new_email role,
      route_update_user request token email name new_email role env w = (Raises e, w0)) /\
  (forall email, route_assign_admin request token email env w = (Raises e, w0)) /\
  (forall email, route_delete_user request token email env w = (Raises e, w0)) /\
  users w0 = users w /\ session w0 = session w.
Proof.
  intros Hrun.
  destruct (Depends_verify_admin_reads _ _ _ _ _ _ Hrun) as [Hu Hs].
  unfold route_update_user, route_assign_admin, route_delete_user, bind.
  by rewrite Hrun.
Qed.

End ResolverMore.

(** * Further properties of the user administration *)

Section EmailInvariant.
Implicit Types (env : Env) (w : World) (d u s : Doc) (c : list Doc)
  (p : Doc -> bool) (g : Doc -> Doc).

Lemma email_of_Some d e : email_of d = Some e <-> d !! "email" = Some (VStr e).
Proof. unfold email_of. destruct (d !! "email") as [[]|]; naive_solver. Qed.

Lemma matches_email d e :
  matches [("email", CEq (VStr e))] d = true <-> email_of d = Some e.
Proof. by rewrite matches_field, email_of_Some. Qed.

Lemma find_email_None c e :
  find (matches [("email", CEq (VStr e))]) c = None <-> e ∉ omap email_of c.
Proof.
  rewrite list_elem_of_omap. split.
  - intros Hnone (d & Hin & He). apply list_elem_of_In in Hin.
    pose proof (find_none _ _ Hnone d Hin) as Hm.
    apply matches_email in He. congruence.
  - intros Hno. apply find_none_Forall, Forall_forall. intros d Hin.
    apply not_true_is_false. intros Hm%matches_email. apply Hno. eauto.
Qed.

Lemma omap_update_first_same (f : Doc -> option string) p g c :
  (forall d, p d = true -> f (g d) = f d) ->
  omap f (update_first p g c) = omap f c.
Proof.
  intros Hg. induction c as [|d c IH]; [done|].
  cbn [update_first]. destruct (p d) eqn:Hp.
  - cbn. by rewrite Hg.
  - cbn. by rewrite IH.
Qed.

Lemma elem_of_omap_update_first (f : Doc -> option string) p g c x y :
  (forall d, p d = true -> f (g d) = Some y) ->
  x ∈ omap f (update_first p g c) -> x ∈ omap f c \/ x = y.
Proof.
  intros Hg. rewrite !list_elem_of_omap. intros (d' & Hin & Hx).
  apply elem_of_update_first in Hin as [Hin|(d & Hfind & ->)]; [left; eauto|].
  right. apply find_some in Hfind as [_ Hp]. rewrite (Hg d Hp) in Hx. congruence.
Qed.

Lemma NoDup_omap_update_first_fresh (f : Doc -> option string) p g c y :
  (forall d, p d = true -> f (g d) = Some y) ->
  y ∉ omap f c ->
  NoDup (omap f c) -> NoDup (omap f (update_first p g c)).
Proof.
  intros Hg. induction c as [|d c IH]; [done|].
  cbn [update_first]. destruct (p d) eqn:Hp; cbn; intros Hy Hnd.
  - rewrite (Hg d Hp). destruct (f d) as [x|].
    + apply NoDup_cons in Hnd as [_ Hnd]. apply NoDup_cons. split; [|done].
      intros Hin. apply Hy. by apply elem_of_cons; right.
    + by apply NoDup_cons.
  - destruct (f d) as [x|].
    + apply NoDup_cons in Hnd as [Hx Hnd]. apply NoDup_cons. split.
      * intros Hin. apply (elem_of_omap_update_first f p g c x y Hg) in Hin as [Hin| ->].
        -- done.
        -- apply Hy. by apply elem_of_cons; left.
      * apply IH; [|done]. intros Hin. apply Hy. by apply elem_of_cons; right.
    + by apply IH.
Qed.

Lemma elem_of_omap_delete_first (f : Doc -> option string) p c x :
  x ∈ omap f (delete_first p c) -> x ∈ omap f c.
Proof.
  rewrite !list_elem_of_omap. intros (d & Hin & Hx). exists d. split; [|done].
  eapply elem_of_sublist; [done|]. apply delete_first_sublist.
Qed.

Lemma NoDup_omap_delete_first (f : Doc -> option string) p c :
  NoDup (omap f c) -> NoDup (omap f (delete_first p c)).
Proof.
  induction c as [|d c IH]; [done|].
  cbn [delete_first]. destruct (p d); cbn.
  - destruct (f d); [by intros [_ ?]%NoDup_cons|done].
  - destruct (f d) as [x|]; [|done].
    intros [Hx Hnd]%NoDup_cons. apply NoDup_cons. split; [|by apply IH].
    intros Hin. by apply Hx, (elem_of_omap_delete_first f p c).
Qed.

(** With unique e-mails, deleting by e-mail leaves no record under it. *)
Lemma find_delete_first_email c e :
  emails_unique c ->
  find (matches [("email", CEq (VStr e))])
       (delete_first (matches [("email", CEq (VStr e))]) c) = None.
Proof.
  unfold emails_unique. induction c as [|d c IH]; [done|].
  change (omap email_of (d :: c))
    with (match email_of d with
          | Some y => y :: omap email_of c
          | None => omap email_of c
          end).
  cbn [delete_first]. destruct (matches [("email", CEq (VStr e))] d) eqn:Hm.
  - apply matches_email in Hm. rewrite Hm.
    intros [Hfresh _]%NoDup_cons. by apply find_email_None.
  - cbn [find]. rewrite Hm.
    destruct (email_of d); [intros [_ ?]%NoDup_cons|]; by apply IH.
Qed.

Lemma Inv_emails_session w (sess : gmap string string) :
  Inv_emails w -> Inv_emails {| users := users w; session := sess; db_trace := db_trace w |}.
Proof. done. Qed.

Lemma email_of_apply_set s d : s !! "email" = None -> email_of (apply_set s d) = email_of d.
Proof. intros Hs. unfold email_of, apply_set. by rewrite lookup_union_r. Qed.

Lemma emails_find_one f : preserves Inv_emails (find_one f).
Proof. intros env w r w' [= _ <-] Hw. done. Qed.

Lemma emails_delete_one f : preserves Inv_emails (delete_one f).
Proof. intros env w r w' [= _ <-] Hw. by apply NoDup_omap_delete_first. Qed.

Lemma emails_update_one f s :
  s !! "email" = None -> preserves Inv_emails (update_one f s).
Proof.
  intros Hs env w r w' [= _ <-] Hw. unfold Inv_emails, emails_unique. simpl.
  rewrite omap_update_first_same; [done|]. intros d _. by apply email_of_apply_set.
Qed.

End EmailInvariant.

Section UserAdminMore.
Implicit Types (env : Env) (w : World) (d u s : Doc) (c : list Doc).

Lemma update_one_run env w f s :
  update_one f s env w
  = (Returns {| matched_count := match find (matches f) (users w) with
                                 | Some _ => 1
                                 | None => 0
                                 end;
                modified_count := if modified_by f s (users w) then 1 else 0 |},
     db (Call_update_one f s) (update_first (matches f) (apply_set s) (users w)) w).
Proof.
  unfold update_one, modified_by. f_equal.
  destruct (find (matches f) (users w)); [|done]. by case_bool_decide.
Qed.

(** [update_user] in closed form, for a principal that has an e-mail. *)
Lemma update_user_run env w email current_user name new_email role own :
  current_user !! "email" = Some own ->
  let data := update_user_data name new_email (coerce_role role) (utcnow env) in
  let target := [("email", CEq (VStr email))] in
  let lookup := Call_find_one [("email", CEq (VStr new_email))] in
  let updated tr :=
    (Returns (RedirectResponse USER_MANAGEMENT_ROUTE HTTP_303_SEE_OTHER),
     {| users := update_first (matches target) (apply_set data) (users w);
        session := <["flash" := if modified_by target data (users w)
                                then "User updated successfully."
                                else "No changes made or user not found."]> (session w);
        db_trace := tr ++ [Call_update_one target data] |}) in
  update_user email current_user name new_email role env w =
  if bool_decide (email ≠ new_email) then
    match find (matches [("email", CEq (VStr new_email))]) (users w) with
    | Some _ =>
        (Returns (RedirectResponse ("/edit-user/" +:+ email) HTTP_303_SEE_OTHER),
         {| users := users w;
            session := <["flash" := "New email already exists for another user."]>
                         (session w);
            db_trace := db_trace w ++ [lookup] |})
    | None => updated (db_trace w ++ [lookup])
    end
  else updated (db_trace w).
Proof.
  intros Hown data target lookup updated. subst data target lookup updated.
  unfold update_user, modified_by, update_user_data. fold (coerce_role role).
  unfold_monad. rewrite Hown. unfold ret. cbn beta iota zeta.
  case_bool_decide as Hne; cbn beta iota zeta.
  - destruct (find (matches [("email", CEq (VStr new_email))]) (users w)) as [d|] eqn:Hfind.
    + assert (truthy_doc (Some d) = true) as ->.
      { apply find_some in Hfind as [_ Hm]. apply matches_field in Hm.
        unfold truthy_doc. rewrite bool_decide_eq_false_2; [done|].
        intros ->. by rewrite lookup_empty in Hm. }
      done.
    + cbn [truthy_doc]. cbn beta iota. unfold db. cbn [users session db_trace].
      destruct (find (matches [("email", CEq (VStr email))]) (users w)) as [d|];
        [case_bool_decide|]; done.
  - unfold db. cbn [users session db_trace].
    destruct (find (matches [("email", CEq (VStr email))]) (users w)) as [d|];
      [case_bool_decide|]; done.
Qed.

Lemma assign_admin_run env w email current_user own :
  current_user !! "email" = Some own ->
  own <> VStr email ->
  let data := assign_admin_data (utcnow env) in
  let target := [("email", CEq (VStr email))] in
  assign_admin email current_user env w
  = (Returns (RedirectResponse USER_MANAGEMENT_ROUTE HTTP_303_SEE_OTHER),
     {| users := update_first (matches target) (apply_set data) (users w);
        session := <["flash" := if modified_by target data (users w)
                                then "User " +:+ email +:+ " promoted to admin successfully."
                                else "Failed to update user role or user not found."]>
                     (session w);
        db_trace := db_trace w ++ [Call_update_one target data] |}).
Proof.
  intros Hown Hne data target. subst data target.
  unfold assign_admin, modified_by, assign_admin_data.
  unfold_monad. rewrite Hown. unfold ret. cbn beta iota zeta.
  rewrite bool_decide_eq_false_2 by congruence.
  unfold db. cbn [users session db_trace].
  destruct (find (matches [("email", CEq (VStr email))]) (users w)) as [d|];
    [case_bool_decide|]; done.
Qed.

Lemma delete_user_run env w email current_user own :
  current_user !! "email" = Some own ->
  own <> VStr email ->
  let target := [("email", CEq (VStr email))] in
  delete_user email current_user env w
  = (Returns (RedirectResponse USER_MANAGEMENT_ROUTE HTTP_303_SEE_OTHER),
     {| users := delete_first (matches target) (users w);
        session := <["flash" := match find (matches target) (users w) with
                                | Some _ => "User " +:+ email +:+ " deleted successfully."
                                | None => "User " +:+ email +:+ " not found."
                                end]> (session w);
        db_trace := db_trace w ++ [Call_delete_one target] |}).
Proof.
  intros Hown Hne target. subst target. unfold delete_user.
  unfold_monad. rewrite Hown. unfold ret. cbn beta iota zeta.
  rewrite bool_decide_eq_false_2 by congruence.
  unfold db. cbn [users session db_trace].
  by destruct (find (matches [("email", CEq (VStr email))]) (users w)) as [d|].
Qed.

Lemma omap_cons_doc (f : Doc -> option string) d c :
  omap f (d :: c) = match f d with Some y => y :: omap f c | None => omap f c end.
Proof. done. Qed.

Lemma modified_by_no_match f s c : find (matches f) c = None -> modified_by f s c = false.
Proof. intros H. unfold modified_by. by rewrite H. Qed.

(** The handlers that never write the e-mail field. *)
Lemma other_handlers_preserve_emails op :
  match op with
  | Op_post_signup _ _ _ _ | Op_update_user _ _ _ _ _ => False
  | _ => True
  end ->
  preserves Inv_emails (run_op op).
Proof.
  destruct op; simpl; intros Hop; try done; unfold_handlers;
    repeat first [ preserves_step
                 | solve [auto using emails_find_one, emails_delete_one,
                            Inv_emails_session] ];
    by apply emails_update_one.
Qed.

(** X6: every user-mutating operation keeps e-mails unique: [post_signup]
    inserts only under an e-mail no record has, [update_user] renames only
    to an e-mail no record has, and the other handlers never write the
    e-mail field. *)
Theorem emails_stay_unique op env w :
  emails_unique (users w) -> emails_unique (users (run_op op env w).2).
Proof.
  intros Hw. destruct op as [fullname email password confirm_password
                            |email current_user name new_email role
                            |email current_user|email current_user|email
                            |token new_password confirm_password]; simpl.
  - rewrite post_signup_run. case_bool_decide; [done|].
    destruct (find _ (users w)) eqn:Hfind; [done|].
    destruct (validate_secret password); [done|]. simpl.
    unfold emails_unique. rewrite omap_app. apply NoDup_app. split; [done|].
    assert (email_of (<["_id":=VOid (fresh_oid (users w))]>
                        (signup_doc env fullname email password)) = Some email) as Hnew.
    { apply email_of_Some. by rewrite lookup_insert_ne. }
    rewrite (omap_cons_doc email_of), Hnew. split; [|apply NoDup_singleton].
    intros e He ->%list_elem_of_singleton. by apply find_email_None in Hfind.
  - destruct (current_user !! "email") as [own|] eqn:Hown.
    + rewrite (update_user_run _ _ _ _ _ _ _ own Hown).
      assert (forall d, email_of (apply_set
                (update_user_data name new_email (coerce_role role) (utcnow env)) d)
              = Some new_email) as Hset.
      { intros d. apply email_of_Some. by apply lookup_union_Some_l. }
      case_bool_decide as Hne.
      * destruct (find _ (users w)) eqn:Hfind; [done|]. simpl.
        apply (NoDup_omap_update_first_fresh email_of _ _ _ new_email); [by auto| |done].
        by apply find_email_None.
      * subst new_email. simpl. unfold emails_unique.
        rewrite omap_update_first_same; [done|].
        intros d Hd%matches_email. by rewrite Hset.
    + unfold update_user. unfold_monad. by rewrite Hown.
  - destruct (assign_admin email current_user env w) as [r w'] eqn:Hrun.
    by apply (other_handlers_preserve_emails (Op_assign_admin email current_user)
                I env w r w' Hrun).
  - destruct (delete_user email current_user env w) as [r w'] eqn:Hrun.
    by apply (other_handlers_preserve_emails (Op_delete_user email current_user)
                I env w r w' Hrun).
  - destruct (process_forgot_password email env w) as [r w'] eqn:Hrun.
    by apply (other_handlers_preserve_emails (Op_process_forgot_password email)
                I env w r w' Hrun).
  - destruct (reset_password_post token new_password confirm_password env w)
      as [r w'] eqn:Hrun.
    by apply (other_handlers_preserve_emails
                (Op_reset_password_post token new_password confirm_password)
                I env w r w' Hrun).
Qed.

(** X7: [update_user] refuses to rename a user to an e-mail that some
    record already has: the collection is unchanged, no update is sent to
    the store, and the admin is sent back to the edit page with a flash
    message. *)
Theorem update_user_refuses_taken_email env w email current_user name new_email role own d :
  current_user !! "email" = Some own ->
  email <> new_email ->
  d ∈ users w ->
  d !! "email" = Some (VStr new_email) ->
  update_user email current_user name new_email role env w
  = (Returns (RedirectResponse ("/edit-user/" +:+ email) HTTP_303_SEE_OTHER),
     {| users := users w;
        session := <["flash" := "New email already exists for another user."]> (session w);
        db_trace := db_trace w ++ [Call_find_one [("email", CEq (VStr new_email))]] |}).
Proof.
  intros Hown Hne Hin Hd.
  rewrite (update_user_run _ _ _ _ _ _ _ own Hown).
  rewrite bool_decide_eq_true_2 by done.
  destruct (find (matches [("email", CEq (VStr new_email))]) (users w)) eqn:Hfind; [done|].
  apply list_elem_of_In in Hin. pose proof (find_none _ _ Hfind d Hin) as Hm.
  apply matches_field in Hd. congruence.
Qed.

(** X8: aimed at an e-mail no record has, [update_user], [assign_admin]
    and [delete_user] leave the collection unchanged and say so in the
    flash message; none of them creates a record. *)
Theorem unknown_target_changes_nothing env w email current_user own name role :
  current_user !! "email" = Some own ->
  own <> VStr email ->
  find (matches [("email", CEq (VStr email))]) (users w) = None ->
  let edited := (update_user email current_user name email role env w).2 in
  let promoted := (assign_admin email current_user env w).2 in
  let deleted := (delete_user email current_user env w).2 in
  users edited = users w /\
  session edited !! "flash" = Some "No changes made or user not found." /\
  users promoted = users w /\
  session promoted !! "flash" = Some "Failed to update user role or user not found." /\
  users deleted = users w /\
  session deleted !! "flash" = Some ("User " +:+ email +:+ " not found.").
Proof.
  intros Hown Hne Hfind edited promoted deleted. subst edited promoted deleted.
  rewrite (update_user_run _ _ _ _ _ _ _ own Hown).
  rewrite (assign_admin_run _ _ _ _ own Hown Hne).
  rewrite (delete_user_run _ _ _ _ own Hown Hne).
  rewrite bool_decide_eq_false_2 by (intros H; by apply H).
  cbn [snd users session].
  rewrite !modified_by_no_match, !update_first_no_match, delete_first_no_match, Hfind
    by done.
  by rewrite !lookup_insert_eq.
Qed.

Lemma find_update_first_Some (p : Doc -> bool) (g : Doc -> Doc) c u :
  find p c = Some u -> g u ∈ update_first p g c.
Proof.
  induction c as [|d c IH]; [done|].
  simpl. destruct (p d) eqn:Hp.
  - intros [= ->]. by apply elem_of_cons; left.
  - intros H. apply elem_of_cons; right. by apply IH.
Qed.

Lemma length_update_first (p : Doc -> bool) (g : Doc -> Doc) c :
  length (update_first p g c) = length c.
Proof. induction c as [|d c IH]; [done|]. simpl. destruct (p d); simpl; by rewrite ?IH. Qed.

(** X9: [assign_admin] on another user's e-mail sets the role of the first
    record under that e-mail to ["admin"] and touches nothing else: of that
    record only ["role"] and ["updated_at"] change, every other record is
    as before, and no record is added or removed. *)
Theorem assign_admin_promotes_only_target env w email current_user own u :
  current_user !! "email" = Some own ->
  own <> VStr email ->
  find (matches [("email", CEq (VStr email))]) (users w) = Some u ->
  let w' := (assign_admin email current_user env w).2 in
  let u' := apply_set (assign_admin_data (utcnow env)) u in
  find (matches [("email", CEq (VStr email))]) (users w') = Some u' /\
  u' !! "role" = Some (VStr "admin") /\
  (forall key, key <> "role" -> key <> "updated_at" -> u' !! key = u !! key) /\
  (forall d, d ∈ users w' -> d = u' \/ d ∈ users w) /\
  length (users w') = length (users w).
Proof.
  intros Hown Hne Hfind w' u'. subst w' u'.
  rewrite (assign_admin_run _ _ _ _ own Hown Hne). cbn [snd users].
  split; [|split; [|split; [|split]]].
  - rewrite find_update_first, Hfind; [done|].
    intros d Hd. apply matches_field. apply matches_field in Hd.
    unfold apply_set. by rewrite lookup_union_r.
  - by apply lookup_union_Some_l.
  - intros key Hrole Hupd. unfold apply_set, assign_admin_data, dict.
    rewrite lookup_union_r; [done|]. cbn [list_to_map foldr].
    by rewrite !lookup_insert_ne, lookup_empty.
  - intros d Hd. apply elem_of_update_first in Hd as [Hd|(d0 & Hd0 & ->)]; [by right|].
    left. congruence.
  - apply length_update_first.
Qed.

(** X10: with unique e-mails, once [delete_user] has removed a user, a
    token naming that user no longer authenticates: the resolver looks the
    subject up, finds no record and raises the 401 error. *)
Theorem deleted_user_token_rejected env env' w email current_user own request token t payload :
  emails_unique (users w) ->
  current_user !! "email" = Some own ->
  own <> VStr email ->
  selected_token request token = Some t ->
  decode env' t = Returns payload ->
  sub payload = Some email ->
  (get_current_user request token env' (delete_user email current_user env w).2).1
  = Raises credentials_exception.
Proof.
  intros Huniq Hown Hne Hsel Hdec Hsub.
  rewrite (delete_user_run _ _ _ _ own Hown Hne). cbn [snd].
  rewrite get_current_user_unfold, Hsel, Hdec, Hsub. cbn [users].
  by rewrite find_delete_first_email.
Qed.

Lemma password_hashes_update_first (p : Doc -> bool) s c :
  s !! "password_hash" = None ->
  password_hashes (update_first p (apply_set s) c) = password_hashes c.
Proof.
  intros Hs. unfold password_hashes. induction c as [|d c IH]; [done|].
  cbn [update_first]. destruct (p d); rewrite !fmap_cons; [|by rewrite IH].
  f_equal. unfold apply_set. by rewrite lookup_union_r.
Qed.

(** X11: the admin edits and the forgot-password request never touch a
    password hash: after [update_user], [assign_admin] or
    [process_forgot_password], whatever their input and outcome, the stored
    hashes are record by record what they were. *)
Theorem password_hashes_untouched env w email current_user name new_email role :
  password_hashes (users (update_user email current_user name new_email role env w).2)
  = password_hashes (users w) /\
  password_hashes (users (assign_admin email current_user env w).2)
  = password_hashes (users w) /\
  password_hashes (users (process_forgot_password email env w).2)
  = password_hashes (users w).
Proof.
  assert (forall op H,
    match op with
    | Op_update_user _ _ _ _ _ | Op_assign_admin _ _ | Op_process_forgot_password _ => True
    | _ => False
    end ->
    preserves (fun w => password_hashes (users w) = H) (run_op op)) as Hframe.
  { intros op H Hop. destruct op; simpl in *; try done; unfold_handlers;
      repeat first
        [ preserves_step
        | match goal with
          | |- preserves _ (find_one _) => by intros ???? [= _ <-]
          | |- preserves _ (update_one _ _) =>
              intros ???? [= _ <-] <-; by apply password_hashes_update_first
          end ]. }
  split; [|split].
  - destruct (update_user email current_user name new_email role env w) as [r w'] eqn:Hrun.
    by apply (Hframe (Op_update_user email current_user name new_email role) _ I
                env w r w' Hrun).
  - destruct (assign_admin email current_user env w) as [r w'] eqn:Hrun.
    by apply (Hframe (Op_assign_admin email current_user) _ I env w r w' Hrun).
  - destruct (process_forgot_password email env w) as [r w'] eqn:Hrun.
    by apply (Hframe (Op_process_forgot_password email) _ I env w r w' Hrun).
Qed.

End UserAdminMore.

(** * Further properties of login and of the reset flow *)

Section LoginMore.
Implicit Types (env : Env) (w : World) (d u s : Doc) (c : list Doc).

Lemma find_app_last (p : Doc -> bool) c d :
  find p c = None -> p d = true -> find p (c ++ [d]) = Some d.
Proof.
  induction c as [|d' c IH]; simpl; [by intros _ ->|].
  destruct (p d'); [done|]. apply IH.
Qed.

(** [POST /token] in closed form, for a record with a string hash. *)
Lemma login_for_api_token_run env w username password u h :
  find (matches [("email", CEq (VStr username))]) (users w) = Some u ->
  u !! "password_hash" = Some (VStr h) ->
  bcrypt_identify h = true ->
  login_for_api_token username password env w
  = (match bcrypt_check (bcrypt env) password h with
     | Returns true =>
         match u !! "role" with
         | None | Some (VStr _) | Some VNull =>
             Returns {| Token.access_token :=
                          issued_token (cfg env)
                            {| sub := Some username;
                               role := match u !! "role" with
                                       | Some (VStr r) => Some r
                                       | Some _ => None
                                       | None => Some "user"
                                       end;
                               exp := None |}
                            (utcnow env) (default_lifetime (cfg env));
                        Token.token_type := "bearer" |}
         | Some _ => Raises TypeError
         end
     | Returns false => Raises unauthorized
     | Raises e => Raises e
     end,
     db (Call_find_one [("email", CEq (VStr username))]) (users w) w).
Proof.
  intros Hfind Hhash Hident.
  assert (truthy_doc (Some u) = true) as Htruthy.
  { unfold truthy_doc. rewrite bool_decide_eq_false_2; [done|].
    intros ->. by rewrite lookup_empty in Hhash. }
  unfold login_for_api_token, verify_password, pwd_context_verify, create_access_token.
  unfold_monad. unfold ret, raise, lift. cbn beta iota zeta.
  rewrite Hfind, Htruthy, Hhash, Hident. cbn beta iota zeta delta [negb].
  destruct (bcrypt_check (bcrypt env) password h) as [[]|e];
    cbn beta iota zeta delta [negb]; [|done..].
  destruct (u !! "role") as [[]|]; done.
Qed.

(** X12: signing up and then logging in with the same password yields a
    token for that e-mail with role ["user"], expiring after the configured
    lifetime, provided the bcrypt primitive emits digests it identifies and
    accepts its own digest of the password. *)
Theorem signup_then_login env env' w fullname email password :
  find (matches [("email", CEq (VStr email))]) (users w) = None ->
  bcrypt env' = bcrypt env ->
  let digest := bcrypt_digest (bcrypt env) (gensalt env) password in
  bcrypt_identify digest = true ->
  bcrypt_check (bcrypt env) password digest = Returns true ->
  (login_for_api_token email password env'
     (post_signup fullname email password password env w).2).1
  = Returns {| Token.access_token :=
                 issued_token (cfg env')
                   {| sub := Some email; role := Some "user"; exp := None |}
                   (utcnow env') (default_lifetime (cfg env'));
               Token.token_type := "bearer" |}.
Proof.
  intros Hfree Hbcrypt digest Hident Hcheck.
  rewrite post_signup_run, bool_decide_eq_false_2 by (intros H; by apply H).
  rewrite Hfree, (bcrypt_check_validates (bcrypt env) password digest Hcheck). cbn [snd].
  set (doc := <["_id":=VOid (fresh_oid (users w))]> (signup_doc env fullname email password)).
  rewrite (login_for_api_token_run env' _ email password doc digest).
  - rewrite Hbcrypt, Hcheck. subst doc. by rewrite !lookup_insert_ne.
  - cbn [users]. apply find_app_last; [done|].
    apply matches_field. subst doc. by rewrite lookup_insert_ne.
  - subst doc. by rewrite lookup_insert_ne.
  - done.
Qed.

(** X13: [POST /token] answers an unknown e-mail and a wrong password for a
    known e-mail with the same 401 error, after the same single lookup and
    without changing the collection or the session: the endpoint does not
    reveal whether the account exists. *)
Theorem login_failure_uniform env w username password :
  let failed :=
    (Raises unauthorized,
     db (Call_find_one [("email", CEq (VStr username))]) (users w) w) in
  (find (matches [("email", CEq (VStr username))]) (users w) = None ->
   login_for_api_token username password env w = failed) /\
  (forall u h,
      find (matches [("email", CEq (VStr username))]) (users w) = Some u ->
      u !! "password_hash" = Some (VStr h) ->
      bcrypt_identify h = true ->
      bcrypt_check (bcrypt env) password h = Returns false ->
      login_for_api_token username password env w = failed).
Proof.
  intros failed. subst failed. split.
  - intros Hnone. unfold login_for_api_token. unfold_monad. by rewrite Hnone.
  - intros u h Hfind Hhash Hident Hcheck.
    by rewrite (login_for_api_token_run _ _ _ _ u h Hfind Hhash Hident), Hcheck.
Qed.

End LoginMore.

Section ResetFlowMore.
Implicit Types (env : Env) (w : World) (d u s : Doc) (c : list Doc).

Lemma process_forgot_password_users env w email :
  users (process_forgot_password email env w).2
  = update_first (matches [("email", CEq (VStr email))])
      (apply_set (forgot_password_data (token_urlsafe env) (utcnow env))) (users w).
Proof.
  unfold process_forgot_password. unfold_monad. cbn beta iota zeta.
  destruct (find (matches [("email", CEq (VStr email))]) (users w)) as [u|] eqn:Hfind.
  - assert (truthy_doc (Some u) = true) as ->; [|done].
    apply find_some in Hfind as [_ Hm]. apply matches_field in Hm.
    unfold truthy_doc. rewrite bool_decide_eq_false_2; [done|].
    intros ->. by rewrite lookup_empty in Hm.
  - cbn. by rewrite update_first_no_match.
Qed.

Lemma update_first_twice (p : Doc -> bool) (g1 g2 : Doc -> Doc) c :
  (forall d, p d = true -> p (g1 d) = true) ->
  update_first p g2 (update_first p g1 c) = update_first p (fun d => g2 (g1 d)) c.
Proof.
  intros Hg. induction c as [|d c IH]; [done|].
  cbn [update_first]. destruct (p d) eqn:Hp; cbn [update_first].
  - by rewrite (Hg d Hp).
  - by rewrite Hp, IH.
Qed.

Lemma forgot_password_data_keeps_email tok now d e :
  d !! "email" = Some (VStr e) ->
  apply_set (forgot_password_data tok now) d !! "email" = Some (VStr e).
Proof. intros Hd. unfold apply_set. by rewrite lookup_union_r. Qed.

(** X14: a reset token stored by [process_forgot_password] opens the reset
    for exactly one hour: [reset_password_post] with that token and a new
    password the hasher accepts succeeds at every clock value strictly
    before request time + 3600 s, leaving the record with the new hash and
    a cleared token, and is refused at request time + 3600 s and later,
    leaving the collection unchanged. *)
Theorem reset_window_is_one_hour env env' w email u pw :
  store_wf (users w) ->
  find (matches [("email", CEq (VStr email))]) (users w) = Some u ->
  (forall d, d ∈ users w -> d !! "reset_token" <> Some (VStr (token_urlsafe env))) ->
  validate_secret pw = None ->
  let requested := (process_forgot_password email env w).2 in
  let consumed := reset_password_post (token_urlsafe env) pw pw env' requested in
  (utcnow env' < utcnow env + 3600 ->
   consumed.1 = Returns (RedirectResponse LOGIN_ROUTE HTTP_302_FOUND) /\
   exists u2,
     u2 ∈ users consumed.2 /\
     u2 !! "email" = Some (VStr email) /\
     u2 !! "password_hash"
     = Some (VStr (bcrypt_digest (bcrypt env') (gensalt env') pw)) /\
     u2 !! "reset_token" = Some VNull) /\
  (utcnow env + 3600 <= utcnow env' ->
   consumed.1 = Returns (RedirectResponse FORGOT_PASSWORD_ROUTE HTTP_302_FOUND) /\
   users consumed.2 = users requested).
Proof.
  intros Hwf Hfind Hfresh Hvalid requested consumed.
  set (tok := token_urlsafe env) in *.
  set (u1 := apply_set (forgot_password_data tok (utcnow env)) u).
  assert (users requested
          = update_first (matches [("email", CEq (VStr email))])
              (apply_set (forgot_password_data tok (utcnow env))) (users w)) as Husers
    by apply process_forgot_password_users.
  assert (u !! "email" = Some (VStr email)) as Hemail.
  { apply find_some in Hfind as [_ Hm]. by apply matches_field in Hm. }
  assert (u1 ∈ users requested) as Hin.
  { rewrite Husers. by apply find_update_first_Some. }
  assert (forall d, d ∈ users requested -> d !! "reset_token" = Some (VStr tok) -> d = u1)
    as Honly.
  { intros d Hd Htok. by apply (fresh_reset_token_one_holder env w email u d). }
  assert (store_wf (users requested)) as Hwf1.
  { rewrite Husers. by apply store_wf_update_first. }
  assert (u1 !! "reset_token" = Some (VStr tok)) as Htok1
    by (by apply lookup_union_Some_l).
  assert (u1 !! "reset_token_expires_at" = Some (VDate (utcnow env + 3600))) as Hexp1
    by (by apply lookup_union_Some_l).
  split; intros Hclock.
  - assert (find (matches (reset_filter tok (utcnow env'))) (users requested) = Some u1)
      as Hfind1.
    { apply find_unique; [done| |].
      - apply matches_reset_filter. split; [done|]. eauto.
      - intros d Hd Hm. apply matches_reset_filter in Hm as [Hm _]. by apply Honly. }
    destruct Hwf1 as [Hsome Hnodup].
    destruct (proj1 (Forall_forall _ _) Hsome u1 Hin) as [n Hoid].
    assert (is_Some (u1 !! "email")) as Hemail1.
    { exists (VStr email). by apply forgot_password_data_keeps_email. }
    pose proof (reset_password_post_match env' requested tok pw u1 n Hfind1 Hoid Hemail1
                  Hvalid)
      as Hrun.
    cbv zeta in Hrun. subst consumed. rewrite Hrun. cbn [fst snd users].
    split; [done|].
    rewrite (update_first_by_oid _ _ u1 n); [|done..].
    eexists. split.
    + apply list_elem_of_fmap. exists u1. split; [|done].
      by rewrite bool_decide_eq_true_2.
    + split; [|split]; unfold apply_set.
      * rewrite lookup_union_r; [|done]. by apply forgot_password_data_keeps_email.
      * by apply lookup_union_Some_l.
      * by apply lookup_union_Some_l.
  - assert (find (matches (reset_filter tok (utcnow env'))) (users requested) = None)
      as Hnone.
    { apply find_none_Forall, Forall_forall. intros d Hd.
      apply not_true_is_false. intros Hm. apply matches_reset_filter in Hm as [Hm (t & Ht & Hlt)].
      rewrite (Honly d Hd Hm) in Ht. rewrite Hexp1 in Ht. injection Ht as <-. lia. }
    subst consumed. by rewrite (reset_password_post_no_match _ _ _ _ Hnone).
Qed.

(** X15: a new forgot-password request replaces the token of the earlier
    one: after two requests for the same e-mail that drew different tokens,
    no record holds the first token, so a reset with it is refused and
    changes nothing. *)
Theorem newer_reset_token_replaces_older env1 env2 env' w email pw :
  token_urlsafe env1 <> token_urlsafe env2 ->
  (forall d, d ∈ users w -> d !! "reset_token" <> Some (VStr (token_urlsafe env1))) ->
  let requested :=
    (process_forgot_password email env2 (process_forgot_password email env1 w).2).2 in
  let consumed := reset_password_post (token_urlsafe env1) pw pw env' requested in
  consumed.1 = Returns (RedirectResponse FORGOT_PASSWORD_ROUTE HTTP_302_FOUND) /\
  users consumed.2 = users requested.
Proof.
  intros Hdiff Hfresh requested consumed.
  assert (users requested
          = update_first (matches [("email", CEq (VStr email))])
              (fun d => apply_set (forgot_password_data (token_urlsafe env2) (utcnow env2))
                          (apply_set (forgot_password_data (token_urlsafe env1) (utcnow env1)) d))
              (users w)) as Husers.
  { subst requested. rewrite !process_forgot_password_users.
    apply update_first_twice. intros d Hd%matches_field. apply matches_field.
    by apply forgot_password_data_keeps_email. }
  assert (find (matches (reset_filter (token_urlsafe env1) (utcnow env'))) (users requested)
          = None) as Hnone.
  { apply find_none_Forall, Forall_forall. intros d Hd.
    apply not_true_is_false. intros Hm. apply matches_reset_filter in Hm as [Hm _].
    rewrite Husers in Hd.
    apply elem_of_update_first in Hd as [Hd|(d0 & _ & ->)].
    - by apply (Hfresh d Hd).
    - unfold apply_set at 1 in Hm.
      rewrite (lookup_union_Some_l _ _ _ (VStr (token_urlsafe env2))) in Hm by done.
      congruence. }
  subst consumed. by rewrite (reset_password_post_no_match _ _ _ _ Hnone).
Qed.

End ResetFlowMore.

(** * Properties of the pages *)

Section PagesMore.
Implicit Types (env : Env) (w : World) (d u : Doc) (c : list Doc).
Variable RECAPTCHA_SITE_KEY : string.
Variable strftime : Z -> string -> string.

Lemma flash_page_run page env w :
  page ∈ flash_pages RECAPTCHA_SITE_KEY ->
  shown_flash (page env w).1 = Some (ctx_option (session w !! "flash")) /\
  (page env w).2
  = {| users := users w; session := delete "flash" (session w); db_trace := db_trace w |}.
Proof.
  unfold flash_pages. rewrite !elem_of_cons, elem_of_nil.
  intros [->|[->|[->|[]]]]; done.
Qed.

(** X16: a flash message is shown once: the first of the login, signup
    and forgot-password pages rendered after a handler stored a message
    shows it, and the page rendered next shows none; rendering a page
    never changes the user collection. *)
Theorem flash_is_shown_once page1 page2 env1 env2 w msg :
  page1 ∈ flash_pages RECAPTCHA_SITE_KEY ->
  page2 ∈ flash_pages RECAPTCHA_SITE_KEY ->
  session w !! "flash" = Some msg ->
  let first := page1 env1 w in
  let second := page2 env2 first.2 in
  shown_flash first.1 = Some (CStr msg) /\
  shown_flash second.1 = Some CNone /\
  users second.2 = users w.
Proof.
  intros H1 H2 Hmsg first second. subst first second.
  destruct (flash_page_run page1 env1 w H1) as [Hshown1 ->].
  destruct (flash_page_run page2 env2
              {| users := users w; session := delete "flash" (session w);
                 db_trace := db_trace w |} H2) as [Hshown2 ->].
  rewrite Hshown1, Hshown2, Hmsg. cbn [session users].
  by rewrite lookup_delete_eq.
Qed.

(** X17: the reset page asked for without a token, or with an empty one,
    redirects to the forgot-password page, which then shows the
    invalid-token notice; a message that was pending before is dropped, not
    shown later. *)
Theorem reset_page_without_token env1 env2 w token :
  token = None \/ token = Some "" ->
  let first := reset_password_get token env1 w in
  let second := forgot_password env2 first.2 in
  first.1 = Returns (Redirect (RedirectResponse FORGOT_PASSWORD_ROUTE HTTP_302_FOUND)) /\
  shown_flash second.1 = Some (CStr "Invalid or missing password reset token.") /\
  session second.2 !! "flash" = None /\
  users second.2 = users w.
Proof.
  intros Htoken first second. subst first second.
  unfold reset_password_get, forgot_password, session_pop. unfold_monad.
  rewrite bool_decide_eq_false_2 by (destruct Htoken as [->| ->]; intros [? ?]; done).
  cbn. by rewrite lookup_insert_eq, lookup_delete_eq.
Qed.

Lemma filter_matches_all c : List.filter (matches []) c = c.
Proof. induction c as [|d c IH]; [done|]. cbn. by rewrite IH. Qed.

Lemma project_hides_secrets d :
  let shown := project [("_id", 0%nat); ("password_hash", 0%nat)] d in
  shown !! "_id" = None /\ shown !! "password_hash" = None /\
  forall key, key <> "_id" -> key <> "password_hash" -> shown !! key = d !! key.
Proof.
  change (project [("_id", 0%nat); ("password_hash", 0%nat)] d)
    with (delete "_id" (delete "password_hash" d)).
  cbv zeta. split; [|split].
  - by rewrite lookup_delete_eq.
  - by rewrite lookup_delete_ne, lookup_delete_eq.
  - intros key H1 H2. by rewrite !lookup_delete_ne.
Qed.

Lemma format_created_at_other d key :
  key <> "created_at" -> format_created_at strftime d !! key = d !! key.
Proof.
  intros Hkey. unfold format_created_at.
  destruct (d !! "created_at") as [[]|]; try done. by rewrite lookup_insert_ne.
Qed.

Lemma listed_hides_secrets d :
  listed strftime d !! "_id" = None /\ listed strftime d !! "password_hash" = None /\
  listed strftime d !! "email" = d !! "email" /\
  listed strftime d !! "role" = d !! "role".
Proof.
  destruct (project_hides_secrets d) as (Hid & Hhash & Hother).
  unfold listed. rewrite !format_created_at_other by done.
  repeat split; [done..| |]; by apply Hother.
Qed.

(** X18: the user-management page lists every stored user, in order, with
    its e-mail and role, and never a password hash or an ["_id"]; rendering
    it leaves the collection unchanged. *)
Theorem user_listing_hides_hashes env w current_user own :
  current_user !! "email" = Some own ->
  let run := user_management strftime current_user env w in
  run.1 = Returns (TemplateResponse "user_management.html"
                     (context [("request", CRequest);
                               ("users", CDocs (listed strftime <$> users w));
                               ("flash", ctx_option (session w !! "flash"))])) /\
  users run.2 = users w /\
  length (listed strftime <$> users w) = length (users w) /\
  Forall (fun d => d !! "password_hash" = None /\ d !! "_id" = None) (listed strftime <$> users w) /\
  (fun d => (d !! "email", d !! "role")) <$> (listed strftime <$> users w)
  = (fun d => (d !! "email", d !! "role")) <$> users w.
Proof.
  intros Hown run. subst run.
  unfold user_management, find_projected, session_pop. unfold_monad.
  rewrite Hown. unfold ret. cbn beta iota zeta.
  rewrite filter_matches_all, <- list_fmap_compose.
  split; [done|]. split; [done|]. split; [by rewrite length_fmap|]. split.
  - apply Forall_fmap, Forall_forall. intros d _.
    destruct (listed_hides_secrets d) as (? & ? & _). done.
  - rewrite <- list_fmap_compose. apply list_fmap_ext. intros i d _. cbn.
    destruct (listed_hides_secrets d) as (_ & _ & -> & ->). done.
Qed.

(** X19: the edit page of an e-mail no record has redirects to the user
    management page with the message "User not found."; for a stored
    e-mail it shows the first record under it, without its password hash
    and ["_id"].  Either way the collection is unchanged. *)
Theorem edit_page_shows_user_or_redirects env w email current_user own :
  current_user !! "email" = Some own ->
  let run := edit_user email current_user env w in
  users run.2 = users w /\
  match find (matches [("email", CEq (VStr email))]) (users w) with
  | None =>
      run.1 = Returns (Redirect (RedirectResponse USER_MANAGEMENT_ROUTE
                                                  HTTP_303_SEE_OTHER)) /\
      session run.2 !! "flash" = Some "User not found."
  | Some u =>
      let shown := project [("_id", 0%nat); ("password_hash", 0%nat)] u in
      run.1 = Returns (TemplateResponse "edit_user.html"
                         (context [("request", CRequest);
                                   ("user", CDoc shown);
                                   ("flash", ctx_option (session w !! "flash"))])) /\
      shown !! "email" = Some (VStr email) /\
      shown !! "password_hash" = None /\
      shown !! "_id" = None
  end.
Proof.
  intros Hown run. subst run.
  unfold edit_user, find_one_projected, session_pop. unfold_monad.
  rewrite Hown. unfold ret. cbn beta iota zeta.
  destruct (find (matches [("email", CEq (VStr email))]) (users w)) as [u|] eqn:Hfind.
  - destruct (project_hides_secrets u) as (Hid & Hhash & Hother).
    assert (project [("_id", 0%nat); ("password_hash", 0%nat)] u !! "email"
            = Some (VStr email)) as Hemail.
    { rewrite Hother by done. apply find_some in Hfind as [_ Hm].
      by apply matches_field in Hm. }
    cbn [fmap option_fmap option_map]. unfold truthy_doc.
    rewrite bool_decide_eq_false_2; [done|].
    intros Hempty. rewrite Hempty, lookup_empty in Hemail. done.
  - cbn. by rewrite lookup_insert_eq.
Qed.

End PagesMore.

(** * Properties of the form login *)

Ltac unfold_site :=
  unfold sbind, sret, sraise, sask, stry_except, on_core, find_one_in, update_one_in,
    delete_one_in in *.

Section FormLoginMore.
Implicit Types (env : Env) (s : Site) (d u : Doc) (c : list Doc).
Variable RECAPTCHA_SITE_KEY : string.

Lemma truthy_found (p : Doc -> bool) c u key v :
  find p c = Some u -> u !! key = Some v -> truthy_doc (Some u) = true.
Proof.
  intros _ Hu. unfold truthy_doc. rewrite bool_decide_eq_false_2; [done|].
  intros ->. by rewrite lookup_empty in Hu.
Qed.

(** The form login in closed form, for a record with a string hash and a
    string role. *)
Lemma login_for_access_token_run env s username password u h r :
  find (matches [("email", CEq (VStr username))]) (users (site_core s)) = Some u ->
  u !! "password_hash" = Some (VStr h) ->
  bcrypt_identify h = true ->
  u !! "role" = Some (VStr r) ->
  let looked_up :=
    db (Call_find_one [("email", CEq (VStr username))]) (users (site_core s)) (site_core s) in
  login_for_access_token RECAPTCHA_SITE_KEY username password env s
  = match bcrypt_check (bcrypt env) password h with
    | Returns true =>
        (Returns (RedirectSetCookie
                    (RedirectResponse (if bool_decide (r = "admin")
                                       then ADMIN_DASHBOARD_ROUTE else DASHBOARD_ROUTE)
                                      HTTP_302_FOUND)
                    "access_token"
                    (issued_token (cfg env)
                       {| sub := Some username; role := Some r; exp := None |}
                       (utcnow env) (default_lifetime (cfg env)))
                    (ACCESS_TOKEN_EXPIRE_MINUTES (cfg env) * 60)),
         {| site_core := looked_up;
            logins := logins s ++ [<["_id" := VOid (fresh_oid (logins s))]>
                                     (login_record username (utcnow env))];
            shipments := shipments s |})
    | Returns false =>
        (Returns (invalid_credentials_page RECAPTCHA_SITE_KEY),
         {| site_core := looked_up; logins := logins s; shipments := shipments s |})
    | Raises e =>
        (Raises e,
         {| site_core := looked_up; logins := logins s; shipments := shipments s |})
    end.
Proof.
  intros Hfind Hhash Hident Hrole looked_up. subst looked_up.
  pose proof (truthy_found _ _ _ _ _ Hfind Hhash) as Htruthy.
  unfold login_for_access_token, verify_password, pwd_context_verify, create_access_token,
    insert_one_in.
  unfold_site. unfold_monad. unfold ret, raise, lift.
  cbn beta iota zeta delta [site_core logins shipments].
  rewrite Hfind, Htruthy. cbn beta iota zeta delta [negb site_core logins shipments].
  rewrite Hhash. cbn beta iota zeta delta [site_core logins shipments].
  rewrite Hident.
  destruct (bcrypt_check (bcrypt env) password h) as [[]|e];
    cbn beta iota zeta delta [negb site_core logins shipments]; [|done..].
  rewrite Hrole. cbn beta iota zeta delta [site_core logins shipments collection].
  f_equal. f_equal. f_equal.
  repeat case_bool_decide; simplify_eq; done.
Qed.

(** X20: a successful form login sets the [access_token] cookie to a token
    that the resolver, given that cookie, resolves to the user who logged
    in; it redirects to the admin dashboard exactly when the admin gate
    accepts that cookie, and to the user dashboard otherwise; and it files
    one record of the login, leaving users and shipments as they were. *)
Theorem form_login_cookie_authenticates env s username password u h r :
  find (matches [("email", CEq (VStr username))]) (users (site_core s)) = Some u ->
  u !! "password_hash" = Some (VStr h) ->
  bcrypt_identify h = true ->
  bcrypt_check (bcrypt env) password h = Returns true ->
  u !! "role" = Some (VStr r) ->
  0 <= ACCESS_TOKEN_EXPIRE_MINUTES (cfg env) ->
  let run := login_for_access_token RECAPTCHA_SITE_KEY username password env s in
  exists tok max_age,
    run.1 = Returns (RedirectSetCookie
                       (RedirectResponse (if bool_decide (r = "admin")
                                          then ADMIN_DASHBOARD_ROUTE else DASHBOARD_ROUTE)
                                         HTTP_302_FOUND)
                       "access_token" tok max_age) /\
    max_age = ACCESS_TOKEN_EXPIRE_MINUTES (cfg env) * 60 /\
    users (site_core run.2) = users (site_core s) /\
    shipments run.2 = shipments s /\
    logins run.2 = logins s ++ [<["_id" := VOid (fresh_oid (logins s))]>
                                  (login_record username (utcnow env))] /\
    let request := {| cookies := {["access_token" := tok]} |} in
    (get_current_user request None env (site_core run.2)).1 = Returns u /\
    (Depends_verify_admin request None env (site_core run.2)).1
    = if bool_decide (r = "admin") then Returns u else Raises forbidden.
Proof.
  intros Hfind Hhash Hident Hcheck Hrole Hlife run. subst run.
  rewrite (login_for_access_token_run _ _ _ _ u h r Hfind Hhash Hident Hrole), Hcheck.
  eexists _, _. split; [done|]. split; [done|]. split; [done|]. split; [done|].
  split; [done|]. cbn [snd site_core].
  set (tok := issued_token _ _ _ _).
  set (w1 := db _ _ _).
  assert (get_current_user {| cookies := {["access_token" := tok]} |} None env w1
          = (Returns u, db (Call_find_one [("email", CEq (VStr username))]) (users w1) w1))
    as Hresolve.
  { rewrite get_current_user_unfold.
    assert (selected_token {| cookies := {["access_token" := tok]} |} None = Some tok) as ->.
    { unfold selected_token. cbn [cookies]. by rewrite lookup_singleton_eq. }
    subst tok. unfold issued_token. rewrite decode_Jws.
    rewrite !bool_decide_eq_true_2 by done. cbn [negb exp sub].
    rewrite (proj2 (Z.ltb_ge _ _)) by (unfold default_lifetime; lia).
    subst w1. unfold db. cbn beta iota zeta delta [users sub]. by rewrite Hfind. }
  split; [by rewrite Hresolve|].
  rewrite Depends_verify_admin_unfold, Hresolve.
  rewrite bool_decide_eq_false_2; [|intros ->; by rewrite lookup_empty in Hrole].
  rewrite Hrole. repeat case_bool_decide; simplify_eq; done.
Qed.

(** X21: a failed form login, whether the e-mail is unknown or the password
    is wrong, renders the login page with the same "Invalid credentials"
    error, sets no cookie and files no login record; users and shipments
    are unchanged. *)
Theorem form_login_failure_files_nothing env s username password :
  let run := login_for_access_token RECAPTCHA_SITE_KEY username password env s in
  let failed :=
    run.1 = Returns (invalid_credentials_page RECAPTCHA_SITE_KEY) /\
    logins run.2 = logins s /\
    shipments run.2 = shipments s /\
    users (site_core run.2) = users (site_core s) in
  (find (matches [("email", CEq (VStr username))]) (users (site_core s)) = None -> failed) /\
  (forall u h,
      find (matches [("email", CEq (VStr username))]) (users (site_core s)) = Some u ->
      u !! "password_hash" = Some (VStr h) ->
      bcrypt_identify h = true ->
      bcrypt_check (bcrypt env) password h = Returns false ->
      failed).
Proof.
  intros run failed. subst run failed. split.
  - intros Hnone. unfold login_for_access_token. unfold_site. unfold_monad.
    cbn beta iota zeta. by rewrite Hnone.
  - intros u h Hfind Hhash Hident Hcheck.
    pose proof (truthy_found _ _ _ _ _ Hfind Hhash) as Htruthy.
    unfold login_for_access_token, verify_password, pwd_context_verify.
    unfold_site. unfold_monad. unfold ret, raise, lift.
    cbn beta iota zeta delta [site_core logins shipments].
    rewrite Hfind, Htruthy. cbn beta iota zeta delta [negb site_core logins shipments].
    rewrite Hhash. cbn beta iota zeta delta [site_core logins shipments].
    rewrite Hident, Hcheck. done.
Qed.

End FormLoginMore.

(** * Properties of the pages behind the gates *)

Section LandingMore.
Implicit Types (env : Env) (w : World) (s : Site) (request : Request) (token : option JWT).
Variable RECAPTCHA_SITE_KEY : string.
Variable strftime : Z -> string -> string.

Lemma issued_cookie_resolves env w username r u :
  find (matches [("email", CEq (VStr username))]) (users w) = Some u ->
  0 <= ACCESS_TOKEN_EXPIRE_MINUTES (cfg env) ->
  let tok := issued_token (cfg env) {| sub := Some username; role := Some r; exp := None |}
               (utcnow env) (default_lifetime (cfg env)) in
  get_current_user {| cookies := {["access_token" := tok]} |} None env w
  = (Returns u, db (Call_find_one [("email", CEq (VStr username))]) (users w) w).
Proof.
  intros Hfind Hlife tok.
  rewrite get_current_user_unfold.
  assert (selected_token {| cookies := {["access_token" := tok]} |} None = Some tok) as ->.
  { unfold selected_token. cbn [cookies]. by rewrite lookup_singleton_eq. }
  subst tok. unfold issued_token. rewrite decode_Jws.
  rewrite !bool_decide_eq_true_2 by done. cbn [negb exp sub].
  rewrite (proj2 (Z.ltb_ge _ _)) by (unfold default_lifetime; lia).
  cbn beta iota zeta delta [sub]. by rewrite Hfind.
Qed.

Lemma Depends_verify_admin_returns env w request token u w' :
  Depends_verify_admin request token env w = (Returns u, w') ->
  u ∈ users w /\ u !! "role" = Some (VStr "admin").
Proof.
  rewrite Depends_verify_admin_unfold, get_current_user_unfold. intros Hrun.
  repeat (case_match; simplify_eq/=; try done).
  split.
  - match goal with H : find _ _ = Some _ |- _ => apply find_some in H as [H _] end.
    by apply list_elem_of_In.
  - match goal with H : bool_decide (_ ≠ _) = false |- _ =>
      apply bool_decide_eq_false in H; by apply dec_stable in H end.
Qed.

(** X22: the page a successful form login redirects to accepts the cookie
    that login set: for a stored role ["admin"] the admin dashboard, and for
    any other stored role the user dashboard, renders for the user who
    logged in, showing the e-mail (and, on the user dashboard, the stored
    role) together with the pending flash message. *)
Theorem login_redirect_lands env s username password u h r :
  find (matches [("email", CEq (VStr username))]) (users (site_core s)) = Some u ->
  u !! "password_hash" = Some (VStr h) ->
  bcrypt_identify h = true ->
  bcrypt_check (bcrypt env) password h = Returns true ->
  u !! "role" = Some (VStr r) ->
  0 <= ACCESS_TOKEN_EXPIRE_MINUTES (cfg env) ->
  let run := login_for_access_token RECAPTCHA_SITE_KEY username password env s in
  exists url tok max_age,
    run.1 = Returns (RedirectSetCookie (RedirectResponse url HTTP_302_FOUND)
                                       "access_token" tok max_age) /\
    let request := {| cookies := {["access_token" := tok]} |} in
    let flash := ctx_option (session (site_core s) !! "flash") in
    (url = ADMIN_DASHBOARD_ROUTE \/ url = DASHBOARD_ROUTE) /\
    (url = ADMIN_DASHBOARD_ROUTE ->
     (route_get_admin_dashboard request None env (site_core run.2)).1
     = Returns (TemplateResponse "admin_dashboard.html"
                  (context [("request", CRequest);
                            ("name", CVal (VStr username));
                            ("flash", flash)]))) /\
    (url = DASHBOARD_ROUTE ->
     (route_get_dashboard request None env (site_core run.2)).1
     = Returns (TemplateResponse "dashboard.html"
                  (context [("request", CRequest);
                            ("name", CVal (VStr username));
                            ("flash", flash);
                            ("role", CVal (VStr r))]))).
Proof.
  intros Hfind Hhash Hident Hcheck Hrole Hlife run. subst run.
  rewrite (login_for_access_token_run RECAPTCHA_SITE_KEY _ _ _ _ u h r
             Hfind Hhash Hident Hrole), Hcheck.
  eexists _, _, _. split; [done|]. cbn [snd site_core].
  set (w1 := db _ _ (site_core s)).
  assert (find (matches [("email", CEq (VStr username))]) (users w1) = Some u) as Hfind1
    by done.
  pose proof (issued_cookie_resolves env w1 username r u Hfind1 Hlife) as Hresolve.
  cbv zeta in Hresolve.
  assert (u !! "email" = Some (VStr username)) as Hemail.
  { apply find_some in Hfind as [_ Hm]. by apply matches_field in Hm. }
  assert (u <> ∅) as Hne by (intros ->; by rewrite lookup_empty in Hrole).
  split; [case_bool_decide; auto|]. split.
  - intros Hurl. case_bool_decide as Hr; [subst r|discriminate Hurl].
    unfold route_get_admin_dashboard, bind.
    rewrite Depends_verify_admin_unfold, Hresolve.
    rewrite (bool_decide_eq_false_2 (u = ∅)) by done.
    rewrite Hrole, bool_decide_eq_false_2 by (intros Hno; by apply Hno).
    unfold get_admin_dashboard, session_pop. unfold_monad. by rewrite Hemail.
  - intros Hurl. 
    unfold route_get_dashboard, Depends_get_current_active_user, get_current_active_user,
      truthy_doc, bind.
    rewrite Hresolve, (bool_decide_eq_false_2 (u = ∅)) by done.
    cbn [negb]. unfold get_dashboard, session_pop. unfold_monad. by rewrite Hemail, Hrole.
Qed.

(** X23: an admin page that answers was asked by a stored admin: when the
    user-management page, the edit page or the admin dashboard returns a
    page, the request's token resolved to a stored record whose stored role
    is ["admin"]; and whatever the three routes answer, the user collection
    is as it was. *)
Theorem admin_pages_only_for_admins env w request token email :
  let pages := [route_user_management strftime request token;
                route_edit_user request token email;
                route_get_admin_dashboard request token] in
  forall page, page ∈ pages ->
    users (page env w).2 = users w /\
    forall p, (page env w).1 = Returns p ->
      exists u, (Depends_verify_admin request token env w).1 = Returns u /\
                u ∈ users w /\ u !! "role" = Some (VStr "admin").
Proof.
  intros pages page Hpage. subst pages.
  assert (forall (handler : Doc -> M Page),
            (forall u w0, users (handler u env w0).2 = users w0) ->
            page = (fun env w => bind (Depends_verify_admin request token) handler env w) ->
            users (page env w).2 = users w /\
            forall p, (page env w).1 = Returns p ->
              exists u, (Depends_verify_admin request token env w).1 = Returns u /\
                        u ∈ users w /\ u !! "role" = Some (VStr "admin")) as Hgate.
  { intros handler Hreads ->. unfold bind.
    destruct (Depends_verify_admin request token env w) as [[u|e] w0] eqn:Hrun.
    - destruct (Depends_verify_admin_reads _ _ _ _ _ _ Hrun) as [Hu _].
      split; [by rewrite Hreads|]. intros p _. exists u. split; [done|].
      by apply (Depends_verify_admin_returns env w request token u w0).
    - destruct (Depends_verify_admin_reads _ _ _ _ _ _ Hrun) as [Hu _].
      split; [done|]. intros p [=]. }
  rewrite !elem_of_cons in Hpage. destruct Hpage as [->|[->|[->|Hnil]]].
  - apply (Hgate (user_management strftime)); [|done].
    intros u w0. unfold user_management, find_projected, session_pop. unfold_monad.
    by destruct (u !! "email").
  - apply (Hgate (edit_user email)); [|done].
    intros u w0. unfold edit_user, find_one_projected, session_pop, truthy_doc.
    unfold_monad. unfold ret, raise. destruct (u !! "email"); [|done]. cbn beta iota zeta.
    destruct (project [("_id", 0%nat); ("password_hash", 0%nat)]
                <$> find (matches [("email", CEq (VStr email))]) (users w0)) as [d|]; [|done].
    by destruct (negb (negb (bool_decide (d = ∅)))).
  - apply (Hgate get_admin_dashboard); [|done].
    intros u w0. unfold get_admin_dashboard, session_pop. unfold_monad.
    by destruct (u !! "email").
  - by apply elem_of_nil in Hnil.
Qed.

End LandingMore.

(** * Properties of the shipment routes *)

Section ShipmentsMore.
Implicit Types (env : Env) (s : Site) (d u : Doc) (c : list Doc)
  (form_data shipment_data : gmap string string).
Variable errors_repr : list string -> string.

Lemma ShipmentCreateData_inr form_data shipment_data :
  ShipmentCreateData form_data = inr shipment_data ->
  (forall key, key ∈ shipment_fields ->
               is_Some (form_data !! key) /\ shipment_data !! key = form_data !! key) /\
  (forall key, key ∉ shipment_fields -> shipment_data !! key = None).
Proof.
  unfold ShipmentCreateData.
  destruct (filter _ shipment_fields) as [|k l] eqn:Hmissing; [|done].
  intros [= <-]. split.
  - intros key Hkey. split.
    + destruct (form_data !! key) eqn:Hk; [done|].
      assert (key ∈ filter (fun key => form_data !! key = None) shipment_fields) as Hin
        by (by apply list_elem_of_filter).
      rewrite Hmissing in Hin. by apply elem_of_nil in Hin.
    + rewrite map_lookup_filter. destruct (form_data !! key) as [v|]; [|done].
      cbn. by rewrite option_guard_True.
  - intros key Hkey. rewrite map_lookup_filter.
    destruct (form_data !! key) as [v|]; [|done]. cbn. by rewrite option_guard_False.
Qed.

Lemma ShipmentCreateData_inl form_data missing :
  ShipmentCreateData form_data = inl missing ->
  exists key, key ∈ shipment_fields /\ form_data !! key = None.
Proof.
  unfold ShipmentCreateData.
  destruct (filter _ shipment_fields) as [|k l] eqn:Hmissing; [done|]. intros _.
  assert (k ∈ filter (fun key => form_data !! key = None) shipment_fields) as Hin.
  { rewrite Hmissing. by apply elem_of_cons; left. }
  apply list_elem_of_filter in Hin as [? ?]. eauto.
Qed.

Lemma ShipmentCreateData_complete form_data :
  (forall key, key ∈ shipment_fields -> is_Some (form_data !! key)) ->
  exists shipment_data, ShipmentCreateData form_data = inr shipment_data.
Proof.
  intros Hall. destruct (ShipmentCreateData form_data) as [missing|data] eqn:Hv; [|eauto].
  apply ShipmentCreateData_inl in Hv as (key & Hkey & Hnone).
  destruct (Hall key Hkey) as [v Hv]. congruence.
Qed.

Lemma shipment_doc_field shipment_data now created_by key :
  key ∈ shipment_fields ->
  shipment_doc shipment_data now created_by !! key = VStr <$> shipment_data !! key.
Proof.
  intros Hkey. unfold shipment_doc, model_dump.
  assert (key <> "created_by" /\ key <> "created_at") as [? ?].
  { split; intros ->; vm_compute in Hkey;
      repeat (apply elem_of_cons in Hkey as [Hkey|Hkey]; [discriminate|]);
      by apply elem_of_nil in Hkey. }
  by rewrite !lookup_insert_ne, lookup_fmap.
Qed.

Lemma shipment_doc_id form_data shipment_data now created_by :
  ShipmentCreateData form_data = inr shipment_data ->
  shipment_doc shipment_data now created_by !! "_id" = None /\
  shipment_doc shipment_data now created_by !! "shipment_id"
  = Some (VStr (data_shipment_id shipment_data)).
Proof.
  intros [Hfields Hother]%ShipmentCreateData_inr. unfold shipment_doc, model_dump. split.
  - rewrite !lookup_insert_ne, lookup_fmap by done. rewrite Hother; [done|].
    apply (bool_decide_unpack _). by vm_compute.
  - rewrite !lookup_insert_ne, lookup_fmap by done. unfold data_shipment_id.
    destruct (Hfields "shipment_id") as [[v Hv] Heq].
    { apply (bool_decide_unpack _). by vm_compute. }
    by rewrite Heq, Hv.
Qed.

(** [create_shipment] in closed form. *)
Lemma create_shipment_run env s form_data current_user :
  let redirect := RedirectResponse CREATE_SHIPMENT_ROUTE HTTP_302_FOUND in
  create_shipment errors_repr form_data current_user env s =
  match ShipmentCreateData form_data with
  | inl missing =>
      (Returns redirect, flash_site ("Validation error: " +:+ errors_repr missing) s)
  | inr shipment_data =>
      match current_user !! "email" with
      | None => (Raises (KeyError "email"), s)
      | Some own =>
          let shipment_id := data_shipment_id shipment_data in
          match find (matches [("shipment_id", CEq (VStr shipment_id))]) (shipments s) with
          | Some _ =>
              (Returns redirect,
               flash_site ("Shipment ID '" +:+ shipment_id +:+ "' already exists.") s)
          | None =>
              (Returns redirect,
               flash_site ("Shipment " +:+ shipment_id +:+ " created successfully!")
                 {| site_core := site_core s;
                    logins := logins s;
                    shipments :=
                      shipments s ++
                      [<["_id" := VOid (fresh_oid (shipments s))]>
                         (shipment_doc shipment_data (utcnow env) own)] |})
          end
      end
  end.
Proof.
  intros redirect. subst redirect. unfold create_shipment.
  destruct (ShipmentCreateData form_data) as [missing|shipment_data] eqn:Hvalid.
  { unfold_site. unfold_monad. by destruct s as [[] ? ?]. }
  unfold_site. unfold_monad. unfold ret, raise. cbn beta iota zeta.
  destruct (current_user !! "email") as [own|]; cbn beta iota zeta;
    [|by destruct s as [[] ? ?]].
  cbn [collection site_core logins shipments].
  destruct (find (matches [("shipment_id", CEq (VStr (data_shipment_id shipment_data)))])
              (shipments s)) as [d|] eqn:Hfind.
  - assert (truthy_doc (Some d) = true) as ->.
    { apply find_some in Hfind as [_ Hm]. apply matches_field in Hm.
      unfold truthy_doc. rewrite bool_decide_eq_false_2; [done|].
      intros ->. by rewrite lookup_empty in Hm. }
    by destruct s as [[] ? ?].
  - cbn [truthy_doc]. cbn beta iota zeta. unfold insert_one_in.
    fold (shipment_doc shipment_data (utcnow env) own).
    destruct (shipment_doc_id form_data shipment_data (utcnow env) own Hvalid) as [-> _].
    by destruct s as [[] ? ?].
Qed.

Lemma post_edit_shipment_run env s current_user shipment_id status_value destination
    expected_delivery_date :
  post_edit_shipment current_user shipment_id status_value destination
                     expected_delivery_date env s =
  match current_user !! "email" with
  | None => (Raises (KeyError "email"), s)
  | Some own =>
      let target := [("shipment_id", CEq (VStr shipment_id))] in
      let data := edit_shipment_data status_value destination expected_delivery_date
                    (utcnow env) own in
      (Returns (RedirectResponse EDIT_SHIPMENT_ROUTE HTTP_302_FOUND),
       flash_site (if modified_by target data (shipments s)
                   then "Shipment updated successfully."
                   else "No changes made or shipment not found.")
         {| site_core := site_core s;
            logins := logins s;
            shipments := update_first (matches target) (apply_set data) (shipments s) |})
  end.
Proof.
  unfold post_edit_shipment, edit_shipment_data.
  unfold_site. unfold_monad. unfold ret, raise. cbn beta iota zeta.
  destruct (current_user !! "email") as [own|]; cbn beta iota zeta;
    [|by destruct s as [[] ? ?]].
  cbn [collection modified_count shipments with_collection site_core logins].
  by destruct (modified_by _ _ (shipments s)).
Qed.

Lemma delete_shipment_run env s current_user shipment_id :
  delete_shipment shipment_id current_user env s =
  match current_user !! "email" with
  | None => (Raises (KeyError "email"), s)
  | Some _ =>
      let target := [("shipment_id", CEq (VStr shipment_id))] in
      (Returns (RedirectResponse EDIT_SHIPMENT_ROUTE HTTP_302_FOUND),
       flash_site (match find (matches target) (shipments s) with
                   | Some _ => "Shipment deleted successfully."
                   | None => "Shipment not found or already deleted."
                   end)
         {| site_core := site_core s;
            logins := logins s;
            shipments := delete_first (matches target) (shipments s) |})
  end.
Proof.
  unfold delete_shipment.
  unfold_site. unfold_monad. unfold ret, raise. cbn beta iota zeta.
  destruct (current_user !! "email") as [own|]; cbn beta iota zeta;
    [|by destruct s as [[] ? ?]].
  cbn [collection deleted_count shipments with_collection site_core logins].
  by destruct (find (matches [("shipment_id", CEq (VStr shipment_id))]) (shipments s)).
Qed.

Lemma matches_str_field key e d :
  matches [(key, CEq (VStr e))] d = true <-> str_field key d = Some e.
Proof.
  rewrite matches_field. unfold str_field. destruct (d !! key) as [[]|]; naive_solver.
Qed.

Lemma find_str_field_None key c e :
  find (matches [(key, CEq (VStr e))]) c = None <-> e ∉ omap (str_field key) c.
Proof.
  rewrite list_elem_of_omap. split.
  - intros Hnone (d & Hin & He). apply list_elem_of_In in Hin.
    pose proof (find_none _ _ Hnone d Hin) as Hm.
    apply matches_str_field in He. congruence.
  - intros Hno. apply find_none_Forall, Forall_forall. intros d Hin.
    apply not_true_is_false. intros Hm%matches_str_field. apply Hno. eauto.
Qed.

(** X24: the three shipment handlers keep shipment ids unique:
    [create_shipment] inserts only under an id no shipment has,
    [post_edit_shipment] never writes the id, and [delete_shipment] only
    removes. *)
Theorem shipment_ids_stay_unique env s form_data current_user shipment_id status_value
    destination expected_delivery_date :
  shipment_ids_unique (shipments s) ->
  shipment_ids_unique
    (shipments (create_shipment errors_repr form_data current_user env s).2) /\
  shipment_ids_unique
    (shipments (post_edit_shipment current_user shipment_id status_value destination
                                   expected_delivery_date env s).2) /\
  shipment_ids_unique (shipments (delete_shipment shipment_id current_user env s).2).
Proof.
  intros Huniq. split; [|split].
  - rewrite create_shipment_run.
    destruct (ShipmentCreateData form_data) as [missing|shipment_data] eqn:Hvalid; [done|].
    destruct (current_user !! "email") as [own|]; [|done].
    cbv zeta. destruct (find _ (shipments s)) eqn:Hfind; [done|].
    cbn [snd shipments flash_site]. unfold shipment_ids_unique.
    rewrite omap_app. apply NoDup_app. split; [done|].
    destruct (shipment_doc_id form_data shipment_data (utcnow env) own Hvalid) as [_ Hid].
    rewrite (omap_cons_doc (str_field "shipment_id")).
    assert (str_field "shipment_id"
              (<["_id" := VOid (fresh_oid (shipments s))]>
                 (shipment_doc shipment_data (utcnow env) own))
            = Some (data_shipment_id shipment_data)) as ->.
    { unfold str_field. by rewrite lookup_insert_ne, Hid. }
    cbn [omap list_omap].
    split; [|apply NoDup_singleton].
    intros e He ->%list_elem_of_singleton. by apply find_str_field_None in Hfind.
  - rewrite post_edit_shipment_run.
    destruct (current_user !! "email") as [own|]; [|done].
    cbn [snd shipments flash_site]. unfold shipment_ids_unique.
    rewrite omap_update_first_same; [done|].
    intros d _. unfold str_field, apply_set. by rewrite lookup_union_r.
  - rewrite delete_shipment_run.
    destruct (current_user !! "email") as [own|]; [|done].
    cbn [snd shipments flash_site]. by apply NoDup_omap_delete_first.
Qed.

(** X25: a shipment created from a complete form, under an id no shipment
    has, is found again by that id with every submitted field as submitted,
    the creator's e-mail and the creation time; users and logins are
    unchanged. *)
Theorem created_shipment_round_trip env s form_data current_user own shipment_id :
  (forall key, key ∈ shipment_fields -> is_Some (form_data !! key)) ->
  form_data !! "shipment_id" = Some shipment_id ->
  current_user !! "email" = Some own ->
  find (matches [("shipment_id", CEq (VStr shipment_id))]) (shipments s) = None ->
  let run := create_shipment errors_repr form_data current_user env s in
  run.1 = Returns (RedirectResponse CREATE_SHIPMENT_ROUTE HTTP_302_FOUND) /\
  session (site_core run.2) !! "flash"
  = Some ("Shipment " +:+ shipment_id +:+ " created successfully!") /\
  users (site_core run.2) = users (site_core s) /\
  logins run.2 = logins s /\
  exists d,
    find (matches [("shipment_id", CEq (VStr shipment_id))]) (shipments run.2) = Some d /\
    (forall key, key ∈ shipment_fields -> d !! key = VStr <$> form_data !! key) /\
    d !! "created_by" = Some own /\
    d !! "created_at" = Some (VDate (utcnow env)).
Proof.
  intros Hall Hid Hown Hfree run. subst run.
  destruct (ShipmentCreateData_complete form_data Hall) as [shipment_data Hvalid].
  destruct (ShipmentCreateData_inr _ _ Hvalid) as [Hfields Hother].
  assert (data_shipment_id shipment_data = shipment_id) as Hdata.
  { unfold data_shipment_id. destruct (Hfields "shipment_id") as [_ ->].
    - apply (bool_decide_unpack _). by vm_compute.
    - by rewrite Hid. }
  rewrite create_shipment_run, Hvalid, Hown. cbv zeta. rewrite Hdata, Hfree.
  cbn [fst snd flash_site site_core session users logins shipments].
  split; [done|]. split; [by rewrite lookup_insert_eq|]. split; [done|]. split; [done|].
  eexists. split; [|split; [|split]].
  - apply find_app_last; [done|]. apply matches_field.
    destruct (shipment_doc_id form_data shipment_data (utcnow env) own Hvalid) as [_ Hsid].
    by rewrite lookup_insert_ne, Hsid, Hdata.
  - intros key Hkey. rewrite lookup_insert_ne.
    + rewrite shipment_doc_field by done. by destruct (Hfields key Hkey) as [_ ->].
    + intros <-. revert Hkey. apply (bool_decide_unpack _). by vm_compute.
  - unfold shipment_doc. by rewrite lookup_insert_ne, lookup_insert_eq.
  - unfold shipment_doc. do 2 rewrite lookup_insert_ne by done. by rewrite lookup_insert_eq.
Qed.

(** X26: [create_shipment] stores nothing when a field of the form is
    missing, and nothing when the submitted id is already taken; in both
    cases it redirects back to the form, and in the second the flash
    message names the id. *)
Theorem create_shipment_stores_nothing env s form_data current_user own :
  current_user !! "email" = Some own ->
  let run := create_shipment errors_repr form_data current_user env s in
  (forall key, key ∈ shipment_fields -> form_data !! key = None ->
     run.1 = Returns (RedirectResponse CREATE_SHIPMENT_ROUTE HTTP_302_FOUND) /\
     shipments run.2 = shipments s) /\
  (forall shipment_id d,
     (forall key, key ∈ shipment_fields -> is_Some (form_data !! key)) ->
     form_data !! "shipment_id" = Some shipment_id ->
     d ∈ shipments s ->
     d !! "shipment_id" = Some (VStr shipment_id) ->
     run.1 = Returns (RedirectResponse CREATE_SHIPMENT_ROUTE HTTP_302_FOUND) /\
     shipments run.2 = shipments s /\
     session (site_core run.2) !! "flash"
     = Some ("Shipment ID '" +:+ shipment_id +:+ "' already exists.")).
Proof.
  intros Hown run. subst run. rewrite create_shipment_run. split.
  - intros key Hkey Hnone.
    destruct (ShipmentCreateData form_data) as [missing|shipment_data] eqn:Hvalid; [done|].
    destruct (ShipmentCreateData_inr _ _ Hvalid) as [Hfields _].
    destruct (Hfields key Hkey) as [[v Hv] _]. congruence.
  - intros shipment_id d Hall Hid Hin Hd.
    destruct (ShipmentCreateData_complete form_data Hall) as [shipment_data Hvalid].
    destruct (ShipmentCreateData_inr _ _ Hvalid) as [Hfields _].
    assert (data_shipment_id shipment_data = shipment_id) as Hdata.
    { unfold data_shipment_id. destruct (Hfields "shipment_id") as [_ ->].
      - apply (bool_decide_unpack _). by vm_compute.
      - by rewrite Hid. }
    rewrite Hvalid, Hown. cbv zeta. rewrite Hdata.
    destruct (find _ (shipments s)) eqn:Hfind.
    + cbn. by rewrite lookup_insert_eq.
    + apply list_elem_of_In in Hin. pose proof (find_none _ _ Hfind d Hin) as Hm.
      apply matches_field in Hd. congruence.
Qed.

(** X27: [post_edit_shipment] rewrites, on the first shipment under the
    id, the status, destination, expected delivery date, update time and
    updating admin, and nothing else: its id and every other field stay,
    every other shipment stays, none is added or removed; for an id no
    shipment has the collection is unchanged and the flash message says
    so. *)
Theorem edit_shipment_changes_only_edited_fields env s current_user own shipment_id
    status_value destination expected_delivery_date :
  current_user !! "email" = Some own ->
  let run := post_edit_shipment current_user shipment_id status_value destination
               expected_delivery_date env s in
  let target := [("shipment_id", CEq (VStr shipment_id))] in
  length (shipments run.2) = length (shipments s) /\
  match find (matches target) (shipments s) with
  | Some d =>
      exists d',
        find (matches target) (shipments run.2) = Some d' /\
        d' !! "status" = Some (VStr status_value) /\
        d' !! "destination" = Some (VStr destination) /\
        d' !! "expected_delivery_date" = Some (VStr expected_delivery_date) /\
        d' !! "last_updated" = Some (VDate (utcnow env)) /\
        d' !! "updated_by" = Some own /\
        (forall key, key ∉ edited_fields -> d' !! key = d !! key) /\
        (forall x, x ∈ shipments run.2 -> x = d' \/ x ∈ shipments s)
  | None =>
      shipments run.2 = shipments s /\
      session (site_core run.2) !! "flash" = Some "No changes made or shipment not found."
  end.
Proof.
  intros Hown run target. subst run target.
  rewrite post_edit_shipment_run, Hown. cbv zeta.
  cbn [snd flash_site site_core session users logins shipments].
  split; [apply length_update_first|].
  destruct (find _ (shipments s)) as [d|] eqn:Hfind.
  - eexists. split; [|split; [|split; [|split; [|split; [|split; [|split]]]]]].
    + rewrite find_update_first, Hfind; [done|].
      intros x Hx. apply matches_field. apply matches_field in Hx.
      unfold apply_set. by rewrite lookup_union_r.
    + by apply lookup_union_Some_l.
    + by apply lookup_union_Some_l.
    + by apply lookup_union_Some_l.
    + by apply lookup_union_Some_l.
    + by apply lookup_union_Some_l.
    + intros key Hkey. unfold apply_set, edit_shipment_data, dict.
      rewrite lookup_union_r; [done|]. cbn [list_to_map foldr].
      unfold edited_fields in Hkey. rewrite !not_elem_of_cons in Hkey.
      destruct Hkey as (? & ? & ? & ? & ? & _).
      by rewrite !lookup_insert_ne, lookup_empty.
    + intros x Hx. apply elem_of_update_first in Hx as [Hx|(d0 & Hd0 & ->)]; [by right|].
      left. congruence.
  - rewrite update_first_no_match, modified_by_no_match by done.
    split; [done|]. by rewrite lookup_insert_eq.
Qed.

Lemma on_core_run {A} (c : M A) env s :
  on_core c env s
  = ((c env (site_core s)).1,
     {| site_core := (c env (site_core s)).2; logins := logins s; shipments := shipments s |}).
Proof. unfold on_core. by destruct (c env (site_core s)). Qed.

(** X28: editing and deleting shipments sit behind the admin gate: when the
    gate does not return a principal both routes raise its error and no
    shipment changes; and no shipment handler, whatever its input, changes
    the user collection or the login records. *)
Theorem shipment_routes_guarded env s request token form_data current_user shipment_id
    status_value destination expected_delivery_date :
  (forall e w0,
      Depends_verify_admin request token env (site_core s) = (Raises e, w0) ->
      let edited := route_post_edit_shipment request token shipment_id status_value
                      destination expected_delivery_date env s in
      let deleted := route_delete_shipment request token shipment_id env s in
      edited.1 = Raises e /\ shipments edited.2 = shipments s /\
      deleted.1 = Raises e /\ shipments deleted.2 = shipments s) /\
  (let created := (create_shipment errors_repr form_data current_user env s).2 in
   let edited := (post_edit_shipment current_user shipment_id status_value destination
                                     expected_delivery_date env s).2 in
   let deleted := (delete_shipment shipment_id current_user env s).2 in
   users (site_core created) = users (site_core s) /\ logins created = logins s /\
   users (site_core edited) = users (site_core s) /\ logins edited = logins s /\
   users (site_core deleted) = users (site_core s) /\ logins deleted = logins s).
Proof.
  split.
  - intros e w0 Hgate edited deleted. subst edited deleted.
    unfold route_post_edit_shipment, route_delete_shipment, sbind.
    rewrite on_core_run, Hgate. done.
  - cbv zeta. rewrite create_shipment_run, post_edit_shipment_run, delete_shipment_run.
    cbv zeta.
    destruct (current_user !! "email") as [own|],
             (ShipmentCreateData form_data) as [missing|shipment_data]; try done.
    by destruct (find (matches [("shipment_id", CEq (VStr (data_shipment_id shipment_data)))])
                      (shipments s)).
Qed.

End ShipmentsMore.

(** * Properties of the global exception handler *)

Section ErrorsMore.
Implicit Types (env : Env) (w : World) (request : Request) (token : option JWT).

(** X29: the admin gate fails in two ways only, never with a decoding or
    lookup error of its own: 401 "Not authenticated" or 403 "Not enough
    permissions"; the global handler answers either as JSON with that
    status and detail, and without the [WWW-Authenticate] header the 401
    exception carries. *)
Theorem gate_errors_as_json env w request token e w' :
  Depends_verify_admin request token env w = (Raises e, w') ->
  (e = credentials_exception /\
   http_exception_handler e
   = Some {| json_detail := "Not authenticated"; json_status_code := 401;
             json_headers := [] |}) \/
  (e = forbidden /\
   http_exception_handler e
   = Some {| json_detail := "Not enough permissions"; json_status_code := 403;
             json_headers := [] |}).
Proof.
  rewrite Depends_verify_admin_unfold, get_current_user_unfold.
  destruct (selected_token request token) as [t|]; [|intros [= <- _]; by left].
  destruct (decode env t) as [payload|e0] eqn:Hdec.
  - destruct (sub payload) as [username|]; [|intros [= <- _]; by left].
    cbv zeta. destruct (find _ (users w)) as [u|] eqn:Hfind; [|intros [= <- _]; by left].
    assert (u <> ∅) as Hne.
    { apply find_some in Hfind as [_ Hm]. apply matches_field in Hm.
      intros ->. by rewrite lookup_empty in Hm. }
    rewrite (bool_decide_eq_false_2 _ Hne).
    case_bool_decide; [intros [= <- _]; by right|done].
  - rewrite (decode_raises_JWTError _ _ _ Hdec). intros [= <- _]. by left.
Qed.

End ErrorsMore.

(** * The further properties on the concrete deployment *)

Section ScenariosMore.
Import Example ExampleSite.

Lemma foreign_token_rejected_witness :
  get_current_user (with_cookie forged_token) None (env_at 100) world0
  = (Raises credentials_exception, world0).
Proof.
  apply (foreign_token_rejected (env_at 100) world0 (with_cookie forged_token) None
           "HS256" "gu3ss"
           {| sub := Some "a@x.com"; role := Some "admin"; exp := Some 700 |}).
  - vm_compute. reflexivity.
  - right. discriminate.
Defined.

Lemma issued_token_round_trip_witness :
  (get_current_user (with_cookie bob_token) None (env_at 700) world0).1 = Returns bob /\
  get_current_user (with_cookie bob_token) None (env_at 701) world0
  = (Raises credentials_exception, world0).
Proof.
  split.
  - rewrite (proj1 (issued_token_round_trip (env_at 100) (env_at 700) world0 world0
                      (with_cookie bob_token) None "b@x.com" (Some "user") None bob_token
                      eq_refl eq_refl eq_refl)).
    + vm_compute. reflexivity.
    + vm_compute. discriminate.
  - apply (proj2 (issued_token_round_trip (env_at 100) (env_at 701) world0 world0
                    (with_cookie bob_token) None "b@x.com" (Some "user") None bob_token
                    eq_refl eq_refl eq_refl)).
    vm_compute. reflexivity.
Defined.

Lemma admin_gate_reads_and_checks_role_witness :
  alice ∈ users world0 /\ alice !! "role" = Some (VStr "admin").
Proof.
  destruct (admin_gate_reads_and_checks_role (env_at 100) world0
              (with_cookie alice_token) None (Returns alice)
              (db (Call_find_one [("email", CEq (VStr "a@x.com"))]) (users world0) world0))
    as (_ & _ & Hadmin).
  - vm_compute. reflexivity.
  - apply Hadmin. reflexivity.
Defined.

Lemma admin_routes_guarded_witness :
  route_delete_user (with_cookie bob_token) None "a@x.com" (env_at 100) world0
  = (Raises forbidden,
     db (Call_find_one [("email", CEq (VStr "b@x.com"))]) (users world0) world0).
Proof.
  destruct (admin_routes_guarded (env_at 100) world0 (with_cookie bob_token) None forbidden
              (db (Call_find_one [("email", CEq (VStr "b@x.com"))]) (users world0) world0))
    as (_ & _ & Hdelete & _).
  - vm_compute. reflexivity.
  - apply Hdelete.
Defined.

Lemma emails_stay_unique_witness :
  emails_unique
    (users (run_op (Op_post_signup "Carol" "c@x.com" "pw" "pw") (env_at 5) world0).2).
Proof.
  apply emails_stay_unique. apply (bool_decide_unpack _). vm_compute. exact I.
Defined.

Lemma update_user_refuses_taken_email_witness :
  users (update_user "b@x.com" alice "Bob" "a@x.com" "user" (env_at 5) world0).2
  = users world0.
Proof.
  assert (alice ∈ users world0) as Hin.
  { apply (bool_decide_unpack _). vm_compute. exact I. }
  assert ("b@x.com" <> "a@x.com") as Hne by discriminate.
  rewrite (update_user_refuses_taken_email (env_at 5) world0 "b@x.com" alice "Bob"
             "a@x.com" "user" (VStr "a@x.com") alice eq_refl Hne Hin eq_refl).
  reflexivity.
Defined.

Lemma unknown_target_changes_nothing_witness :
  users (delete_user "z@x.com" alice (env_at 5) world0).2 = users world0.
Proof.
  destruct (unknown_target_changes_nothing (env_at 5) world0 "z@x.com" alice
              (VStr "a@x.com") "Zed" "user") as (_ & _ & _ & _ & Hdeleted & _).
  - reflexivity.
  - discriminate.
  - vm_compute. reflexivity.
  - exact Hdeleted.
Defined.

Lemma assign_admin_promotes_only_target_witness :
  find (matches [("email", CEq (VStr "b@x.com"))])
       (users (assign_admin "b@x.com" alice (env_at 200) world0).2)
  = Some (apply_set (assign_admin_data 200) bob).
Proof.
  destruct (assign_admin_promotes_only_target (env_at 200) world0 "b@x.com" alice
              (VStr "a@x.com") bob) as (Hfound & _).
  - reflexivity.
  - discriminate.
  - vm_compute. reflexivity.
  - exact Hfound.
Defined.

Lemma deleted_user_token_rejected_witness :
  (get_current_user (with_cookie bob_token) None (env_at 300)
     (delete_user "b@x.com" alice (env_at 200) world0).2).1
  = Raises credentials_exception.
Proof.
  apply (deleted_user_token_rejected (env_at 200) (env_at 300) world0 "b@x.com" alice
           (VStr "a@x.com") (with_cookie bob_token) None bob_token
           {| sub := Some "b@x.com"; role := Some "user"; exp := Some 700 |}).
  - apply (bool_decide_unpack _). vm_compute. exact I.
  - reflexivity.
  - discriminate.
  - vm_compute. reflexivity.
  - vm_compute. reflexivity.
  - reflexivity.
Defined.

Lemma signup_then_login_witness :
  (login_for_api_token "c@x.com" "pw" (env_at 100)
     (post_signup "Carol" "c@x.com" "pw" "pw" (env_at 5) world0).2).1
  = Returns {| Token.access_token :=
                 Jws "HS256" "k3y"
                     {| sub := Some "c@x.com"; role := Some "user"; exp := Some 700 |};
               Token.token_type := "bearer" |}.
Proof.
  apply (signup_then_login (env_at 5) (env_at 100) world0 "Carol" "c@x.com" "pw");
    vm_compute; reflexivity.
Defined.

Lemma login_failure_uniform_witness :
  (login_for_api_token "z@x.com" "hunter2" (env_at 100) world0).1 = Raises unauthorized /\
  (login_for_api_token "b@x.com" "wrong" (env_at 100) world0).1 = Raises unauthorized.
Proof.
  split.
  - rewrite (proj1 (login_failure_uniform (env_at 100) world0 "z@x.com" "hunter2")).
    + reflexivity.
    + vm_compute. reflexivity.
  - rewrite (proj2 (login_failure_uniform (env_at 100) world0 "b@x.com" "wrong")
               bob "$2b$12$saltsahunter2").
    + reflexivity.
    + vm_compute. reflexivity.
    + reflexivity.
    + vm_compute. reflexivity.
    + vm_compute. reflexivity.
Defined.

Lemma reset_window_is_one_hour_witness :
  (reset_password_post "r4nd0m" "N3wSecret" "N3wSecret" (env_at 3604) world_resetting).1
  = Returns (RedirectResponse LOGIN_ROUTE HTTP_302_FOUND) /\
  (reset_password_post "r4nd0m" "N3wSecret" "N3wSecret" (env_at 3605) world_resetting).1
  = Returns (RedirectResponse FORGOT_PASSWORD_ROUTE HTTP_302_FOUND).
Proof.
  assert (store_wf (users world0)) as Hwf.
  { apply (bool_decide_unpack _). vm_compute. exact I. }
  assert (find (matches [("email", CEq (VStr "b@x.com"))]) (users world0) = Some bob)
    as Hfind.
  { vm_compute. reflexivity. }
  assert (forall d, d ∈ users world0 ->
                    d !! "reset_token" <> Some (VStr (token_urlsafe (env_at 5)))) as Hfresh.
  { intros d Hd Htok. apply elem_of_cons in Hd as [->|Hd].
    - vm_compute in Htok. discriminate.
    - apply list_elem_of_singleton in Hd as ->. vm_compute in Htok. discriminate. }
  assert (validate_secret "N3wSecret" = None) as Hvalid.
  { vm_compute. reflexivity. }
  split.
  - apply (proj1 (reset_window_is_one_hour (env_at 5) (env_at 3604) world0 "b@x.com" bob
                    "N3wSecret" Hwf Hfind Hfresh Hvalid)).
    vm_compute. reflexivity.
  - apply (proj2 (reset_window_is_one_hour (env_at 5) (env_at 3605) world0 "b@x.com" bob
                    "N3wSecret" Hwf Hfind Hfresh Hvalid)).
    vm_compute. discriminate.
Defined.

Lemma newer_reset_token_replaces_older_witness :
  (reset_password_post "r4nd0m" "N3wSecret" "N3wSecret" (env_at 50)
     (process_forgot_password "b@x.com" (env_later 6) world_resetting).2).1
  = Returns (RedirectResponse FORGOT_PASSWORD_ROUTE HTTP_302_FOUND).
Proof.
  apply (newer_reset_token_replaces_older (env_at 5) (env_later 6) (env_at 50) world0
           "b@x.com" "N3wSecret").
  - discriminate.
  - intros d Hd Htok. apply elem_of_cons in Hd as [->|Hd].
    + vm_compute in Htok. discriminate.
    + apply list_elem_of_singleton in Hd as ->. vm_compute in Htok. discriminate.
Defined.

Lemma flash_is_shown_once_witness :
  shown_flash (get_login site_key (env_at 1) world_flash).1 = Some (CStr "Welcome") /\
  shown_flash (get_signup (env_at 2) (get_login site_key (env_at 1) world_flash).2).1
  = Some CNone.
Proof.
  destruct (flash_is_shown_once site_key (get_login site_key) get_signup
              (env_at 1) (env_at 2) world_flash "Welcome") as (Hfirst & Hsecond & _).
  - apply elem_of_cons. left. reflexivity.
  - apply elem_of_cons. right. apply elem_of_cons. left. reflexivity.
  - reflexivity.
  - split; [exact Hfirst|exact Hsecond].
Defined.

Lemma reset_page_without_token_witness :
  (reset_password_get (Some "") (env_at 1) world0).1
  = Returns (Redirect (RedirectResponse FORGOT_PASSWORD_ROUTE HTTP_302_FOUND)).
Proof.
  destruct (reset_page_without_token (env_at 1) (env_at 2) world0 (Some ""))
    as (Hfirst & _).
  - right. reflexivity.
  - exact Hfirst.
Defined.

Lemma user_listing_hides_hashes_witness :
  Forall (fun d => d !! "password_hash" = None /\ d !! "_id" = None)
         (listed strftime0 <$> users world0).
Proof.
  destruct (user_listing_hides_hashes strftime0 (env_at 1) world0 alice (VStr "a@x.com")
              eq_refl) as (_ & _ & _ & Hhidden & _).
  exact Hhidden.
Defined.

Lemma edit_page_shows_user_or_redirects_witness :
  (edit_user "z@x.com" alice (env_at 1) world0).1
  = Returns (Redirect (RedirectResponse USER_MANAGEMENT_ROUTE HTTP_303_SEE_OTHER)).
Proof.
  destruct (edit_page_shows_user_or_redirects (env_at 1) world0 "z@x.com" alice
              (VStr "a@x.com") eq_refl) as [_ Hpage].
  assert (find (matches [("email", CEq (VStr "z@x.com"))]) (users world0) = None) as Hnone.
  { vm_compute. reflexivity. }
  rewrite Hnone in Hpage. exact (proj1 Hpage).
Defined.

Lemma form_login_cookie_authenticates_witness :
  exists tok max_age,
    (login_for_access_token site_key "a@x.com" "Secret123" (env_at 100) site0).1
    = Returns (RedirectSetCookie (RedirectResponse ADMIN_DASHBOARD_ROUTE HTTP_302_FOUND)
                                 "access_token" tok max_age).
Proof.
  destruct (form_login_cookie_authenticates site_key (env_at 100) site0 "a@x.com"
              "Secret123" alice "$2b$12$saltsaSecret123" "admin")
    as (tok & max_age & Hrun & _).
  - vm_compute. reflexivity.
  - reflexivity.
  - vm_compute. reflexivity.
  - vm_compute. reflexivity.
  - reflexivity.
  - vm_compute. discriminate.
  - exists tok, max_age. exact Hrun.
Defined.

Lemma form_login_failure_files_nothing_witness :
  logins (login_for_access_token site_key "z@x.com" "pw" (env_at 100) site0).2 = [] /\
  logins (login_for_access_token site_key "b@x.com" "wrong" (env_at 100) site0).2 = [].
Proof.
  split.
  - destruct (proj1 (form_login_failure_files_nothing site_key (env_at 100) site0
                       "z@x.com" "pw")) as (_ & Hlogins & _).
    + vm_compute. reflexivity.
    + exact Hlogins.
  - destruct (proj2 (form_login_failure_files_nothing site_key (env_at 100) site0
                       "b@x.com" "wrong") bob "$2b$12$saltsahunter2") as (_ & Hlogins & _).
    + vm_compute. reflexivity.
    + reflexivity.
    + vm_compute. reflexivity.
    + vm_compute. reflexivity.
    + exact Hlogins.
Defined.

Lemma login_redirect_lands_witness :
  exists url tok max_age,
    (login_for_access_token site_key "b@x.com" "hunter2" (env_at 100) site0).1
    = Returns (RedirectSetCookie (RedirectResponse url HTTP_302_FOUND)
                                 "access_token" tok max_age) /\
    (url = ADMIN_DASHBOARD_ROUTE \/ url = DASHBOARD_ROUTE).
Proof.
  destruct (login_redirect_lands site_key (env_at 100) site0 "b@x.com" "hunter2" bob
              "$2b$12$saltsahunter2" "user")
    as (url & tok & max_age & Hrun & Hurl & _).
  - vm_compute. reflexivity.
  - reflexivity.
  - vm_compute. reflexivity.
  - vm_compute. reflexivity.
  - reflexivity.
  - vm_compute. discriminate.
  - exists url, tok, max_age. split; [exact Hrun|exact Hurl].
Defined.

Lemma admin_pages_only_for_admins_witness :
  users (route_get_admin_dashboard (with_cookie alice_token) None (env_at 100) world0).2
  = users world0.
Proof.
  refine (proj1 (admin_pages_only_for_admins strftime0 (env_at 100) world0
                   (with_cookie alice_token) None "b@x.com" _ _)).
  apply elem_of_cons. right. apply elem_of_cons. right. apply elem_of_cons. left.
  reflexivity.
Defined.

Lemma shipment_ids_stay_unique_witness :
  shipment_ids_unique
    (shipments (create_shipment errors_repr0 shipment_form alice (env_at 10) site0).2).
Proof.
  refine (proj1 (shipment_ids_stay_unique errors_repr0 (env_at 10) site0 shipment_form
                   alice "S-1" "delivered" "Paris" "2026-01-01" _)).
  apply (bool_decide_unpack _). vm_compute. exact I.
Defined.

Lemma created_shipment_round_trip_witness :
  (create_shipment errors_repr0 shipment_form alice (env_at 10) site0).1
  = Returns (RedirectResponse CREATE_SHIPMENT_ROUTE HTTP_302_FOUND) /\
  session (site_core site1) !! "flash" = Some "Shipment S-1 created successfully!".
Proof.
  destruct (created_shipment_round_trip errors_repr0 (env_at 10) site0 shipment_form alice
              (VStr "a@x.com") "S-1") as (Hrun & Hflash & _).
  - apply Forall_forall. apply (bool_decide_unpack _). vm_compute. exact I.
  - vm_compute. reflexivity.
  - reflexivity.
  - reflexivity.
  - split; [exact Hrun|exact Hflash].
Defined.

Lemma create_shipment_stores_nothing_witness :
  shipments (create_shipment errors_repr0 (delete "origin" shipment_form) alice
                             (env_at 10) site0).2
  = [].
Proof.
  destruct (create_shipment_stores_nothing errors_repr0 (env_at 10) site0
              (delete "origin" shipment_form) alice (VStr "a@x.com") eq_refl)
    as [Hmissing _].
  apply (Hmissing "origin").
  - apply (bool_decide_unpack _). vm_compute. exact I.
  - vm_compute. reflexivity.
Defined.

Lemma edit_shipment_changes_only_edited_fields_witness :
  length (shipments (post_edit_shipment alice "S-1" "delivered" "Paris" "2026-01-01"
                                        (env_at 20) site1).2)
  = length (shipments site1).
Proof.
  refine (proj1 (edit_shipment_changes_only_edited_fields (env_at 20) site1 alice
                   (VStr "a@x.com") "S-1" "delivered" "Paris" "2026-01-01" _)).
  reflexivity.
Defined.

Lemma shipment_routes_guarded_witness :
  shipments (route_delete_shipment (with_cookie bob_token) None "S-1" (env_at 20) site1).2
  = shipments site1.
Proof.
  destruct (shipment_routes_guarded errors_repr0 (env_at 20) site1 (with_cookie bob_token)
              None shipment_form alice "S-1" "delivered" "Paris" "2026-01-01")
    as [Hguard _].
  destruct (Hguard forbidden
              (db (Call_find_one [("email", CEq (VStr "b@x.com"))])
                  (users (site_core site1)) (site_core site1)))
    as (_ & _ & _ & Hdeleted).
  - vm_compute. reflexivity.
  - exact Hdeleted.
Defined.

Lemma gate_errors_as_json_witness :
  http_exception_handler forbidden
  = Some {| json_detail := "Not enough permissions"; json_status_code := 403;
            json_headers := [] |}.
Proof.
  destruct (gate_errors_as_json (env_at 100) world0 (with_cookie bob_token) None forbidden
              (db (Call_find_one [("email", CEq (VStr "b@x.com"))]) (users world0) world0))
    as [[Hother _]|[_ Hjson]].
  - vm_compute. reflexivity.
  - vm_compute in Hother. discriminate.
  - exact Hjson.
Defined.

End ScenariosMore.
